(** * SmartTrainer analysis engine: a shallow embedding and its properties

    The development follows the TypeScript sources of the [ai/] subsystem:
    the angle primitive, the repetition counter ([RepCounter]), the
    per-exercise analyzers, the stateless classifier ([classifyExercise]) and
    the orchestrator ([GeometricRuleEngine]).

    Modelling conventions.
    - A JavaScript [number] is a real number: arithmetic is exact, and there
      is no NaN, no infinity and no signed zero.  [Math.atan2] is the
      two-argument arctangent with [Math.atan2(0, 0) = 0], as ECMAScript
      fixes it.  Two conditions of the source compare against the result of
      a subtraction: [completion < thresholdHigh - 0.1] in
      [RepCounter.update] and [maxY - minY > 0.05] in [analyzeFrame].  In
      double precision the result is rounded (0.55 - 0.1 is
      0.45000000000000007, and 0.55 - 0.5 is 0.050000000000000044), so an
      input that sits exactly on such a boundary can fall on the other side
      in the source; the properties that say which way one of these two
      comparisons goes are stated for inputs off the boundary.
    - Every comparison of the source is a boolean function ([<?], [<=?], ...)
      so that conditions read as they do in the source.
    - Mutable objects become records threaded through the calls; a method
      returns its result together with the updated receiver.
    - Reading a property of [undefined] raises a [TypeError]; code that can
      do so lives in the [Completion] monad.
    - [Date.now()] is an input: every entry point takes the wall-clock
      reading [clock] that the call would observe. *)

From Stdlib Require Import Reals Lra Lia List String Bool Arith ZArith Sorted.
Import ListNotations.

Open Scope R_scope.

(* ================================================================== *)
(** ** JavaScript values and operators *)

Module JS.

Definition number := R.

Definition lt (x y : number) : bool := if Rlt_dec x y then true else false.
Definition le (x y : number) : bool := if Rle_dec x y then true else false.
Definition gt (x y : number) : bool := lt y x.
Definition ge (x y : number) : bool := le y x.
(** [x === y] on numbers. *)
Definition eq (x y : number) : bool := if Req_dec_T x y then true else false.

(** [x ?? d]: the default only replaces [null]/[undefined]. *)
Definition nullish {A : Type} (x : option A) (d : A) : A :=
  match x with Some v => v | None => d end.

(** [x || d] on a number: [0] is falsy too. *)
Definition falsy (v : number) : bool := eq v 0.
Definition or_num (v d : number) : number := if falsy v then d else v.
(** [x || d] on [number | null]. *)
Definition or_else (x : option number) (d : number) : number :=
  match x with Some v => or_num v d | None => d end.

(** Outcome of evaluating code that may raise. *)
Inductive Error := TypeError.
Inductive Completion (A : Type) :=
| Normal (a : A)
| Throw (e : Error).
Arguments Normal {A} a.
Arguments Throw {A} e.

Definition bind {A B : Type} (c : Completion A) (k : A -> Completion B)
  : Completion B :=
  match c with Normal a => k a | Throw e => Throw e end.

(** [Math.min(...xs)] and [Math.max(...xs)] of a non-empty array.  (On the
    empty array JavaScript answers with an infinity; no caller of this
    development passes one, and the model answers 0 there.) *)
Definition min_of (xs : list number) : number :=
  match xs with [] => 0 | x :: r => fold_left Rmin r x end.
Definition max_of (xs : list number) : number :=
  match xs with [] => 0 | x :: r => fold_left Rmax r x end.

(** [Math.floor]. *)
Definition floor (x : number) : number := IZR (Int_part x).

(** [Math.atan2(y, x)]. *)
Definition atan2 (y x : number) : number :=
  if lt 0 x then atan (y / x)
  else if lt x 0 then (if le 0 y then atan (y / x) + PI else atan (y / x) - PI)
  else if lt 0 y then PI / 2
  else if lt y 0 then - (PI / 2)
  else 0.

End JS.

Declare Scope js_scope.
Delimit Scope js_scope with js.
Notation "x <? y" := (JS.lt x y) (at level 70, no associativity) : js_scope.
Notation "x <=? y" := (JS.le x y) (at level 70, no associativity) : js_scope.
Notation "x >? y" := (JS.gt x y) (at level 70, no associativity) : js_scope.
Notation "x >=? y" := (JS.ge x y) (at level 70, no associativity) : js_scope.
Notation "x =? y" := (JS.eq x y) (at level 70, no associativity) : js_scope.
Notation "'let*' x := c 'in' k" := (JS.bind c (fun x => k))
  (at level 10, x name, c at level 100, k at level 200) : js_scope.
Notation "'let*' ' p := c 'in' k" := (JS.bind c (fun v => let 'p := v in k))
  (at level 10, p strict pattern, c at level 100, k at level 200) : js_scope.
Open Scope string_scope.
Open Scope list_scope.
Open Scope js_scope.
Open Scope R_scope.

Import JS.

(* ================================================================== *)
(** ** Shared data model ([ExerciseAnalyzer.ts]) *)

Record PoseLandmark := mkLandmark {
  x : number;
  y : number;
  z : number;
  visibility : number
}.

(** The scorers return their breakdown as an untyped object literal, and most
    of them leave [total] out: the field is optional here. *)
Record ScoreBreakdown := mkBreakdown {
  total : option number;
  stability : number;
  rom : number;
  posture : number;
  efficiency : number;
  bracing : number
}.

Inductive ExerciseType :=
| BarbellBicepsCurl | BenchPress | ChestFlyMachine | InclineBenchPress
| LatPulldown | LateralRaises | LegExtension | LegRaises
| Plank | PullUp | PushUp | RussianTwist
| Squat | TBarRow | TricepDips | AutoDetect.

Definition exerciseName (e : ExerciseType) : string :=
  match e with
  | BarbellBicepsCurl => "Barbell Biceps Curl"
  | BenchPress => "Bench Press"
  | ChestFlyMachine => "Chest Fly Machine"
  | InclineBenchPress => "Incline Bench Press"
  | LatPulldown => "Lat Pulldown"
  | LateralRaises => "Lateral Raises"
  | LegExtension => "Leg Extension"
  | LegRaises => "Leg Raises"
  | Plank => "Plank"
  | PullUp => "Pull Up"
  | PushUp => "Push Up"
  | RussianTwist => "Russian Twist"
  | Squat => "Squat"
  | TBarRow => "T-Bar Row"
  | TricepDips => "Tricep Dips"
  | AutoDetect => "Auto-Detect"
  end.

Definition ExerciseType_eqb (a b : ExerciseType) : bool :=
  match a, b with
  | BarbellBicepsCurl, BarbellBicepsCurl | BenchPress, BenchPress
  | ChestFlyMachine, ChestFlyMachine | InclineBenchPress, InclineBenchPress
  | LatPulldown, LatPulldown | LateralRaises, LateralRaises
  | LegExtension, LegExtension | LegRaises, LegRaises
  | Plank, Plank | PullUp, PullUp | PushUp, PushUp
  | RussianTwist, RussianTwist | Squat, Squat | TBarRow, TBarRow
  | TricepDips, TricepDips | AutoDetect, AutoDetect => true
  | _, _ => false
  end.

Record Feedback := mkFeedback {
  score : number;
  breakdown : ScoreBreakdown;
  reps : number;
  repPhase : string;
  message : string;
  correction : option string;
  isGoodForm : bool;
  jointAngles : option (list (string * number));
  detectedExercise : option ExerciseType
}.

(** [landmarks[i]] once the caller has checked [landmarks.length >= 33] and
    [i < 33]: the element is there.  ([undefinedLandmark] only fills the
    unreachable default.) *)
Definition undefinedLandmark : PoseLandmark := mkLandmark 0 0 0 0.
Definition lm (landmarks : list PoseLandmark) (i : nat) : PoseLandmark :=
  nth i landmarks undefinedLandmark.

(** [landmarks[i].f] with no prior check: a [TypeError] when the element is
    missing. *)
Definition prop (landmarks : list PoseLandmark) (i : nat)
  (f : PoseLandmark -> number) : Completion number :=
  match nth_error landmarks i with
  | Some p => Normal (f p)
  | None => Throw TypeError
  end.

(** [landmarks.length < 33]. *)
Definition tooShort (landmarks : list PoseLandmark) : bool :=
  Nat.ltb (List.length landmarks) 33.

(** [ExerciseAnalyzer.calculateAngle]; [BiomechanicalAnalyzer] and the
    classifier carry verbatim copies of it. *)
Definition calculateAngle (a b c : PoseLandmark) : number :=
  let radians := atan2 (y c - y b) (x c - x b) - atan2 (y a - y b) (x a - x b) in
  let angle := Rabs ((radians * 180) / PI) in
  if angle >? 180 then 360 - angle else angle.

(** The object every [emptyFeedback()] builds. *)
Definition zeroBreakdown : ScoreBreakdown := mkBreakdown (Some 0) 0 0 0 0 0.
Definition emptyFeedback : Feedback :=
  mkFeedback 0 zeroBreakdown 0 "Rest" "No Pose" None false None None.

(* ================================================================== *)
(** ** The repetition state machine (class [RepCounter] of [ExerciseAnalyzer.ts]) *)

Inductive RepPhase := Rest | Eccentric | Bottom | Concentric | Top.
Inductive CountMode := EccentricFirst | ConcentricFirst.

Definition phaseName (p : RepPhase) : string :=
  match p with
  | Rest => "Rest" | Eccentric => "Eccentric" | Bottom => "Bottom"
  | Concentric => "Concentric" | Top => "Top"
  end.

Definition RepPhase_eqb (p q : RepPhase) : bool :=
  match p, q with
  | Rest, Rest | Eccentric, Eccentric | Bottom, Bottom
  | Concentric, Concentric | Top, Top => true
  | _, _ => false
  end.

Record RepTimestamp := mkRepTimestamp {
  start : number;
  mid : number;
  end_ : number
}.

Module RepCounter.

Record t := mk {
  count : nat;
  currentPhase : RepPhase;
  lastPhaseTimestamp : number;
  thresholdHigh : number;
  thresholdLow : number;
  mode : CountMode;
  repTimestamps : list RepTimestamp;
  currentRepStartTime : option number;
  currentRepMidTime : option number;
  recordingStartTime : number
}.

(** [new RepCounter({ mode, thresholdHigh, thresholdLow })]; the field
    initialisers give the defaults 0.55 and 0.35. *)
Definition create (m : CountMode) (high low : number) : t :=
  mk 0 Rest 0 high low m [] None None 0.

(** [new RepCounter()] and [new RepCounter('ConcentricFirst')]. *)
Definition createDefault (m : CountMode) : t := create m 0.55 0.35.

Definition setRecordingStartTime (rc : t) (time : number) : t :=
  mk (count rc) (currentPhase rc) (lastPhaseTimestamp rc) (thresholdHigh rc)
     (thresholdLow rc) (mode rc) (repTimestamps rc) (currentRepStartTime rc)
     (currentRepMidTime rc) time.

(** Assignments to the fields [update] writes. *)
Definition setPhase (p : RepPhase) (rc : t) : t :=
  mk (count rc) p (lastPhaseTimestamp rc) (thresholdHigh rc)
     (thresholdLow rc) (mode rc) (repTimestamps rc) (currentRepStartTime rc)
     (currentRepMidTime rc) (recordingStartTime rc).
Definition setLastPhaseTimestamp (ts : number) (rc : t) : t :=
  mk (count rc) (currentPhase rc) ts (thresholdHigh rc)
     (thresholdLow rc) (mode rc) (repTimestamps rc) (currentRepStartTime rc)
     (currentRepMidTime rc) (recordingStartTime rc).
Definition setStart (s : option number) (rc : t) : t :=
  mk (count rc) (currentPhase rc) (lastPhaseTimestamp rc) (thresholdHigh rc)
     (thresholdLow rc) (mode rc) (repTimestamps rc) s
     (currentRepMidTime rc) (recordingStartTime rc).
Definition setMid (m : option number) (rc : t) : t :=
  mk (count rc) (currentPhase rc) (lastPhaseTimestamp rc) (thresholdHigh rc)
     (thresholdLow rc) (mode rc) (repTimestamps rc) (currentRepStartTime rc)
     m (recordingStartTime rc).
Definition incrCount (rc : t) : t :=
  mk (S (count rc)) (currentPhase rc) (lastPhaseTimestamp rc) (thresholdHigh rc)
     (thresholdLow rc) (mode rc) (repTimestamps rc) (currentRepStartTime rc)
     (currentRepMidTime rc) (recordingStartTime rc).
Definition pushTimestamp (r : RepTimestamp) (rc : t) : t :=
  mk (count rc) (currentPhase rc) (lastPhaseTimestamp rc) (thresholdHigh rc)
     (thresholdLow rc) (mode rc) (repTimestamps rc ++ [r]) (currentRepStartTime rc)
     (currentRepMidTime rc) (recordingStartTime rc).

(** The start of a rep: [if (this.currentRepStartTime === null)
    this.currentRepStartTime = currentMs]. *)
Definition markStart (currentMs : number) (rc : t) : t :=
  match currentRepStartTime rc with
  | None => setStart (Some currentMs) rc
  | Some _ => rc
  end.

(** The block that closes a rep: [count++], the phase and phase timestamp,
    and, when a start time is on record, the pushed [RepTimestamp] and the
    cleared markers. *)
Definition completeRep (next : RepPhase) (now currentMs : number) (rc : t) : t :=
  let rc := setLastPhaseTimestamp now (setPhase next (incrCount rc)) in
  match currentRepStartTime rc with
  | Some s =>
      setMid None (setStart None
        (pushTimestamp
           (mkRepTimestamp s (or_else (currentRepMidTime rc) currentMs) currentMs)
           rc))
  | None => rc
  end.

(** [update(completion, timestamp?)]: the counter after the call; the
    method's result is [{ count, phase }] of that counter. *)
Definition update (rc : t) (completion : number) (timestamp : option number)
  (clock : number) : t :=
  let now := nullish timestamp clock in
  let currentMs := now - recordingStartTime rc in
  match mode rc with
  | EccentricFirst =>
      match currentPhase rc with
      | Rest | Top =>
          if completion >? thresholdLow rc
          then markStart currentMs (setPhase Eccentric rc)
          else rc
      | Eccentric =>
          if completion >=? thresholdHigh rc
          then setMid (Some currentMs) (setLastPhaseTimestamp now (setPhase Bottom rc))
          else if completion <? thresholdLow rc
          then setMid None (setStart None (setPhase Top rc))
          else rc
      | Bottom =>
          if completion <? thresholdHigh rc - 0.1
          then setPhase Concentric rc
          else rc
      | Concentric =>
          if completion <=? thresholdLow rc
          then completeRep Top now currentMs rc
          else if completion >? thresholdHigh rc
          then setPhase Bottom rc
          else rc
      end
  | ConcentricFirst =>
      match currentPhase rc with
      | Rest | Bottom =>
          if completion >? thresholdLow rc
          then markStart currentMs (setPhase Concentric rc)
          else rc
      | Concentric =>
          if completion >=? thresholdHigh rc
          then setMid (Some currentMs) (setLastPhaseTimestamp now (setPhase Top rc))
          else if completion <? thresholdLow rc
          then setMid None (setStart None (setPhase Bottom rc))
          else rc
      | Top =>
          if completion <? thresholdHigh rc - 0.1
          then setPhase Eccentric rc
          else rc
      | Eccentric =>
          if completion <=? thresholdLow rc
          then completeRep Bottom now currentMs rc
          else if completion >? thresholdHigh rc
          then setPhase Top rc
          else rc
      end
  end.

Definition getCount (rc : t) : nat := count rc.
Definition getRepTimestamps (rc : t) : list RepTimestamp := repTimestamps rc.

Definition reset (rc : t) : t :=
  mk 0 Rest (lastPhaseTimestamp rc) (thresholdHigh rc) (thresholdLow rc)
     (mode rc) [] None None (recordingStartTime rc).

(** Feeding a sequence of [(completion, timestamp)] samples, one [update]
    call each; the wall clock is not consulted when the timestamp is given,
    so the samples carry it as [Some]. *)
Fixpoint feed (rc : t) (samples : list (number * number)) : t :=
  match samples with
  | [] => rc
  | (c, ts) :: rest => feed (update rc c (Some ts) 0) rest
  end.

(** Arbitrary calls: completion, optional timestamp, and the clock. *)
Fixpoint run (rc : t) (calls : list (number * option number * number)) : t :=
  match calls with
  | [] => rc
  | (c, ts, clock) :: rest => run (update rc c ts clock) rest
  end.

End RepCounter.

(* ================================================================== *)
(** ** The scorer base class ([analysis/BiomechanicalAnalyzer.ts]) *)

Inductive CameraView := Front | Side | FortyFive | Unknown.

(** [messages.length > 0 ? messages[0] : d], [messages.join(', ')] and a
    conditional [messages.push(s)]. *)
Definition firstOr (messages : list string) (d : string) : string :=
  match messages with m :: _ => m | [] => d end.
Definition join (messages : list string) : string := String.concat ", " messages.
Definition pushIf (c : bool) (s : string) (messages : list string) : list string :=
  if c then messages ++ [s] else messages.

Module BiomechanicalAnalyzer.

Definition maxHistoryLength : nat := 30.

Definition detectView (landmarks : list PoseLandmark) : CameraView :=
  if tooShort landmarks then Unknown
  else
    let leftShoulder := lm landmarks 11 in
    let rightShoulder := lm landmarks 12 in
    let xDiff := Rabs (x leftShoulder - x rightShoulder) in
    let zDiff := Rabs (or_num (z leftShoulder) 0 - or_num (z rightShoulder) 0) in
    if xDiff =? 0 then Side
    else
      let ratio := zDiff / xDiff in
      if ratio <? 0.5 then Front
      else if ratio >? 1.5 then Side
      else FortyFive.

(** The pillar defaults.  [history] is the receiver's 30-frame buffer. *)
Definition calculateStability (history : list (list PoseLandmark))
  (current : list PoseLandmark) (view : CameraView) : number :=
  if Nat.ltb (List.length history) 5 then 100 else 100.

Definition calculateROM (current : list PoseLandmark) (view : CameraView)
  : number := 100.

Definition calculatePosture (current : list PoseLandmark) (view : CameraView)
  : number :=
  let ear := lm current 8 in
  let shoulder := lm current 12 in
  let hip := lm current 24 in
  let angle := calculateAngle ear shoulder hip in
  let deviation := Rabs (180 - angle) in
  Rmax 0 (100 - deviation * 2).

Definition calculateEfficiency (current : list PoseLandmark) (phase : RepPhase)
  (view : CameraView) : number := 100.

Definition calculateBracing (current : list PoseLandmark) (view : CameraView)
  : number := 100.

(** The base [analyzePillars]: it is the only writer of [history].  Every
    scorer below overrides it with a version that leaves the buffer alone. *)
Definition analyzePillars (history : list (list PoseLandmark))
  (landmarks : list PoseLandmark) (repPhase : RepPhase) (view : CameraView)
  : ScoreBreakdown * list (list PoseLandmark) :=
  let history := history ++ [landmarks] in
  let history :=
    if Nat.ltb maxHistoryLength (List.length history) then List.tl history else history in
  (mkBreakdown (Some 0)
     (calculateStability history landmarks view)
     (calculateROM landmarks view)
     (calculatePosture landmarks view)
     (calculateEfficiency landmarks repPhase view)
     (calculateBracing landmarks view),
   history).

End BiomechanicalAnalyzer.

(** The state of an analyzer built from one scorer and one [RepCounter]. *)
Record RepAnalyzer := mkRepAnalyzer {
  history : list (list PoseLandmark);
  repCounter : RepCounter.t
}.

Definition withCounter (a : RepAnalyzer) (rc : RepCounter.t) : RepAnalyzer :=
  mkRepAnalyzer (history a) rc.

(* ================================================================== *)
(** ** [exercises/TBarRowAnalyzer.ts] *)

Module RowBiomechanics.

Definition calculatePosture (current : list PoseLandmark) (view : CameraView)
  : number :=
  match view with
  | Front => 100
  | _ =>
      let shoulder := lm current 12 in
      let hip := lm current 24 in
      let dx := Rabs (x shoulder - x hip) in
      let dy := Rabs (y shoulder - y hip) in
      let angleFromHorizontal := atan2 dy dx * (180 / PI) in
      if angleFromHorizontal >? 70 then 40
      else if angleFromHorizontal <? 20 then 50
      else if (angleFromHorizontal >=? 30) && (angleFromHorizontal <=? 60) then 100
      else 80
  end.

Definition calculateBracing (current : list PoseLandmark) (view : CameraView)
  : number :=
  match view with
  | Front => 100
  | _ =>
      let ear := lm current 8 in
      let shoulder := lm current 12 in
      let hip := lm current 24 in
      let spineAngle := calculateAngle ear shoulder hip in
      if Rabs (180 - spineAngle) >? 20 then 50
      else
        let elbowTuck := calculateAngle hip shoulder (lm current 14) in
        if elbowTuck >? 60 then 60 else 100
  end.

Definition calculateStability (current : list PoseLandmark) (view : CameraView)
  : number :=
  match view with Side => 100 | _ => 100 end.

Definition calculateROM (current : list PoseLandmark) (view : CameraView)
  : number := 100.

(** The override hard-codes [posture] and [bracing]; the two methods above
    are never called. *)
Definition analyzePillars (landmarks : list PoseLandmark) (repPhase : RepPhase)
  (view : CameraView) : ScoreBreakdown :=
  mkBreakdown None
    (calculateStability landmarks view)
    (calculateROM landmarks view)
    100
    (BiomechanicalAnalyzer.calculateEfficiency landmarks repPhase view)
    100.

End RowBiomechanics.

Module TBarRowAnalyzer.

Definition create : RepAnalyzer :=
  mkRepAnalyzer [] (RepCounter.createDefault EccentricFirst).

Definition analyze (st : RepAnalyzer) (landmarks : list PoseLandmark)
  (timestamp : option number) (clock : number) : Feedback * RepAnalyzer :=
  if tooShort landmarks then (emptyFeedback, st)
  else
    let view := BiomechanicalAnalyzer.detectView landmarks in
    let elbowAngle :=
      calculateAngle (lm landmarks 12) (lm landmarks 14) (lm landmarks 16) in
    let normalizedPos := Rmin 1 (Rmax 0 ((170 - elbowAngle) / 90)) in
    let rc := RepCounter.update (repCounter st) normalizedPos timestamp clock in
    let phase := RepCounter.currentPhase rc in
    let pillarScores := RowBiomechanics.analyzePillars landmarks phase view in
    let messages :=
      match view with
      | Side =>
          let messages :=
            if posture pillarScores <? 50 then ["Bend Over ~45°"]
            else if posture pillarScores <? 60 then ["Not So Flat"]
            else [] in
          if bracing pillarScores <? 60
          then (if bracing pillarScores <? 50
                then messages ++ ["Straighten Back"]
                else messages ++ ["Tuck Elbows"])
          else messages
      | _ => pushIf (stability pillarScores <? 70) "Even Pull" []
      end in
    let totalScore :=
      posture pillarScores * 0.4 +
      bracing pillarScores * 0.3 +
      rom pillarScores * 0.3 in
    (mkFeedback totalScore pillarScores (INR (RepCounter.count rc))
       (phaseName phase) (firstOr messages (phaseName phase))
       (Some (join messages)) (totalScore >? 80)
       (Some [("elbow", elbowAngle)]) None,
     withCounter st rc).

End TBarRowAnalyzer.

(* ================================================================== *)
(** ** [exercises/BicepCurlAnalyzer.ts] *)

Module CurlBiomechanics.

Definition calculateStability (current : list PoseLandmark) (view : CameraView)
  : number :=
  match view with
  | Front => 100
  | _ =>
      let shoulder := lm current 12 in
      let elbow := lm current 14 in
      let diff := Rabs (x shoulder - x elbow) in
      if diff >? 0.15 then 60 else 100
  end.

Definition calculateEfficiency (current : list PoseLandmark) (phase : RepPhase)
  (view : CameraView) : number :=
  match view with
  | Side => 100
  | _ =>
      let shoulder := lm current 12 in
      let elbow := lm current 14 in
      let hip := lm current 24 in
      let angle := calculateAngle elbow shoulder hip in
      if angle >? 30 then 60 else 100
  end.

Definition calculateROM (current : list PoseLandmark) (view : CameraView)
  : number := 100.

Definition analyzePillars (landmarks : list PoseLandmark) (repPhase : RepPhase)
  (view : CameraView) : ScoreBreakdown :=
  mkBreakdown None
    (calculateStability landmarks view)
    (calculateROM landmarks view)
    100
    (calculateEfficiency landmarks repPhase view)
    100.

End CurlBiomechanics.

Module BicepCurlAnalyzer.

Definition create : RepAnalyzer :=
  mkRepAnalyzer [] (RepCounter.createDefault EccentricFirst).

Definition analyze (st : RepAnalyzer) (landmarks : list PoseLandmark)
  (timestamp : option number) (clock : number) : Feedback * RepAnalyzer :=
  if tooShort landmarks then (emptyFeedback, st)
  else
    let view := BiomechanicalAnalyzer.detectView landmarks in
    let elbowAngle :=
      calculateAngle (lm landmarks 12) (lm landmarks 14) (lm landmarks 16) in
    let normalizedPos := Rmin 1 (Rmax 0 ((160 - elbowAngle) / 100)) in
    let rc := RepCounter.update (repCounter st) normalizedPos timestamp clock in
    let phase := RepCounter.currentPhase rc in
    let pillarScores := CurlBiomechanics.analyzePillars landmarks phase view in
    let messages :=
      match view with
      | Side => pushIf (stability pillarScores <? 70) "Pin Elbows" []
      | _ => pushIf (efficiency pillarScores <? 70) "Elbows In" []
      end in
    let messages :=
      pushIf (RepPhase_eqb phase Bottom && (normalizedPos >? 0.1))
        "Full Extension" messages in
    let totalScore :=
      rom pillarScores * 0.4 +
      stability pillarScores * 0.4 +
      efficiency pillarScores * 0.2 in
    (mkFeedback totalScore pillarScores (INR (RepCounter.count rc))
       (phaseName phase) (firstOr messages (phaseName phase))
       (Some (join messages)) (totalScore >? 80)
       (Some [("elbow", elbowAngle)]) None,
     withCounter st rc).

End BicepCurlAnalyzer.

(** ** [PullUpAnalyzer] (second class of [exercises/BicepCurlAnalyzer.ts]) *)

Module PullUpBiomechanics.

Definition calculateStability (current : list PoseLandmark) (view : CameraView)
  : number :=
  match view with
  | Side =>
      let shoulder := lm current 12 in
      let hip := lm current 24 in
      let xDiff := Rabs (x shoulder - x hip) in
      if xDiff >? 0.15 then 60 else 100
  | Front =>
      let leftSh := lm current 11 in
      let rightSh := lm current 12 in
      if Rabs (y leftSh - y rightSh) >? 0.05 then 70 else 100
  | _ => 100
  end.

Definition calculateROM (current : list PoseLandmark) (view : CameraView)
  : number :=
  let chin := lm current 2 in
  let wrist := lm current 16 in
  if y chin <? y wrist then 100 else 80.

Definition analyzePillars (landmarks : list PoseLandmark) (repPhase : RepPhase)
  (view : CameraView) : ScoreBreakdown :=
  mkBreakdown None
    (calculateStability landmarks view)
    (calculateROM landmarks view)
    100
    (BiomechanicalAnalyzer.calculateEfficiency landmarks repPhase view)
    100.

End PullUpBiomechanics.

Module PullUpAnalyzer.

Definition create : RepAnalyzer :=
  mkRepAnalyzer [] (RepCounter.create ConcentricFirst 0.55 0.40).

Definition analyze (st : RepAnalyzer) (landmarks : list PoseLandmark)
  (timestamp : option number) (clock : number) : Feedback * RepAnalyzer :=
  if tooShort landmarks then (emptyFeedback, st)
  else
    let view := BiomechanicalAnalyzer.detectView landmarks in
    let elbowAngle :=
      calculateAngle (lm landmarks 12) (lm landmarks 14) (lm landmarks 16) in
    let normalizedPos := Rmin 1 (Rmax 0 ((170 - elbowAngle) / 120)) in
    let rc := RepCounter.update (repCounter st) normalizedPos timestamp clock in
    let phase := RepCounter.currentPhase rc in
    let pillarScores := PullUpBiomechanics.analyzePillars landmarks phase view in
    let messages :=
      match view with
      | Side =>
          pushIf (RepPhase_eqb phase Top && (rom pillarScores <? 70)) "Chest to Bar"
            (pushIf (stability pillarScores <? 70) "No Swinging" [])
      | _ => pushIf (stability pillarScores <? 70) "Pull Evenly" []
      end in
    let messages :=
      pushIf (RepPhase_eqb phase Bottom && (normalizedPos >? 0.1))
        "Full Hang" messages in
    let totalScore :=
      rom pillarScores * 0.4 +
      stability pillarScores * 0.3 +
      bracing pillarScores * 0.3 in
    (mkFeedback totalScore pillarScores (INR (RepCounter.count rc))
       (phaseName phase) (firstOr messages (phaseName phase))
       (Some (join messages)) (totalScore >? 80)
       (Some [("elbow", elbowAngle)]) None,
     withCounter st rc).

End PullUpAnalyzer.

(* ================================================================== *)
(** ** [exercises/PushupAnalyzer.ts] *)

Module PushUpBiomechanics.

Definition calculateBracing (current : list PoseLandmark) (view : CameraView)
  : number :=
  let leftHipAngle :=
    calculateAngle (lm current 11) (lm current 23) (lm current 25) in
  let rightHipAngle :=
    calculateAngle (lm current 12) (lm current 24) (lm current 26) in
  let hipAngle := (leftHipAngle + rightHipAngle) / 2 in
  if hipAngle <? 150 then 60
  else if hipAngle <? 165 then 80
  else if hipAngle >? 190 then 70
  else 100.

Definition calculateROM (current : list PoseLandmark) (view : CameraView)
  : number :=
  let elbowAngle :=
    (calculateAngle (lm current 11) (lm current 13) (lm current 15) +
     calculateAngle (lm current 12) (lm current 14) (lm current 16)) / 2 in
  100.

Definition calculateStability (current : list PoseLandmark) (view : CameraView)
  : number := 100.

Definition analyzePillars (landmarks : list PoseLandmark) (repPhase : RepPhase)
  (view : CameraView) : ScoreBreakdown :=
  mkBreakdown (Some 0)
    (calculateStability landmarks view)
    (calculateROM landmarks view)
    (BiomechanicalAnalyzer.calculatePosture landmarks view)
    (BiomechanicalAnalyzer.calculateEfficiency landmarks repPhase view)
    (calculateBracing landmarks view).

End PushUpBiomechanics.

Module PushUpAnalyzer.

Definition create : RepAnalyzer :=
  mkRepAnalyzer [] (RepCounter.create EccentricFirst 0.60 0.35).

Definition analyze (st : RepAnalyzer) (landmarks : list PoseLandmark)
  (timestamp : option number) (clock : number) : Feedback * RepAnalyzer :=
  if tooShort landmarks then (emptyFeedback, st)
  else
    let view := BiomechanicalAnalyzer.detectView landmarks in
    let leftElbow :=
      calculateAngle (lm landmarks 11) (lm landmarks 13) (lm landmarks 15) in
    let rightElbow :=
      calculateAngle (lm landmarks 12) (lm landmarks 14) (lm landmarks 16) in
    let elbowAngle := (leftElbow + rightElbow) / 2 in
    let normalizedPos := Rmin 1 (Rmax 0 ((170 - elbowAngle) / 80)) in
    let rc := RepCounter.update (repCounter st) normalizedPos timestamp clock in
    let phase := RepCounter.currentPhase rc in
    let pillarScores := PushUpBiomechanics.analyzePillars landmarks phase view in
    let messages := pushIf (bracing pillarScores <? 70) "Tighten Core" [] in
    let messages := pushIf (posture pillarScores <? 70) "Straight Body" messages in
    let messages :=
      pushIf (RepPhase_eqb phase Bottom && (rom pillarScores <? 70))
        "Go Lower" messages in
    let totalScore :=
      rom pillarScores * 0.3 +
      stability pillarScores * 0.2 +
      bracing pillarScores * 0.3 +
      posture pillarScores * 0.2 in
    (mkFeedback totalScore pillarScores (INR (RepCounter.count rc))
       (phaseName phase)
       (firstOr messages
          (if RepPhase_eqb phase Rest then "Get Set" else phaseName phase))
       (Some (join messages)) (totalScore >? 80)
       (Some [("elbow", elbowAngle)]) None,
     withCounter st rc).

End PushUpAnalyzer.

(* ================================================================== *)
(** ** [exercises/LegExtensionAnalyzer.ts] *)

Module LegExtBiomechanics.

Definition calculateROM (current : list PoseLandmark) (view : CameraView)
  : number := 100.

Definition calculateStability (current : list PoseLandmark) (view : CameraView)
  : number :=
  let leftHipAngle :=
    calculateAngle (lm current 11) (lm current 23) (lm current 25) in
  let rightHipAngle :=
    calculateAngle (lm current 12) (lm current 24) (lm current 26) in
  let hipAngle := Rmax leftHipAngle rightHipAngle in
  if hipAngle >? 130 then 60 else 100.

Definition analyzePillars (landmarks : list PoseLandmark) (repPhase : RepPhase)
  (view : CameraView) : ScoreBreakdown :=
  mkBreakdown None
    (calculateStability landmarks view)
    (calculateROM landmarks view)
    100 100 100.

End LegExtBiomechanics.

Module LegExtensionAnalyzer.

Definition create : RepAnalyzer :=
  mkRepAnalyzer [] (RepCounter.createDefault ConcentricFirst).

Definition analyze (st : RepAnalyzer) (landmarks : list PoseLandmark)
  (timestamp : option number) (clock : number) : Feedback * RepAnalyzer :=
  if tooShort landmarks then (emptyFeedback, st)
  else
    let view := BiomechanicalAnalyzer.detectView landmarks in
    let leftKneeAngle :=
      calculateAngle (lm landmarks 23) (lm landmarks 25) (lm landmarks 27) in
    let rightKneeAngle :=
      calculateAngle (lm landmarks 24) (lm landmarks 26) (lm landmarks 28) in
    let kneeAngle :=
      match view with
      | Side => Rmax leftKneeAngle rightKneeAngle
      | _ => (leftKneeAngle + rightKneeAngle) / 2
      end in
    let normalizedPos := Rmin 1 (Rmax 0 ((kneeAngle - 90) / 65)) in
    let rc := RepCounter.update (repCounter st) normalizedPos timestamp clock in
    let phase := RepCounter.currentPhase rc in
    let pillarScores := LegExtBiomechanics.analyzePillars landmarks phase view in
    let messages :=
      pushIf ((RepPhase_eqb phase Concentric || RepPhase_eqb phase Top)
              && ((kneeAngle <? 145) && (normalizedPos >? 0.8)))
        "Extend More" [] in
    let leftHipAngle :=
      calculateAngle (lm landmarks 11) (lm landmarks 23) (lm landmarks 25) in
    let rightHipAngle :=
      calculateAngle (lm landmarks 12) (lm landmarks 24) (lm landmarks 26) in
    let hipAngle := Rmax leftHipAngle rightHipAngle in
    let messages := pushIf (hipAngle >? 145) "Keep Hips Down" messages in
    let totalScore :=
      rom pillarScores * 0.4 +
      stability pillarScores * 0.3 +
      posture pillarScores * 0.3 in
    (mkFeedback totalScore pillarScores (INR (RepCounter.count rc))
       (phaseName phase) (firstOr messages (phaseName phase))
       (Some (join messages)) (totalScore >? 80)
       (Some [("knee", kneeAngle)]) None,
     withCounter st rc).

End LegExtensionAnalyzer.

(* ================================================================== *)
(** ** [exercises/TricepDipsAnalyzer.ts] *)

Module DipsBiomechanics.

(** [checkShoulderDepression] is private and has no caller. *)
Definition checkShoulderDepression (current : list PoseLandmark) : number :=
  match nth_error current 7, nth_error current 11, nth_error current 23 with
  | Some leftEar, Some leftShoulder, Some leftHip =>
      let torsoLen := Rabs (y leftShoulder - y leftHip) in
      let neckLen := Rabs (y leftEar - y leftShoulder) in
      if neckLen <? torsoLen * 0.15 then 60 else 100
  | _, _, _ => 100
  end.

Definition calculatePosture (current : list PoseLandmark) (view : CameraView)
  : number :=
  match view with
  | Front => 100
  | _ =>
      match nth_error current 11, nth_error current 23 with
      | Some shoulder, Some hip =>
          let angle :=
            calculateAngle (mkLandmark (x hip) (y hip - 100) 0 1) hip shoulder in
          if Rabs angle >? 45 then 60 else 100
      | _, _ => 100
      end
  end.

Definition calculateEfficiency (current : list PoseLandmark) (phase : RepPhase)
  (view : CameraView) : number :=
  match view with
  | Side => 100
  | _ =>
      match nth_error current 11, nth_error current 13, nth_error current 23 with
      | Some shoulder, Some elbow, Some hip =>
          let angle := calculateAngle elbow shoulder hip in
          if angle >? 45 then 60 else 100
      | _, _, _ => 100
      end
  end.

Definition calculateROM (current : list PoseLandmark) (view : CameraView)
  : number := 100.

(** [calculateStability] is inherited. *)
Definition analyzePillars (history : list (list PoseLandmark))
  (landmarks : list PoseLandmark) (repPhase : RepPhase) (view : CameraView)
  : ScoreBreakdown :=
  mkBreakdown None
    (BiomechanicalAnalyzer.calculateStability history landmarks view)
    (calculateROM landmarks view)
    (calculatePosture landmarks view)
    (calculateEfficiency landmarks repPhase view)
    100.

End DipsBiomechanics.

Module TricepDipsAnalyzer.

Definition create : RepAnalyzer :=
  mkRepAnalyzer [] (RepCounter.create EccentricFirst 0.65 0.25).

Definition analyze (st : RepAnalyzer) (landmarks : list PoseLandmark)
  (timestamp : option number) (clock : number) : Feedback * RepAnalyzer :=
  if tooShort landmarks then (emptyFeedback, st)
  else
    let view := BiomechanicalAnalyzer.detectView landmarks in
    let leftElbow :=
      calculateAngle (lm landmarks 11) (lm landmarks 13) (lm landmarks 15) in
    let rightElbow :=
      calculateAngle (lm landmarks 12) (lm landmarks 14) (lm landmarks 16) in
    let elbowAngle := (leftElbow + rightElbow) / 2 in
    let normalizedPos := Rmin 1 (Rmax 0 ((180 - elbowAngle) / 90)) in
    let rc := RepCounter.update (repCounter st) normalizedPos timestamp clock in
    let phase := RepCounter.currentPhase rc in
    let pillarScores :=
      DipsBiomechanics.analyzePillars (history st) landmarks phase view in
    let messages :=
      pushIf (RepPhase_eqb phase Bottom && (elbowAngle >? 100)) "Go Deeper" [] in
    let messages := pushIf (posture pillarScores <? 70) "Torso Upright" messages in
    let messages := pushIf (stability pillarScores <? 70) "Shoulders Down" messages in
    let messages := pushIf (efficiency pillarScores <? 70) "Elbows In" messages in
    let totalScore :=
      rom pillarScores * 0.4 +
      posture pillarScores * 0.3 +
      stability pillarScores * 0.3 in
    (mkFeedback totalScore pillarScores (INR (RepCounter.count rc))
       (phaseName phase) (firstOr messages (phaseName phase))
       (Some (join messages)) (totalScore >? 80)
       (Some [("elbow", elbowAngle)]) None,
     withCounter st rc).

End TricepDipsAnalyzer.

(* ================================================================== *)
(** ** [exercises/ChestFlyAnalyzer.ts] *)

Module FlyBiomechanics.

Definition calculateROM (current : list PoseLandmark) (view : CameraView)
  : number :=
  match view with
  | Front => 100
  | _ =>
      let elbowAngle :=
        calculateAngle (lm current 12) (lm current 14) (lm current 16) in
      if elbowAngle <? 120 then 50 else 100
  end.

Definition calculateStability (current : list PoseLandmark) (view : CameraView)
  : number :=
  match view with
  | Side => 100
  | _ =>
      let diff := Rabs (y (lm current 13) - y (lm current 14)) in
      if diff >? 0.1 then 60 else 100
  end.

Definition analyzePillars (landmarks : list PoseLandmark) (repPhase : RepPhase)
  (view : CameraView) : ScoreBreakdown :=
  mkBreakdown (Some 0)
    (calculateStability landmarks view)
    (calculateROM landmarks view)
    100 100 100.

End FlyBiomechanics.

Module ChestFlyAnalyzer.

Definition create : RepAnalyzer :=
  mkRepAnalyzer [] (RepCounter.createDefault EccentricFirst).

Definition analyze (st : RepAnalyzer) (landmarks : list PoseLandmark)
  (timestamp : option number) (clock : number) : Feedback * RepAnalyzer :=
  if tooShort landmarks then (emptyFeedback, st)
  else
    let view := BiomechanicalAnalyzer.detectView landmarks in
    let wristDist := Rabs (x (lm landmarks 16) - x (lm landmarks 15)) in
    let shoulderDist := Rabs (x (lm landmarks 12) - x (lm landmarks 11)) in
    let shoulderDist := if shoulderDist =? 0 then 0.1 else shoulderDist in
    let ratio := wristDist / shoulderDist in
    let normalizedPos := 1 - ((ratio - 0.5) / 2.0) in
    let normalizedPos := Rmax 0 (Rmin 1 normalizedPos) in
    let rc := RepCounter.update (repCounter st) normalizedPos timestamp clock in
    let phase := RepCounter.currentPhase rc in
    let pillarScores := FlyBiomechanics.analyzePillars landmarks phase view in
    let messages :=
      match view with
      | Side => pushIf (rom pillarScores <? 70) "Don't Press" []
      | _ => pushIf (stability pillarScores <? 70) "Balance Arms" []
      end in
    let totalScore :=
      rom pillarScores * 0.5 +
      stability pillarScores * 0.5 in
    (mkFeedback totalScore pillarScores (INR (RepCounter.count rc))
       (phaseName phase) (firstOr messages (phaseName phase))
       (Some (join messages)) (totalScore >? 80)
       (Some [("elbow", 0)]) None,
     withCounter st rc).

End ChestFlyAnalyzer.

(* ================================================================== *)
(** ** [InclineBenchAnalyzer] ([unnamed/part_001]) *)

Module InclineBiomechanics.

Definition calculateEfficiency (current : list PoseLandmark) (phase : RepPhase)
  (view : CameraView) : number :=
  match view with
  | Front =>
      let leftShoulder := lm current 11 in
      let leftElbow := lm current 13 in
      let leftHip := lm current 23 in
      let leftAngle := calculateAngle leftElbow leftShoulder leftHip in
      let rightShoulder := lm current 12 in
      let rightElbow := lm current 14 in
      let rightHip := lm current 24 in
      let rightAngle := calculateAngle rightElbow rightShoulder rightHip in
      let angle := (leftAngle + rightAngle) / 2 in
      if angle >? 70 then 60
      else if angle <? 30 then 70
      else 100
  | _ => 100
  end.

Definition calculateROM (current : list PoseLandmark) (view : CameraView)
  : number :=
  let leftElbow :=
    calculateAngle (lm current 11) (lm current 13) (lm current 15) in
  let rightElbow :=
    calculateAngle (lm current 12) (lm current 14) (lm current 16) in
  let elbowAngle := (leftElbow + rightElbow) / 2 in
  if elbowAngle <? 45 then 100
  else if elbowAngle <? 60 then 85
  else if elbowAngle <? 90 then 60
  else 40.

(** [calculateStability] is inherited. *)
Definition analyzePillars (history : list (list PoseLandmark))
  (landmarks : list PoseLandmark) (repPhase : RepPhase) (view : CameraView)
  : ScoreBreakdown :=
  mkBreakdown None
    (BiomechanicalAnalyzer.calculateStability history landmarks view)
    (calculateROM landmarks view)
    100
    (calculateEfficiency landmarks repPhase view)
    100.

End InclineBiomechanics.

Module InclineBenchAnalyzer.

Definition create : RepAnalyzer :=
  mkRepAnalyzer [] (RepCounter.create EccentricFirst 0.75 0.25).

Definition analyze (st : RepAnalyzer) (landmarks : list PoseLandmark)
  (timestamp : option number) (clock : number) : Feedback * RepAnalyzer :=
  if tooShort landmarks then (emptyFeedback, st)
  else
    let view := BiomechanicalAnalyzer.detectView landmarks in
    let leftElbow :=
      calculateAngle (lm landmarks 11) (lm landmarks 13) (lm landmarks 15) in
    let rightElbow :=
      calculateAngle (lm landmarks 12) (lm landmarks 14) (lm landmarks 16) in
    let elbowAngle := (leftElbow + rightElbow) / 2 in
    let normalizedPos := Rmin 1 (Rmax 0 ((170 - elbowAngle) / 100)) in
    let rc := RepCounter.update (repCounter st) normalizedPos timestamp clock in
    let phase := RepCounter.currentPhase rc in
    let pillarScores :=
      InclineBiomechanics.analyzePillars (history st) landmarks phase view in
    let messages :=
      match view with
      | Front => pushIf (efficiency pillarScores <? 70) "Tuck Elbows" []
      | _ => pushIf (efficiency pillarScores <? 70) "Touch Upper Chest" []
      end in
    let totalScore :=
      stability pillarScores * 0.3 +
      efficiency pillarScores * 0.3 +
      rom pillarScores * 0.2 +
      bracing pillarScores * 0.2 in
    (mkFeedback totalScore pillarScores (INR (RepCounter.count rc))
       (phaseName phase) (firstOr messages (phaseName phase))
       (Some (join messages)) (totalScore >? 80)
       (Some [("elbow", elbowAngle)]) None,
     withCounter st rc).

End InclineBenchAnalyzer.

(** ** [BenchPressAnalyzer] ([unnamed/part_001]) *)

Module BenchPressBiomechanics.

Definition calculateEfficiency (current : list PoseLandmark) (phase : RepPhase)
  (view : CameraView) : number :=
  let shoulder := lm current 12 in
  let elbow := lm current 14 in
  let hip := lm current 24 in
  match view with
  | Front =>
      let flareAngle := calculateAngle elbow shoulder hip in
      if flareAngle >? 75 then 60
      else if flareAngle <? 30 then 80
      else 100
  | Side =>
      let wrist := lm current 16 in
      let xDiff := Rabs (x wrist - x elbow) in
      if xDiff >? 0.1 then 70 else 100
  | _ => 100
  end.

Definition calculateStability (current : list PoseLandmark) (view : CameraView)
  : number :=
  match view with
  | Front =>
      let leftWrist := lm current 15 in
      let rightWrist := lm current 16 in
      if Rabs (y leftWrist - y rightWrist) >? 0.05 then 60 else 100
  | _ => 100
  end.

Definition calculateROM (current : list PoseLandmark) (view : CameraView)
  : number := 100.

Definition analyzePillars (landmarks : list PoseLandmark) (repPhase : RepPhase)
  (view : CameraView) : ScoreBreakdown :=
  mkBreakdown None
    (calculateStability landmarks view)
    (calculateROM landmarks view)
    100
    (calculateEfficiency landmarks repPhase view)
    100.

End BenchPressBiomechanics.

Module BenchPressAnalyzer.

Definition create : RepAnalyzer :=
  mkRepAnalyzer [] (RepCounter.createDefault EccentricFirst).

Definition analyze (st : RepAnalyzer) (landmarks : list PoseLandmark)
  (timestamp : option number) (clock : number) : Feedback * RepAnalyzer :=
  if tooShort landmarks then (emptyFeedback, st)
  else
    let view := BiomechanicalAnalyzer.detectView landmarks in
    let elbowAngle :=
      calculateAngle (lm landmarks 12) (lm landmarks 14) (lm landmarks 16) in
    let normalizedPos := Rmin 1 (Rmax 0 ((160 - elbowAngle) / 60)) in
    let rc := RepCounter.update (repCounter st) normalizedPos timestamp clock in
    let phase := RepCounter.currentPhase rc in
    let pillarScores := BenchPressBiomechanics.analyzePillars landmarks phase view in
    let messages :=
      match view with
      | Front =>
          pushIf (stability pillarScores <? 70) "Uneven Grip"
            (pushIf (efficiency pillarScores <? 70) "Tuck Elbows" [])
      | _ => pushIf (efficiency pillarScores <? 70) "Fix Bar Path" []
      end in
    let totalScore :=
      stability pillarScores * 0.3 +
      efficiency pillarScores * 0.3 +
      rom pillarScores * 0.2 +
      bracing pillarScores * 0.2 in
    (mkFeedback totalScore pillarScores (INR (RepCounter.count rc))
       (phaseName phase) (firstOr messages (phaseName phase))
       (Some (join messages)) (totalScore >? 80)
       (Some [("elbow", elbowAngle)]) None,
     withCounter st rc).

End BenchPressAnalyzer.

(* ================================================================== *)
(** ** [LegRaisesAnalyzer] ([unnamed/part_002]) *)

Module LegRaiseBiomechanics.

Definition calculateStability (history : list (list PoseLandmark))
  (current : list PoseLandmark) (view : CameraView) : number :=
  let shrug :=
    if Nat.ltb 5 (List.length history)
    then
      let first := nth 0 history [] in
      let firstShoulderY := (y (lm first 11) + y (lm first 12)) / 2 in
      let currentShoulderY := (y (lm current 11) + y (lm current 12)) / 2 in
      let shoulderMovement := Rabs (currentShoulderY - firstShoulderY) in
      shoulderMovement >? 0.05
    else false in
  if shrug then 60
  else
    match view with
    | Side =>
        let shoulderX := (x (lm current 11) + x (lm current 12)) / 2 in
        let hipX := (x (lm current 23) + x (lm current 24)) / 2 in
        if Rabs (shoulderX - hipX) >? 0.15 then 70 else 100
    | _ => 100
    end.

Definition calculateROM (current : list PoseLandmark) (view : CameraView)
  : number :=
  let hipAngle :=
    (calculateAngle (lm current 11) (lm current 23) (lm current 25) +
     calculateAngle (lm current 12) (lm current 24) (lm current 26)) / 2 in
  if hipAngle <=? 90 then 100
  else if hipAngle <=? 110 then 85
  else if hipAngle <=? 130 then 60
  else 40.

Definition calculateEfficiency (current : list PoseLandmark) (phase : RepPhase)
  (view : CameraView) : number :=
  let leftKnee :=
    calculateAngle (lm current 23) (lm current 25) (lm current 27) in
  let rightKnee :=
    calculateAngle (lm current 24) (lm current 26) (lm current 28) in
  let avgKnee := (leftKnee + rightKnee) / 2 in
  if avgKnee <? 150 then 60
  else if avgKnee <? 165 then 85
  else 100.

Definition analyzePillars (history : list (list PoseLandmark))
  (landmarks : list PoseLandmark) (repPhase : RepPhase) (view : CameraView)
  : ScoreBreakdown :=
  mkBreakdown None
    (calculateStability history landmarks view)
    (calculateROM landmarks view)
    100
    (calculateEfficiency landmarks repPhase view)
    100.

End LegRaiseBiomechanics.

Module LegRaisesAnalyzer.

Definition create : RepAnalyzer :=
  mkRepAnalyzer [] (RepCounter.create ConcentricFirst 0.70 0.30).

Definition analyze (st : RepAnalyzer) (landmarks : list PoseLandmark)
  (timestamp : option number) (clock : number) : Feedback * RepAnalyzer :=
  if tooShort landmarks then (emptyFeedback, st)
  else
    let view := BiomechanicalAnalyzer.detectView landmarks in
    let leftHip :=
      calculateAngle (lm landmarks 11) (lm landmarks 23) (lm landmarks 25) in
    let rightHip :=
      calculateAngle (lm landmarks 12) (lm landmarks 24) (lm landmarks 26) in
    let hipAngle := (leftHip + rightHip) / 2 in
    let normalizedPos := Rmin 1 (Rmax 0 ((170 - hipAngle) / 80)) in
    let rc := RepCounter.update (repCounter st) normalizedPos timestamp clock in
    let phase := RepCounter.currentPhase rc in
    let pillarScores :=
      LegRaiseBiomechanics.analyzePillars (history st) landmarks phase view in
    let messages :=
      pushIf (stability pillarScores <? 70)
        (match view with Side => "Control Swing" | _ => "Keep Shoulders Down" end)
        [] in
    let messages :=
      pushIf (efficiency pillarScores <? 70) "Straighten Legs" messages in
    let messages :=
      pushIf (RepPhase_eqb phase Top && (hipAngle >? 100)) "Legs Higher" messages in
    let totalScore :=
      rom pillarScores * 0.3 +
      stability pillarScores * 0.3 +
      efficiency pillarScores * 0.2 +
      bracing pillarScores * 0.2 in
    (mkFeedback totalScore pillarScores (INR (RepCounter.count rc))
       (phaseName phase)
       (firstOr messages
          (if RepPhase_eqb phase Rest then "Get Set" else phaseName phase))
       (Some (join messages)) (totalScore >? 80)
       (Some [("hip", hipAngle)]) None,
     withCounter st rc).

End LegRaisesAnalyzer.

(* ================================================================== *)
(** ** [LateralRaiseAnalyzer] ([unnamed/part_003]) *)

Module LatRaiseBiomechanics.

Definition calculatePosture (current : list PoseLandmark) (view : CameraView)
  : number :=
  match view with
  | Front => 100
  | _ =>
      let shoulder := lm current 12 in
      let wrist := lm current 16 in
      let xDiff := Rabs (x wrist - x shoulder) in
      if xDiff <? 0.05 then 70 else 100
  end.

Definition calculateEfficiency (current : list PoseLandmark) (phase : RepPhase)
  (view : CameraView) : number :=
  match view with
  | Side => 100
  | _ =>
      let elbow := lm current 14 in
      let wrist := lm current 16 in
      if y wrist <? y elbow - 0.05 then 60 else 100
  end.

Definition calculateStability (current : list PoseLandmark) (view : CameraView)
  : number :=
  match view with Side => 100 | _ => 100 end.

Definition calculateROM (current : list PoseLandmark) (view : CameraView)
  : number := 100.

Definition analyzePillars (landmarks : list PoseLandmark) (repPhase : RepPhase)
  (view : CameraView) : ScoreBreakdown :=
  mkBreakdown None
    (calculateStability landmarks view)
    (calculateROM landmarks view)
    (calculatePosture landmarks view)
    (calculateEfficiency landmarks repPhase view)
    100.

End LatRaiseBiomechanics.

Module LateralRaiseAnalyzer.

Definition create : RepAnalyzer :=
  mkRepAnalyzer [] (RepCounter.createDefault ConcentricFirst).

Definition analyze (st : RepAnalyzer) (landmarks : list PoseLandmark)
  (timestamp : option number) (clock : number) : Feedback * RepAnalyzer :=
  if tooShort landmarks then (emptyFeedback, st)
  else
    let view := BiomechanicalAnalyzer.detectView landmarks in
    let shoulderAngle :=
      calculateAngle (lm landmarks 24) (lm landmarks 12) (lm landmarks 14) in
    let normalizedPos := Rmin 1 (Rmax 0 ((shoulderAngle - 20) / 65)) in
    let rc := RepCounter.update (repCounter st) normalizedPos timestamp clock in
    let phase := RepCounter.currentPhase rc in
    let pillarScores := LatRaiseBiomechanics.analyzePillars landmarks phase view in
    let messages :=
      match view with
      | Front =>
          pushIf (efficiency pillarScores <? 70) "Lead w/ Elbows"
            (pushIf (stability pillarScores <? 70) "Arm Height Even" [])
      | _ => pushIf (posture pillarScores <? 70) "Hands fwd (Scap Plane)" []
      end in
    let totalScore :=
      rom pillarScores * 0.4 +
      efficiency pillarScores * 0.3 +
      posture pillarScores * 0.3 in
    (mkFeedback totalScore pillarScores (INR (RepCounter.count rc))
       (phaseName phase) (firstOr messages (phaseName phase))
       (Some (join messages)) (totalScore >? 80)
       (Some [("shoulder", shoulderAngle)]) None,
     withCounter st rc).

End LateralRaiseAnalyzer.

(* ================================================================== *)
(** ** [LatPulldownAnalyzer] ([unnamed/part_004]) *)

Module LatBiomechanics.

Definition calculatePosture (current : list PoseLandmark) (view : CameraView)
  : number :=
  match view with
  | Front => 100
  | _ =>
      let shoulder := lm current 12 in
      let hip := lm current 24 in
      let angle :=
        calculateAngle (mkLandmark (x hip) (y hip - 100) 0 1) hip shoulder in
      if Rabs angle >? 30 then 40 else 100
  end.

Definition calculateStability (current : list PoseLandmark) (view : CameraView)
  : number :=
  match view with
  | Side => 100
  | _ =>
      let leftW := lm current 15 in
      let rightW := lm current 16 in
      if Rabs (y leftW - y rightW) >? 0.05 then 60 else 100
  end.

Definition calculateROM (current : list PoseLandmark) (view : CameraView)
  : number := 100.

(** The override hard-codes [posture]; [calculatePosture] has no caller. *)
Definition analyzePillars (landmarks : list PoseLandmark) (repPhase : RepPhase)
  (view : CameraView) : ScoreBreakdown :=
  mkBreakdown None
    (calculateStability landmarks view)
    (calculateROM landmarks view)
    100
    (BiomechanicalAnalyzer.calculateEfficiency landmarks repPhase view)
    100.

End LatBiomechanics.

Module LatPulldownAnalyzer.

Definition create : RepAnalyzer :=
  mkRepAnalyzer [] (RepCounter.createDefault EccentricFirst).

Definition analyze (st : RepAnalyzer) (landmarks : list PoseLandmark)
  (timestamp : option number) (clock : number) : Feedback * RepAnalyzer :=
  if tooShort landmarks then (emptyFeedback, st)
  else
    let view := BiomechanicalAnalyzer.detectView landmarks in
    let elbowAngle :=
      calculateAngle (lm landmarks 12) (lm landmarks 14) (lm landmarks 16) in
    let normalizedPos := Rmin 1 (Rmax 0 ((170 - elbowAngle) / 100)) in
    let rc := RepCounter.update (repCounter st) normalizedPos timestamp clock in
    let phase := RepCounter.currentPhase rc in
    let pillarScores := LatBiomechanics.analyzePillars landmarks phase view in
    let messages :=
      match view with
      | Front => pushIf (stability pillarScores <? 70) "Pull Evenly" []
      | _ => pushIf (posture pillarScores <? 60) "Less Lean" []
      end in
    let messages :=
      pushIf (RepPhase_eqb phase Top
              && (normalizedPos <? 0.2) && (elbowAngle <? 150))
        "Full Stretch" messages in
    let totalScore :=
      stability pillarScores * 0.3 +
      posture pillarScores * 0.3 +
      rom pillarScores * 0.4 in
    (mkFeedback totalScore pillarScores (INR (RepCounter.count rc))
       (phaseName phase) (firstOr messages (phaseName phase))
       (Some (join messages)) (totalScore >? 80)
       (Some [("elbow", elbowAngle)]) None,
     withCounter st rc).

End LatPulldownAnalyzer.

(* ================================================================== *)
(** ** [SquatAnalyzer] (second class of [exercises/LegExtensionAnalyzer.ts]) *)

Module SquatBiomechanics.

Definition checkValgus (current : list PoseLandmark) : number :=
  let leftHip := lm current 23 in
  let leftKnee := lm current 25 in
  let leftAnkle := lm current 27 in
  let rightHip := lm current 24 in
  let rightKnee := lm current 26 in
  let rightAnkle := lm current 28 in
  let kneeWidth := Rabs (x leftKnee - x rightKnee) in
  let ankleWidth := Rabs (x leftAnkle - x rightAnkle) in
  let hipWidth := Rabs (x leftHip - x rightHip) in
  if kneeWidth <? ankleWidth * 0.75 then 40
  else if kneeWidth <? ankleWidth * 0.85 then 60
  else if kneeWidth <? hipWidth * 0.85 then 75
  else 100.

Definition checkDepth (current : list PoseLandmark) (view : CameraView)
  : number :=
  let hip := lm current 24 in
  let knee := lm current 26 in
  let hipKneeDiff := y hip - y knee in
  if hipKneeDiff >=? 0.02 then 100
  else if hipKneeDiff >=? -0.02 then 90
  else if hipKneeDiff >=? -0.05 then 70
  else 50.

Definition checkMidfootBalance (current : list PoseLandmark) : number :=
  let hip := lm current 24 in
  let toe := lm current 32 in
  let heel := lm current 30 in
  let midfoot := (x heel + x toe) / 2 in
  let deviation := Rabs (x hip - midfoot) in
  if deviation >? 0.1 then 60
  else if deviation >? 0.05 then 80
  else 100.

Definition checkSymmetry (current : list PoseLandmark) : number :=
  let leftShoulder := lm current 11 in
  let rightShoulder := lm current 12 in
  let leftHip := lm current 23 in
  let rightHip := lm current 24 in
  let shoulderTilt := Rabs (y leftShoulder - y rightShoulder) in
  let hipTilt := Rabs (y leftHip - y rightHip) in
  if (shoulderTilt >? 0.05) || (hipTilt >? 0.05) then 70
  else if (shoulderTilt >? 0.03) || (hipTilt >? 0.03) then 85
  else 100.

Definition calculateStability (current : list PoseLandmark) (view : CameraView)
  : number :=
  match view with
  | Front => checkValgus current
  | Side => checkMidfootBalance current
  | _ => 100
  end.

(** [checkDepth(current, view || 'Side')]: a view is always truthy. *)
Definition calculateROM (current : list PoseLandmark) (view : CameraView)
  : number := checkDepth current view.

Definition calculatePosture (current : list PoseLandmark) (view : CameraView)
  : number :=
  match view with
  | Front => checkSymmetry current
  | _ =>
      let shoulder := lm current 12 in
      let hip := lm current 24 in
      let torsoAngle :=
        calculateAngle (mkLandmark (x hip) (y hip - 0.2) 0 1) hip shoulder in
      if torsoAngle >? 65 then 40
      else if torsoAngle >? 55 then 60
      else if torsoAngle <? 15 then 70
      else 100
  end.

Definition calculateEfficiency (current : list PoseLandmark) (phase : RepPhase)
  (view : CameraView) : number :=
  match view with
  | Side =>
      let knee := lm current 26 in
      let ankle := lm current 28 in
      if RepPhase_eqb phase Bottom || RepPhase_eqb phase Eccentric
      then
        let kneeForwardness := x knee - x ankle in
        if Rabs kneeForwardness >? 0.15 then 70 else 100
      else 100
  | _ => 100
  end.

Definition calculateBracing (current : list PoseLandmark) (view : CameraView)
  : number :=
  match view with
  | Front => 100
  | _ =>
      let shoulder := lm current 12 in
      let hip := lm current 24 in
      let ear := lm current 8 in
      let spinalAngle := calculateAngle ear shoulder hip in
      let deviation := Rabs (180 - spinalAngle) in
      if deviation >? 30 then 60
      else if deviation >? 20 then 80
      else 100
  end.

Definition analyzePillars (landmarks : list PoseLandmark) (repPhase : RepPhase)
  (view : CameraView) : ScoreBreakdown :=
  mkBreakdown None
    (calculateStability landmarks view)
    (calculateROM landmarks view)
    (calculatePosture landmarks view)
    (calculateEfficiency landmarks repPhase view)
    (calculateBracing landmarks view).

End SquatBiomechanics.

Module SquatAnalyzer.

Record t := mk {
  history : list (list PoseLandmark);
  repCounter : RepCounter.t;
  baselineHeelY : option number;
  framesSinceStart : nat
}.

Definition create : t := mk [] (RepCounter.createDefault EccentricFirst) None 0.

Record SquatAngles := mkAngles { hip : number; knee : number; ankle : number }.

Definition calculateSquatAngles (landmarks : list PoseLandmark) : SquatAngles :=
  let shoulder := lm landmarks 12 in
  let hip := lm landmarks 24 in
  let knee := lm landmarks 26 in
  let ankle := lm landmarks 28 in
  let toe := lm landmarks 32 in
  mkAngles (calculateAngle shoulder hip knee)
           (calculateAngle hip knee ankle)
           (calculateAngle knee ankle toe).

Definition calculateNormalizedPosition (landmarks : list PoseLandmark)
  (angles : SquatAngles) : number :=
  let hip := lm landmarks 24 in
  let knee_ := lm landmarks 26 in
  let verticalDiff := y knee_ - y hip in
  let angleNorm := Rmin 1 (Rmax 0 ((170 - knee angles) / 80)) in
  let yNorm := Rmin 1 (Rmax 0 ((0.05 - verticalDiff) / 0.15 + 0.5)) in
  angleNorm * 0.4 + yNorm * 0.6.

(** [detectHeelLift]: the [isLifted] flag and the baseline it leaves. *)
Definition detectHeelLift (frames : nat) (baseline : option number)
  (landmarks : list PoseLandmark) : bool * option number :=
  let leftHeel := lm landmarks 29 in
  let rightHeel := lm landmarks 30 in
  let avgHeelY := (y leftHeel + y rightHeel) / 2 in
  if Nat.ltb frames 10
  then
    (false,
     match baseline with
     | None => Some avgHeelY
     | Some b => Some (b * 0.8 + avgHeelY * 0.2)
     end)
  else
    match baseline with
    | None => (false, None)
    | Some b =>
        let liftAmount := b - avgHeelY in
        (liftAmount >? 0.015, Some b)
    end.

Definition detectButtWink (landmarks : list PoseLandmark) (view : CameraView)
  : bool :=
  match view with
  | Front => false
  | _ =>
      let shoulder := lm landmarks 12 in
      let hip := lm landmarks 24 in
      let knee := lm landmarks 26 in
      let torsoAngle :=
        calculateAngle (mkLandmark (x hip) (y hip - 0.2) 0 1) hip shoulder in
      let hipToKneeAngle := calculateAngle shoulder hip knee in
      (hipToKneeAngle <? 50) && (torsoAngle >? 55)
  end.

Definition detectGoodMorning (landmarks : list PoseLandmark) : number :=
  let shoulder := lm landmarks 12 in
  let hip := lm landmarks 24 in
  let torsoAngle :=
    calculateAngle (mkLandmark (x hip) (y hip - 0.2) 0 1) hip shoulder in
  if torsoAngle >? 60 then 40
  else if torsoAngle >? 50 then 70
  else 100.

Definition getPhaseMessage (phase : RepPhase) : string :=
  match phase with
  | Rest => "Ready"
  | Top => "Standing"
  | Eccentric => "Descending"
  | Bottom => "Hold"
  | Concentric => "Drive Up"
  end.

Definition analyze (st : t) (landmarks : list PoseLandmark)
  (timestamp : option number) (clock : number) : Feedback * t :=
  if tooShort landmarks then (emptyFeedback, st)
  else
    let frames := S (framesSinceStart st) in
    let view := BiomechanicalAnalyzer.detectView landmarks in
    let angles := calculateSquatAngles landmarks in
    let normalizedPos := calculateNormalizedPosition landmarks angles in
    let rc := RepCounter.update (repCounter st) normalizedPos timestamp clock in
    let phase := RepCounter.currentPhase rc in
    let pillarScores := SquatBiomechanics.analyzePillars landmarks phase view in
    let pillarScores :=
      mkBreakdown (total pillarScores) (stability pillarScores) (rom pillarScores)
        (SquatBiomechanics.calculatePosture landmarks view)
        (efficiency pillarScores) (bracing pillarScores) in
    let '(isLifted, baseline) := detectHeelLift frames (baselineHeelY st) landmarks in
    let qualityFlags := pushIf isLifted "Limited Ankle Mobility" [] in
    let messages :=
      pushIf (isLifted && (RepPhase_eqb phase Eccentric || RepPhase_eqb phase Bottom))
        "Heels Down!" [] in
    let '(messages, qualityFlags) :=
      match phase with
      | Rest | Top =>
          (pushIf (knee angles <? 160) "Stand Tall" messages, qualityFlags)
      | Eccentric =>
          let valgus :=
            match view with
            | Front => SquatBiomechanics.checkValgus landmarks <? 70
            | _ => false
            end in
          let messages := pushIf valgus "Knees Out!" messages in
          let qualityFlags := pushIf valgus "Knee Valgus" qualityFlags in
          let chest :=
            match view with
            | Side => posture pillarScores <? 60
            | _ => false
            end in
          (pushIf chest "Chest Up" messages, qualityFlags)
      | Bottom =>
          let depthScore := SquatBiomechanics.checkDepth landmarks view in
          let shallow := depthScore <? 100 in
          let messages := pushIf shallow "Go Deeper" messages in
          let qualityFlags := pushIf shallow "Partial Depth" qualityFlags in
          let wink := detectButtWink landmarks view in
          (pushIf wink "Neutral Spine" messages,
           pushIf wink "Butt Wink" qualityFlags)
      | Concentric =>
          let goodMorning :=
            match view with
            | Side => detectGoodMorning landmarks <? 70
            | _ => false
            end in
          let messages := pushIf goodMorning "Hips & Chest Together" messages in
          let qualityFlags := pushIf goodMorning "Good Morning Pattern" qualityFlags in
          let valgus :=
            match view with
            | Front => SquatBiomechanics.checkValgus landmarks <? 70
            | _ => false
            end in
          (pushIf valgus "Knees Out!" messages, qualityFlags)
      end in
    let totalScore :=
      rom pillarScores * 0.35 +
      stability pillarScores * 0.25 +
      posture pillarScores * 0.20 +
      bracing pillarScores * 0.10 +
      efficiency pillarScores * 0.10 in
    (mkFeedback totalScore pillarScores (INR (RepCounter.count rc))
       (phaseName phase) (firstOr messages (getPhaseMessage phase))
       (Some (join messages))
       ((totalScore >? 80) && Nat.eqb (List.length qualityFlags) 0)
       (Some [("hip", hip angles); ("knee", knee angles); ("ankle", ankle angles)])
       None,
     mk (history st) rc baseline frames).

Definition reset (st : t) : t := mk [] (RepCounter.reset (repCounter st)) None 0.

End SquatAnalyzer.

(* ================================================================== *)
(** ** [exercises/PlankAnalyzer.ts] *)

(** [landmarks[i]] whose properties are read next: a [TypeError] when the
    element is missing. *)
Definition item (landmarks : list PoseLandmark) (i : nat) : Completion PoseLandmark :=
  match nth_error landmarks i with
  | Some p => Normal p
  | None => Throw TypeError
  end.

Module PlankAnalyzer.

Record t := mk {
  accumulatedSeconds : number;
  lastFrameTime : number;
  isHolding : bool;
  bufferTime : number;
  recordingStartTime : number
}.

Definition create : t := mk 0 0 false 0 0.

Definition setElapsedTime (st : t) (seconds : number) : t :=
  mk seconds (lastFrameTime st) true (bufferTime st) (recordingStartTime st).

Definition setRecordingStartTime (st : t) (timestamp : number) : t :=
  mk (accumulatedSeconds st) (lastFrameTime st) (isHolding st) (bufferTime st)
     timestamp.

(** [analyze] has no length check, and its clock is [Date.now()]: the
    [timestamp] argument is never read. *)
Definition analyze (st : t) (landmarks : list PoseLandmark)
  (timestamp : option number) (clock : number) : Completion (Feedback * t) :=
  let now := clock in
  let last := if lastFrameTime st =? 0 then now else lastFrameTime st in
  let deltaTime := (now - last) / 1000 in
  let* leftHipVisibility := prop landmarks 23 (fun p => or_num (visibility p) 0) in
  let* rightHipVisibility := prop landmarks 24 (fun p => or_num (visibility p) 0) in
  let isLeftSide := leftHipVisibility >? rightHipVisibility in
  let* shoulder := item landmarks (if isLeftSide then 11 else 12)%nat in
  let* hip := item landmarks (if isLeftSide then 23 else 24)%nat in
  let* knee := item landmarks (if isLeftSide then 25 else 26)%nat in
  let* ankle := item landmarks (if isLeftSide then 27 else 28)%nat in
  let hipAngle := calculateAngle shoulder hip knee in
  let kneeAngle := calculateAngle hip knee ankle in
  let '(message, correction, isGoodForm) := ("Hold position", "", true) in
  let '(message, correction, isGoodForm) :=
    if hipAngle <? 165
    then ("Hips too high", "Lower hips to form straight line", false)
    else (message, correction, isGoodForm) in
  let midY := (y shoulder + y knee) / 2 in
  let '(message, correction, isGoodForm) :=
    if y hip >? midY + 0.05
    then ("Hips sagging", "Lift hips & squeeze glutes", false)
    else (message, correction, isGoodForm) in
  let '(message, correction, isGoodForm) :=
    if kneeAngle <? 160
    then ("Legs bent", "Straighten your legs", false)
    else (message, correction, isGoodForm) in
  let '(message, holding, buffer, accumulated) :=
    if isGoodForm
    then
      let buffer := bufferTime st + deltaTime in
      if buffer >? 0.5
      then ("Good Plank! Hold it!", true, buffer, accumulatedSeconds st + deltaTime)
      else ("Stabilizing...", isHolding st, buffer, accumulatedSeconds st)
    else (message, false, 0, accumulatedSeconds st) in
  let stabilityScore := if isGoodForm then 1.0 else 0.5 in
  let postureScore := Rmax 0 (1 - (Rabs (180 - hipAngle) / 40)) in
  Normal
    (mkFeedback ((stabilityScore + postureScore) / 2)
       (mkBreakdown (Some stabilityScore) stabilityScore 0 postureScore 1
          (if isGoodForm then 1 else 0.5))
       (floor accumulated)
       (if holding then "Holding" else "Resisted")
       message (Some correction) isGoodForm
       (Some [("hip", hipAngle); ("knee", kneeAngle)]) None,
     mk accumulated now holding buffer (recordingStartTime st)).

Definition getRepTimestamps (st : t) : list RepTimestamp := [].

End PlankAnalyzer.

(* ================================================================== *)
(** ** [exercises/RussianTwistAnalyzer.ts] *)

Inductive TwistDirection := left | right | center.

Definition TwistDirection_eqb (a b : TwistDirection) : bool :=
  match a, b with
  | left, left | right, right | center, center => true
  | _, _ => false
  end.

Module RussianTwistAnalyzer.

Record t := mk {
  lastXOffset : number;
  direction : TwistDirection;
  repCount : nat;
  crossedCenter : bool;
  lastPeakTime : number;
  currentMidTime : number;
  repTimestamps : list RepTimestamp;
  recordingStartTime : number
}.

(** The constructor reads [Date.now()] into [lastPeakTime]. *)
Definition create (clock : number) : t := mk 0 center 0 false clock 0 [] 0.

Definition emptyFeedback : Feedback :=
  mkFeedback 0 zeroBreakdown 0 "Rest" "No Pose" None false None (Some RussianTwist).

Definition analyze (st : t) (landmarks : list PoseLandmark)
  (timestamp : option number) (clock : number) : Feedback * t :=
  if tooShort landmarks then (emptyFeedback, st)
  else
    let view := BiomechanicalAnalyzer.detectView landmarks in
    let leftShoulder := lm landmarks 11 in
    let rightShoulder := lm landmarks 12 in
    let leftHip := lm landmarks 23 in
    let rightHip := lm landmarks 24 in
    let leftWrist := lm landmarks 15 in
    let rightWrist := lm landmarks 16 in
    let hipCenterX := (x leftHip + x rightHip) / 2 in
    let wristCenterX := (x leftWrist + x rightWrist) / 2 in
    let message := "Twist side to side" in
    let isGoodForm := true in
    let correction := "" in
    let xOffset := wristCenterX - hipCenterX in
    let twistThreshold := Rabs (x leftShoulder - x rightShoulder) * 0.5 in
    let now := or_else timestamp clock in
    let st1 :=
      if Rabs xOffset >? twistThreshold
      then
        let currentDir := if xOffset >? 0 then left else right in
        if negb (TwistDirection_eqb currentDir (direction st))
        then
          if crossedCenter st && (now - lastPeakTime st >? 500)
          then
            mk (lastXOffset st) currentDir (S (repCount st)) false now 0
               (if lastPeakTime st >? 0
                then repTimestamps st ++
                     [mkRepTimestamp (lastPeakTime st)
                        (or_num (currentMidTime st)
                           (floor ((lastPeakTime st + now) / 2)))
                        now]
                else repTimestamps st)
               (recordingStartTime st)
          else
            mk (lastXOffset st) currentDir (repCount st) (crossedCenter st)
               (lastPeakTime st) (currentMidTime st) (repTimestamps st)
               (recordingStartTime st)
        else st
      else st in
    let crossing :=
      ((lastXOffset st1 >? 0) && (xOffset <? 0))
      || ((lastXOffset st1 <? 0) && (xOffset >? 0)) in
    let st2 :=
      mk xOffset (direction st1) (repCount st1)
         (if crossing then true else crossedCenter st1)
         (lastPeakTime st1)
         (if crossing then now else currentMidTime st1)
         (repTimestamps st1) (recordingStartTime st1) in
    (mkFeedback 100 (mkBreakdown (Some 100) 100 100 100 100 100)
       (INR (repCount st2))
       (if TwistDirection_eqb (direction st2) left
        then "Twisting Left" else "Twisting Right")
       message (Some correction) isGoodForm None (Some RussianTwist),
     st2).

Definition getRepTimestamps (st : t) : list RepTimestamp := repTimestamps st.

Definition setRecordingStartTime (st : t) (timestamp : number) : t :=
  mk (lastXOffset st) (direction st) (repCount st) (crossedCenter st)
     (lastPeakTime st) (currentMidTime st) (repTimestamps st) timestamp.

End RussianTwistAnalyzer.

(* ================================================================== *)
(** ** The classifier ([classifyExercise], [unnamed/part_005])

    The local constants of [classifyExercise] are definitions over the frame,
    under their source names, so that statements can mention them. *)

Module ExerciseClassifier.

Definition getAvgAngle (l : list PoseLandmark) (a1 b1 c1 a2 b2 c2 : nat) : number :=
  (calculateAngle (lm l a1) (lm l b1) (lm l c1) +
   calculateAngle (lm l a2) (lm l b2) (lm l c2)) / 2.

Section Measurements.

Variable landmarks : list PoseLandmark.

Definition shoulderY := (y (lm landmarks 11) + y (lm landmarks 12)) / 2.
Definition hipY := (y (lm landmarks 23) + y (lm landmarks 24)) / 2.
Definition wristY := (y (lm landmarks 15) + y (lm landmarks 16)) / 2.
Definition kneeY := (y (lm landmarks 25) + y (lm landmarks 26)) / 2.
Definition ankleY := (y (lm landmarks 27) + y (lm landmarks 28)) / 2.
Definition noseY := y (lm landmarks 0).

Definition shoulderX := (x (lm landmarks 11) + x (lm landmarks 12)) / 2.
Definition hipX := (x (lm landmarks 23) + x (lm landmarks 24)) / 2.
Definition ankleX := (x (lm landmarks 27) + x (lm landmarks 28)) / 2.
Definition wristX := (x (lm landmarks 15) + x (lm landmarks 16)) / 2.

Definition torsoHeight := Rabs (shoulderY - hipY).
Definition verticalDiff := torsoHeight.
Definition horizontalDiff := Rabs (shoulderX - hipX).
Definition reclineRatio := horizontalDiff / Rmax 0.001 verticalDiff.
Definition reclineAngleDeg := atan reclineRatio * 180 / PI.

Definition upright := shoulderY <? hipY.
Definition isStanding := upright && (verticalDiff >? horizontalDiff * 0.5).
Definition isLying := horizontalDiff >? verticalDiff * 0.7.

Definition elbowAngle := getAvgAngle landmarks 11 13 15 12 14 16.
Definition hipAngle := getAvgAngle landmarks 11 23 25 12 24 26.
Definition kneeAngle := getAvgAngle landmarks 23 25 27 24 26 28.

Definition feetOnFloor := ankleY >? 0.72.
Definition handsOverhead := (wristY <? noseY) || (wristY <? shoulderY - 0.15).
Definition wristTorsoDistanceX := Rabs (wristX - shoulderX).
Definition elbowWidth := Rabs (x (lm landmarks 13) - x (lm landmarks 14)).
Definition wristWidth := Rabs (x (lm landmarks 15) - x (lm landmarks 16)).
Definition elbowsTucked := elbowWidth <? torsoHeight * 1.0.

(** The global T-Bar Row check. *)
Definition bodyStraightness := Rabs (180 - hipAngle).
Definition legStraightness := Rabs (180 - kneeAngle).
Definition bodyDy := Rabs (shoulderY - ankleY).
Definition bodyDx := Rabs (shoulderX - ankleX).
Definition bodyInclinationDeg := atan2 bodyDx bodyDy * (180 / PI).

Definition isBodyStraight := (bodyStraightness <? 30) && (legStraightness <? 30).
Definition isInclinedHypotenuse :=
  (bodyInclinationDeg >? 20) && (bodyInclinationDeg <? 80).
Definition handsAreLow := wristY >? shoulderY.

Definition torsoInclined :=
  Rabs (shoulderX - hipX) >? Rabs (shoulderY - hipY) * 0.3.
Definition isHinging := bodyStraightness >? 30.
Definition kneesBentRange := (kneeAngle <? 165) && (kneeAngle >? 70).

(** The global Russian Twist check. *)
Definition hipCenterX := hipX.
Definition wristCenterX := wristX.
Definition isReclined := (reclineAngleDeg >? 10) && (reclineAngleDeg <? 80).
Definition kneesBentForTwist := kneeAngle <? 150.
Definition handsAtTorsoLevel := (wristY <? hipY + 0.2) && (wristY >? shoulderY - 0.15).
Definition isVSitPosture := shoulderY <? hipY.

(** Chest Fly Machine. *)
Definition thighIsHorizontalCF := Rabs (kneeY - hipY) <? torsoHeight * 0.25.
Definition isSeatedCF := (kneeAngle <? 155) && (hipAngle <? 150) && thighIsHorizontalCF.
Definition isWideArmSpan :=
  (elbowWidth >? torsoHeight * 1.0) || (wristWidth >? torsoHeight * 0.9).
Definition isWideSpanSideView := wristTorsoDistanceX >? torsoHeight * 0.4.
Definition handsBelowShoulders := wristY >? shoulderY - 0.05.
Definition handsAboveHips := wristY <? hipY - (torsoHeight * 0.1).
Definition handsInChestZone := handsBelowShoulders && handsAboveHips.

(** The standing branch. *)
Definition isBentOverHighKnee := (kneeAngle <? 150) && (wristY >? hipY).
Definition thighIsHorizontal := Rabs (kneeY - hipY) <? torsoHeight * 0.25.
Definition handsAtSides := wristTorsoDistanceX <? torsoHeight * 0.45.
Definition handsNearSeat := Rabs (wristY - hipY) <? torsoHeight * 0.4.
Definition hipFlexedLE := hipAngle <? 160.
Definition notVSit := shoulderY >=? hipY - 0.05.
Definition feetVisible := or_num (visibility (lm landmarks 27)) 0 >? 0.5.
Definition handsInDipZone := (wristY >? shoulderY - 0.1) && (wristY <? hipY + 0.2).
Definition wristsElevated := wristY <? shoulderY + 0.15.
Definition wristsNearShoulders := Rabs (wristY - shoulderY) <? 0.2.
Definition isDeepSquat := (kneeAngle <? 120) && (hipAngle <? 120).
Definition elbowsLow :=
  (y (lm landmarks 13) + y (lm landmarks 14)) / 2 >? shoulderY + 0.05.
Definition isLegMoving := (kneeAngle <? 160) || (hipAngle <? 160).
Definition legsStraightish := negb isLegMoving.
Definition wristNearHips := Rabs (wristY - hipY) <? 0.25.
Definition elbowsLocked := elbowAngle >? 150.
Definition ankleAboveKnee := ankleY <? kneeY - 0.05.
Definition hipFlexed := hipAngle <? 155.
Definition isStandingStraight := (kneeAngle >? 165) && (hipAngle >? 165).
Definition handsBelowShouldersLR := wristY >? shoulderY - 0.05.
Definition isWideArc := wristWidth >? elbowWidth * 1.2.
Definition armIsExtendedLR :=
  ((wristWidth >? torsoHeight * 0.7) || (wristTorsoDistanceX >? torsoHeight * 0.35))
  && isWideArc.
Definition armIsExtendedOut := wristTorsoDistanceX >? 0.15.
Definition anklesBelowKnees := ankleY >? kneeY + 0.05.
Definition isSeatedOnMachine :=
  ((hipAngle <? 135) || (thighIsHorizontal && anklesBelowKnees))
  && (feetOnFloor || thighIsHorizontal).
Definition handsAboveShoulders := wristY <? shoulderY - 0.05.
Definition avgShoulderFlexion :=
  (calculateAngle (lm landmarks 23) (lm landmarks 11) (lm landmarks 15) +
   calculateAngle (lm landmarks 24) (lm landmarks 12) (lm landmarks 16)) / 2.

(** The lying branch. *)
Definition legsAreVertical := kneeY >? hipY + 0.15.
Definition shouldersHigherThanHips := shoulderY <? hipY - 0.05.
Definition kneesBentRT := kneeAngle <? 140.
Definition isVSitPosition :=
  shouldersHigherThanHips && kneesBentRT && negb legsAreVertical.
Definition isProne := wristY >? shoulderY.
Definition faceIsUp := noseY <? shoulderY + 0.1.
Definition kneesBent := kneeAngle <? 135.
Definition legsStraight := kneeAngle >? 150.
Definition legsHorizontal := Rabs (kneeY - hipY) <? 0.15.
Definition bodyIsFlat := Rabs (shoulderY - ankleY) <? 0.15.
Definition avgElbow :=
  (calculateAngle (lm landmarks 11) (lm landmarks 13) (lm landmarks 15) +
   calculateAngle (lm landmarks 12) (lm landmarks 14) (lm landmarks 16)) / 2.

(** The rules, in source order. *)
Definition standingRules : option ExerciseType :=
  if (torsoInclined || isBentOverHighKnee) && (wristY >? shoulderY)
     && (kneeY >? hipY + 0.1) && (kneeAngle >? 90)
  then Some TBarRow
  else if torsoInclined && hipFlexedLE && thighIsHorizontal && handsNearSeat
          && handsAtSides && feetOnFloor && notVSit
  then Some LegExtension
  else if handsInDipZone && (feetVisible && negb feetOnFloor)
  then Some TricepDips
  else if handsInDipZone
          && (negb torsoInclined && (kneeAngle <? 150) && elbowsTucked)
  then Some TricepDips
  else if torsoInclined && (kneeAngle <? 140) && (hipAngle <? 150)
          && (wristsElevated || wristsNearShoulders) && feetOnFloor
  then Some Squat
  else if isDeepSquat && feetOnFloor && negb thighIsHorizontal
  then Some Squat
  else if negb torsoInclined && negb handsOverhead && (elbowAngle <? 170)
          && elbowsTucked && elbowsLow && legsStraightish
  then Some BarbellBicepsCurl
  else if (negb torsoInclined && wristNearHips && elbowsLocked && elbowsTucked)
          && (ankleAboveKnee || hipFlexed)
  then Some LegRaises
  else if isStandingStraight && armIsExtendedLR && handsBelowShouldersLR
          && negb handsOverhead
  then Some LateralRaises
  else if handsOverhead
  then
    if armIsExtendedOut && negb elbowsTucked && (feetOnFloor || (hipAngle >? 160))
    then Some LateralRaises
    else if (reclineAngleDeg >=? 25) && (reclineAngleDeg <=? 65)
            && (avgShoulderFlexion <? 160) && handsAboveShoulders
    then Some InclineBenchPress
    else if isSeatedOnMachine && handsAboveShoulders
    then Some LatPulldown
    else if handsAboveShoulders && negb isSeatedOnMachine && negb feetOnFloor
    then Some PullUp
    else None
  else None.

Definition lyingRules : option ExerciseType :=
  if isVSitPosition && (reclineAngleDeg >? 15) && (reclineAngleDeg <? 70)
  then Some RussianTwist
  else if legsAreVertical then Some TBarRow
  else if negb legsHorizontal then Some TBarRow
  else if shouldersHigherThanHips && negb bodyIsFlat then Some TBarRow
  else if legsStraight && legsHorizontal && bodyIsFlat
  then
    if (Rabs (wristY - (y (lm landmarks 13) + y (lm landmarks 14)) / 2) <? 0.15)
       && (avgElbow <? 130)
    then Some Plank
    else Some PushUp
  else if isProne && negb faceIsUp && negb kneesBent && legsHorizontal && bodyIsFlat
  then Some PushUp
  else if kneesBent || negb isProne
  then (if reclineAngleDeg <=? 65 then Some InclineBenchPress else Some BenchPress)
  else if isProne && legsHorizontal && bodyIsFlat then Some PushUp
  else if reclineAngleDeg <=? 65 then Some InclineBenchPress
  else Some BenchPress.

Definition classifyExercise : option ExerciseType :=
  if tooShort landmarks then None
  else if isBodyStraight && isInclinedHypotenuse && handsAreLow
  then Some TBarRow
  else if upright && torsoInclined && handsAreLow && kneesBentRange
          && feetOnFloor && isHinging
  then Some TBarRow
  else if negb upright && (isReclined || isVSitPosture) && kneesBentForTwist
          && handsAtTorsoLevel
  then Some RussianTwist
  else if (upright && negb handsOverhead && negb torsoInclined && isSeatedCF
           && handsInChestZone)
          && (isWideArmSpan || isWideSpanSideView)
  then Some ChestFlyMachine
  else if isStanding then standingRules
  else if isLying then lyingRules
  else None.

End Measurements.

End ExerciseClassifier.

(* ================================================================== *)
(** ** The orchestrator ([GeometricRuleEngine.ts]) *)

Module GeometricRuleEngine.

(** The [analyzers] table: one long-lived instance per key. *)
Record Analyzers := mkAnalyzers {
  squat : SquatAnalyzer.t;
  legExtension : RepAnalyzer;
  legRaises : RepAnalyzer;
  pushUp : RepAnalyzer;
  benchPress : RepAnalyzer;
  inclineBenchPress : RepAnalyzer;
  chestFlyMachine : RepAnalyzer;
  tricepDips : RepAnalyzer;
  pullUp : RepAnalyzer;
  latPulldown : RepAnalyzer;
  tBarRow : RepAnalyzer;
  barbellBicepsCurl : RepAnalyzer;
  lateralRaises : RepAnalyzer;
  plank : PlankAnalyzer.t;
  russianTwist : RussianTwistAnalyzer.t;
  autoDetect : SquatAnalyzer.t
}.

Record t := mk {
  analyzers : Analyzers;
  currentExercise : ExerciseType;
  isLocked : bool;
  lockedExercise : option ExerciseType;
  consecutiveFrames : nat;
  potentialExercise : option ExerciseType;
  shoulderHistory : list number
}.

(** [new GeometricRuleEngine()]; [clock] is what [Date.now()] answers while
    the constructor runs. *)
Definition create (clock : number) : t :=
  mk (mkAnalyzers
        SquatAnalyzer.create LegExtensionAnalyzer.create LegRaisesAnalyzer.create
        PushUpAnalyzer.create BenchPressAnalyzer.create InclineBenchAnalyzer.create
        ChestFlyAnalyzer.create TricepDipsAnalyzer.create PullUpAnalyzer.create
        LatPulldownAnalyzer.create TBarRowAnalyzer.create BicepCurlAnalyzer.create
        LateralRaiseAnalyzer.create PlankAnalyzer.create
        (RussianTwistAnalyzer.create clock) SquatAnalyzer.create)
     Squat false None 0 None [].

Definition setExercise (eng : t) (exercise : ExerciseType) : t :=
  mk (analyzers eng) exercise false None 0 None (shoulderHistory eng).

Definition startAt (timestamp : number) (a : RepAnalyzer) : RepAnalyzer :=
  withCounter a (RepCounter.setRecordingStartTime (repCounter a) timestamp).

Definition startSquatAt (timestamp : number) (a : SquatAnalyzer.t) : SquatAnalyzer.t :=
  SquatAnalyzer.mk (SquatAnalyzer.history a)
    (RepCounter.setRecordingStartTime (SquatAnalyzer.repCounter a) timestamp)
    (SquatAnalyzer.baselineHeelY a) (SquatAnalyzer.framesSinceStart a).

Definition setRecordingStartTime (eng : t) (timestamp : number) : t :=
  let a := analyzers eng in
  mk (mkAnalyzers
        (startSquatAt timestamp (squat a))
        (startAt timestamp (legExtension a)) (startAt timestamp (legRaises a))
        (startAt timestamp (pushUp a)) (startAt timestamp (benchPress a))
        (startAt timestamp (inclineBenchPress a))
        (startAt timestamp (chestFlyMachine a)) (startAt timestamp (tricepDips a))
        (startAt timestamp (pullUp a)) (startAt timestamp (latPulldown a))
        (startAt timestamp (tBarRow a)) (startAt timestamp (barbellBicepsCurl a))
        (startAt timestamp (lateralRaises a))
        (PlankAnalyzer.setRecordingStartTime (plank a) timestamp)
        (RussianTwistAnalyzer.setRecordingStartTime (russianTwist a) timestamp)
        (startSquatAt timestamp (autoDetect a)))
     (currentExercise eng) (isLocked eng) (lockedExercise eng)
     (consecutiveFrames eng) (potentialExercise eng) (shoulderHistory eng).

(** [this.analyzers[exercise].analyze(landmarks, timestamp)] and the table
    with the instance it mutated. *)
Definition analyzeWith (exercise : ExerciseType) (a : Analyzers)
  (landmarks : list PoseLandmark) (timestamp : option number) (clock : number)
  : Completion (Feedback * Analyzers) :=
  let put (r : Feedback * Analyzers) := Normal r in
  match exercise with
  | Squat =>
      let '(fb, s) := SquatAnalyzer.analyze (squat a) landmarks timestamp clock in
      put (fb, mkAnalyzers s (legExtension a) (legRaises a) (pushUp a) (benchPress a)
             (inclineBenchPress a) (chestFlyMachine a) (tricepDips a) (pullUp a)
             (latPulldown a) (tBarRow a) (barbellBicepsCurl a) (lateralRaises a)
             (plank a) (russianTwist a) (autoDetect a))
  | LegExtension =>
      let '(fb, s) := LegExtensionAnalyzer.analyze (legExtension a) landmarks timestamp clock in
      put (fb, mkAnalyzers (squat a) s (legRaises a) (pushUp a) (benchPress a)
             (inclineBenchPress a) (chestFlyMachine a) (tricepDips a) (pullUp a)
             (latPulldown a) (tBarRow a) (barbellBicepsCurl a) (lateralRaises a)
             (plank a) (russianTwist a) (autoDetect a))
  | LegRaises =>
      let '(fb, s) := LegRaisesAnalyzer.analyze (legRaises a) landmarks timestamp clock in
      put (fb, mkAnalyzers (squat a) (legExtension a) s (pushUp a) (benchPress a)
             (inclineBenchPress a) (chestFlyMachine a) (tricepDips a) (pullUp a)
             (latPulldown a) (tBarRow a) (barbellBicepsCurl a) (lateralRaises a)
             (plank a) (russianTwist a) (autoDetect a))
  | PushUp =>
      let '(fb, s) := PushUpAnalyzer.analyze (pushUp a) landmarks timestamp clock in
      put (fb, mkAnalyzers (squat a) (legExtension a) (legRaises a) s (benchPress a)
             (inclineBenchPress a) (chestFlyMachine a) (tricepDips a) (pullUp a)
             (latPulldown a) (tBarRow a) (barbellBicepsCurl a) (lateralRaises a)
             (plank a) (russianTwist a) (autoDetect a))
  | BenchPress =>
      let '(fb, s) := BenchPressAnalyzer.analyze (benchPress a) landmarks timestamp clock in
      put (fb, mkAnalyzers (squat a) (legExtension a) (legRaises a) (pushUp a) s
             (inclineBenchPress a) (chestFlyMachine a) (tricepDips a) (pullUp a)
             (latPulldown a) (tBarRow a) (barbellBicepsCurl a) (lateralRaises a)
             (plank a) (russianTwist a) (autoDetect a))
  | InclineBenchPress =>
      let '(fb, s) := InclineBenchAnalyzer.analyze (inclineBenchPress a) landmarks timestamp clock in
      put (fb, mkAnalyzers (squat a) (legExtension a) (legRaises a) (pushUp a)
             (benchPress a) s (chestFlyMachine a) (tricepDips a) (pullUp a)
             (latPulldown a) (tBarRow a) (barbellBicepsCurl a) (lateralRaises a)
             (plank a) (russianTwist a) (autoDetect a))
  | ChestFlyMachine =>
      let '(fb, s) := ChestFlyAnalyzer.analyze (chestFlyMachine a) landmarks timestamp clock in
      put (fb, mkAnalyzers (squat a) (legExtension a) (legRaises a) (pushUp a)
             (benchPress a) (inclineBenchPress a) s (tricepDips a) (pullUp a)
             (latPulldown a) (tBarRow a) (barbellBicepsCurl a) (lateralRaises a)
             (plank a) (russianTwist a) (autoDetect a))
  | TricepDips =>
      let '(fb, s) := TricepDipsAnalyzer.analyze (tricepDips a) landmarks timestamp clock in
      put (fb, mkAnalyzers (squat a) (legExtension a) (legRaises a) (pushUp a)
             (benchPress a) (inclineBenchPress a) (chestFlyMachine a) s (pullUp a)
             (latPulldown a) (tBarRow a) (barbellBicepsCurl a) (lateralRaises a)
             (plank a) (russianTwist a) (autoDetect a))
  | PullUp =>
      let '(fb, s) := PullUpAnalyzer.analyze (pullUp a) landmarks timestamp clock in
      put (fb, mkAnalyzers (squat a) (legExtension a) (legRaises a) (pushUp a)
             (benchPress a) (inclineBenchPress a) (chestFlyMachine a) (tricepDips a) s
             (latPulldown a) (tBarRow a) (barbellBicepsCurl a) (lateralRaises a)
             (plank a) (russianTwist a) (autoDetect a))
  | LatPulldown =>
      let '(fb, s) := LatPulldownAnalyzer.analyze (latPulldown a) landmarks timestamp clock in
      put (fb, mkAnalyzers (squat a) (legExtension a) (legRaises a) (pushUp a)
             (benchPress a) (inclineBenchPress a) (chestFlyMachine a) (tricepDips a)
             (pullUp a) s (tBarRow a) (barbellBicepsCurl a) (lateralRaises a)
             (plank a) (russianTwist a) (autoDetect a))
  | TBarRow =>
      let '(fb, s) := TBarRowAnalyzer.analyze (tBarRow a) landmarks timestamp clock in
      put (fb, mkAnalyzers (squat a) (legExtension a) (legRaises a) (pushUp a)
             (benchPress a) (inclineBenchPress a) (chestFlyMachine a) (tricepDips a)
             (pullUp a) (latPulldown a) s (barbellBicepsCurl a) (lateralRaises a)
             (plank a) (russianTwist a) (autoDetect a))
  | BarbellBicepsCurl =>
      let '(fb, s) := BicepCurlAnalyzer.analyze (barbellBicepsCurl a) landmarks timestamp clock in
      put (fb, mkAnalyzers (squat a) (legExtension a) (legRaises a) (pushUp a)
             (benchPress a) (inclineBenchPress a) (chestFlyMachine a) (tricepDips a)
             (pullUp a) (latPulldown a) (tBarRow a) s (lateralRaises a)
             (plank a) (russianTwist a) (autoDetect a))
  | LateralRaises =>
      let '(fb, s) := LateralRaiseAnalyzer.analyze (lateralRaises a) landmarks timestamp clock in
      put (fb, mkAnalyzers (squat a) (legExtension a) (legRaises a) (pushUp a)
             (benchPress a) (inclineBenchPress a) (chestFlyMachine a) (tricepDips a)
             (pullUp a) (latPulldown a) (tBarRow a) (barbellBicepsCurl a) s
             (plank a) (russianTwist a) (autoDetect a))
  | Plank =>
      let* '(fb, s) := PlankAnalyzer.analyze (plank a) landmarks timestamp clock in
      put (fb, mkAnalyzers (squat a) (legExtension a) (legRaises a) (pushUp a)
             (benchPress a) (inclineBenchPress a) (chestFlyMachine a) (tricepDips a)
             (pullUp a) (latPulldown a) (tBarRow a) (barbellBicepsCurl a)
             (lateralRaises a) s (russianTwist a) (autoDetect a))
  | RussianTwist =>
      let '(fb, s) := RussianTwistAnalyzer.analyze (russianTwist a) landmarks timestamp clock in
      put (fb, mkAnalyzers (squat a) (legExtension a) (legRaises a) (pushUp a)
             (benchPress a) (inclineBenchPress a) (chestFlyMachine a) (tricepDips a)
             (pullUp a) (latPulldown a) (tBarRow a) (barbellBicepsCurl a)
             (lateralRaises a) (plank a) s (autoDetect a))
  | AutoDetect =>
      let '(fb, s) := SquatAnalyzer.analyze (autoDetect a) landmarks timestamp clock in
      put (fb, mkAnalyzers (squat a) (legExtension a) (legRaises a) (pushUp a)
             (benchPress a) (inclineBenchPress a) (chestFlyMachine a) (tricepDips a)
             (pullUp a) (latPulldown a) (tBarRow a) (barbellBicepsCurl a)
             (lateralRaises a) (plank a) (russianTwist a) s)
  end.

(** The placeholder results of [analyzeFrame]. *)
Definition noPoseFeedback : Feedback :=
  mkFeedback 0 zeroBreakdown 0 "Rest" "No pose detected" None false None None.

Definition scanningFeedback : Feedback :=
  mkFeedback 0 zeroBreakdown 0 "Scanning..." "Get in position..." None false None None.

Definition detectingFeedback (potential : option ExerciseType)
  (detected : ExerciseType) : Feedback :=
  mkFeedback 0 zeroBreakdown 0
    ("Detecting " ++ match potential with Some p => exerciseName p | None => "null" end
       ++ "...")%string
    (if ExerciseType_eqb detected Plank
     then "Hold still for Plank..."
     else ("Start moving for " ++ exerciseName detected ++ "...")%string)
    None false None potential.

(** [lockThreshold] as the four assignments leave it. *)
Definition lockThreshold (detected : ExerciseType) : nat :=
  match detected with
  | Plank => 30
  | RussianTwist => 12
  | LateralRaises => 12
  | PullUp | LatPulldown | BenchPress | LegRaises => 4
  | _ => 6
  end.

(** The rolling buffer after [push] and the conditional [shift]. *)
Definition pushShoulder (hist : list number) (shoulderY : number) : list number :=
  let hist := hist ++ [shoulderY] in
  if Nat.ltb 30 (List.length hist) then List.tl hist else hist.

Definition varianceOf (hist : list number) : number := max_of hist - min_of hist.

(** The two assignments [analyzeFrame] makes to the feedback it got back:
    the bracketed exercise name in Auto-Detect mode, and the stamp. *)
Definition postProcess (eng : t) (targetExercise : ExerciseType)
  (feedback : Feedback) : Feedback :=
  let message' :=
    if ExerciseType_eqb (currentExercise eng) AutoDetect
    then ("[" ++ exerciseName targetExercise ++ "] " ++ message feedback)%string
    else message feedback in
  let detected' :=
    match lockedExercise eng with
    | Some e => Some e
    | None =>
        if negb (ExerciseType_eqb (currentExercise eng) AutoDetect)
        then Some (currentExercise eng)
        else None
    end in
  mkFeedback (score feedback) (breakdown feedback) (reps feedback)
    (repPhase feedback) message' (correction feedback) (isGoodForm feedback)
    (jointAngles feedback) detected'.

Definition withAnalyzers (eng : t) (a : Analyzers) : t :=
  mk a (currentExercise eng) (isLocked eng) (lockedExercise eng)
     (consecutiveFrames eng) (potentialExercise eng) (shoulderHistory eng).

(** The tail of [analyzeFrame]: delegate to the resolved analyzer and
    post-process its feedback. *)
Definition delegate (eng : t) (targetExercise : ExerciseType)
  (landmarks : list PoseLandmark) (timestamp : option number) (clock : number)
  : Completion (Feedback * t) :=
  let* '(feedback, a) :=
    analyzeWith targetExercise (analyzers eng) landmarks timestamp clock in
  Normal (postProcess eng targetExercise feedback, withAnalyzers eng a).

Definition withPlankElapsed (a : Analyzers) (seconds : number) : Analyzers :=
  mkAnalyzers (squat a) (legExtension a) (legRaises a) (pushUp a)
    (benchPress a) (inclineBenchPress a) (chestFlyMachine a) (tricepDips a)
    (pullUp a) (latPulldown a) (tBarRow a) (barbellBicepsCurl a)
    (lateralRaises a) (PlankAnalyzer.setElapsedTime (plank a) seconds)
    (russianTwist a) (autoDetect a).

(** [analyzeFrame(landmarks, timestamp?)]; a missing array is [None]. *)
Definition analyzeFrame (eng : t) (landmarks : option (list PoseLandmark))
  (timestamp : option number) (clock : number) : Completion (Feedback * t) :=
  match landmarks with
  | None | Some [] => Normal (noPoseFeedback, eng)
  | Some landmarks =>
      let targetExercise := currentExercise eng in
      let* y11 := prop landmarks 11 y in
      let* y12 := prop landmarks 12 y in
      let shoulderY := (y11 + y12) / 2 in
      let hist := pushShoulder (shoulderHistory eng) shoulderY in
      let variance := varianceOf hist in
      let eng :=
        mk (analyzers eng) (currentExercise eng) (isLocked eng) (lockedExercise eng)
           (consecutiveFrames eng) (potentialExercise eng) hist in
      if ExerciseType_eqb targetExercise AutoDetect
      then
        match isLocked eng, lockedExercise eng with
        | true, Some locked =>
            let locked :=
              if ExerciseType_eqb locked Plank && (variance >? 0.05)
              then PushUp else locked in
            delegate
              (mk (analyzers eng) (currentExercise eng) (isLocked eng) (Some locked)
                  (consecutiveFrames eng) (potentialExercise eng)
                  (shoulderHistory eng))
              locked landmarks timestamp clock
        | _, _ =>
            match ExerciseClassifier.classifyExercise landmarks with
            | Some detected =>
                let same :=
                  match potentialExercise eng with
                  | Some p => ExerciseType_eqb detected p
                  | None => false
                  end in
                let potential :=
                  if same then potentialExercise eng else Some detected in
                let consecutive :=
                  if same then S (consecutiveFrames eng) else 1%nat in
                let threshold := lockThreshold detected in
                (* the inner [shoulderY], [minY], [maxY] and [variance]
                   repeat the outer computation on the same buffer *)
                let moving :=
                  (ExerciseType_eqb detected Plank || ExerciseType_eqb detected PushUp)
                  && (variance >? 0.05) in
                let detected := if moving then PushUp else detected in
                let threshold := if moving then 4%nat else threshold in
                let consecutive :=
                  if moving
                     && match potential with
                        | Some p => ExerciseType_eqb p PushUp
                        | None => false
                        end
                  then (consecutive + 2)%nat else consecutive in
                if Nat.ltb threshold consecutive
                then
                  let a :=
                    if ExerciseType_eqb detected Plank
                    then withPlankElapsed (analyzers eng) (INR threshold / 6)
                    else analyzers eng in
                  delegate
                    (mk a (currentExercise eng) true (Some detected) consecutive
                        potential (shoulderHistory eng))
                    detected landmarks timestamp clock
                else
                  Normal
                    (detectingFeedback potential detected,
                     mk (analyzers eng) (currentExercise eng) (isLocked eng)
                        (lockedExercise eng) consecutive potential
                        (shoulderHistory eng))
            | None => Normal (scanningFeedback, eng)
            end
        end
      else delegate eng targetExercise landmarks timestamp clock
  end.

Definition getRepTimestampsOf (exercise : ExerciseType) (a : Analyzers)
  : list RepTimestamp :=
  match exercise with
  | Squat => RepCounter.getRepTimestamps (SquatAnalyzer.repCounter (squat a))
  | LegExtension => RepCounter.getRepTimestamps (repCounter (legExtension a))
  | LegRaises => RepCounter.getRepTimestamps (repCounter (legRaises a))
  | PushUp => RepCounter.getRepTimestamps (repCounter (pushUp a))
  | BenchPress => RepCounter.getRepTimestamps (repCounter (benchPress a))
  | InclineBenchPress => RepCounter.getRepTimestamps (repCounter (inclineBenchPress a))
  | ChestFlyMachine => RepCounter.getRepTimestamps (repCounter (chestFlyMachine a))
  | TricepDips => RepCounter.getRepTimestamps (repCounter (tricepDips a))
  | PullUp => RepCounter.getRepTimestamps (repCounter (pullUp a))
  | LatPulldown => RepCounter.getRepTimestamps (repCounter (latPulldown a))
  | TBarRow => RepCounter.getRepTimestamps (repCounter (tBarRow a))
  | BarbellBicepsCurl => RepCounter.getRepTimestamps (repCounter (barbellBicepsCurl a))
  | LateralRaises => RepCounter.getRepTimestamps (repCounter (lateralRaises a))
  | Plank => PlankAnalyzer.getRepTimestamps (plank a)
  | RussianTwist => RussianTwistAnalyzer.getRepTimestamps (russianTwist a)
  | AutoDetect => RepCounter.getRepTimestamps (SquatAnalyzer.repCounter (autoDetect a))
  end.

Definition getRepTimestamps (eng : t) : list RepTimestamp :=
  match ExerciseType_eqb (currentExercise eng) AutoDetect, lockedExercise eng with
  | true, Some locked => getRepTimestampsOf locked (analyzers eng)
  | _, _ => getRepTimestampsOf (currentExercise eng) (analyzers eng)
  end.

(** A session: the frames fed in order, each with its optional timestamp
    and the clock reading of the call.  The run stops at the first
    exception. *)
Definition Frame : Type := (option (list PoseLandmark) * option number * number)%type.

Fixpoint run (eng : t) (frames : list Frame) : Completion (list Feedback * t) :=
  match frames with
  | [] => Normal ([], eng)
  | (landmarks, timestamp, clock) :: rest =>
      let* '(fb, eng') := analyzeFrame eng landmarks timestamp clock in
      let* '(fbs, eng'') := run eng' rest in
      Normal (fb :: fbs, eng'')
  end.

End GeometricRuleEngine.

(* ================================================================== *)
(** * Vocabulary of the statements *)

(** ** The cycle of the repetition counter

    The edges [update] can take, per counting direction. *)
Inductive transition : CountMode -> RepPhase -> RepPhase -> Prop :=
| ef_start_rest : transition EccentricFirst Rest Eccentric
| ef_start_top : transition EccentricFirst Top Eccentric
| ef_bottom : transition EccentricFirst Eccentric Bottom
| ef_false_start : transition EccentricFirst Eccentric Top
| ef_ascend : transition EccentricFirst Bottom Concentric
| ef_complete : transition EccentricFirst Concentric Top
| ef_sink : transition EccentricFirst Concentric Bottom
| cf_start_rest : transition ConcentricFirst Rest Concentric
| cf_start_bottom : transition ConcentricFirst Bottom Concentric
| cf_top : transition ConcentricFirst Concentric Top
| cf_false_start : transition ConcentricFirst Concentric Bottom
| cf_lower : transition ConcentricFirst Top Eccentric
| cf_complete : transition ConcentricFirst Eccentric Bottom
| cf_rise : transition ConcentricFirst Eccentric Top.

(** The phase in which the next update can count a rep, and the number of
    updates a phase is away from a counted rep. *)
Definition countingPhase (m : CountMode) : RepPhase :=
  match m with EccentricFirst => Concentric | ConcentricFirst => Eccentric end.

Definition callsToCount (m : CountMode) (p : RepPhase) : nat :=
  match m, p with
  | EccentricFirst, (Rest | Top) => 4
  | EccentricFirst, Eccentric => 3
  | EccentricFirst, Bottom => 2
  | EccentricFirst, Concentric => 1
  | ConcentricFirst, (Rest | Bottom) => 4
  | ConcentricFirst, Concentric => 3
  | ConcentricFirst, Top => 2
  | ConcentricFirst, Eccentric => 1
  end.

(** The direction mirror: Eccentric and Concentric swap, Bottom and Top swap. *)
Definition mirrorPhase (p : RepPhase) : RepPhase :=
  match p with
  | Rest => Rest | Eccentric => Concentric | Concentric => Eccentric
  | Bottom => Top | Top => Bottom
  end.

Definition mirrorMode (m : CountMode) : CountMode :=
  match m with EccentricFirst => ConcentricFirst | ConcentricFirst => EccentricFirst end.

Definition mirrorCounter (rc : RepCounter.t) : RepCounter.t :=
  RepCounter.mk (RepCounter.count rc) (mirrorPhase (RepCounter.currentPhase rc))
    (RepCounter.lastPhaseTimestamp rc) (RepCounter.thresholdHigh rc)
    (RepCounter.thresholdLow rc) (mirrorMode (RepCounter.mode rc))
    (RepCounter.repTimestamps rc) (RepCounter.currentRepStartTime rc)
    (RepCounter.currentRepMidTime rc) (RepCounter.recordingStartTime rc).

(** ** The transition table of the specification (section 4.2)

    A second reading of the state machine, written from the table of the
    specification rather than from the code: one constructor per row, for
    the [EccentricFirst] direction, and [stay] for a sample no row accepts.
    [now] is the time of the call and [currentMs] the same time relative to
    the recording start. *)
Module SpecTable.

Import RepCounter.

Inductive row (rc : t) (completion now currentMs : number) : t -> Prop :=
| start_descent :
    currentPhase rc = Rest \/ currentPhase rc = Top ->
    completion > thresholdLow rc ->
    row rc completion now currentMs
      (setStart (Some (nullish (currentRepStartTime rc) currentMs))
         (setPhase Eccentric rc))
| reach_bottom :
    currentPhase rc = Eccentric ->
    completion >= thresholdHigh rc ->
    row rc completion now currentMs
      (setMid (Some currentMs) (setLastPhaseTimestamp now (setPhase Bottom rc)))
| false_start :
    currentPhase rc = Eccentric ->
    completion < thresholdLow rc ->
    row rc completion now currentMs (setMid None (setStart None (setPhase Top rc)))
| leave_bottom :
    currentPhase rc = Bottom ->
    completion < thresholdHigh rc - 0.1 ->
    row rc completion now currentMs (setPhase Concentric rc)
| complete_rep : forall s,
    currentPhase rc = Concentric ->
    completion <= thresholdLow rc ->
    currentRepStartTime rc = Some s ->
    row rc completion now currentMs
      (setMid None (setStart None
         (pushTimestamp
            (mkRepTimestamp s (nullish (currentRepMidTime rc) currentMs) currentMs)
            (setLastPhaseTimestamp now (setPhase Top (incrCount rc))))))
| sink_back :
    currentPhase rc = Concentric ->
    completion > thresholdHigh rc ->
    row rc completion now currentMs (setPhase Bottom rc)
| stay :
    match currentPhase rc with
    | Rest | Top => completion <= thresholdLow rc
    | Eccentric => thresholdLow rc <= completion < thresholdHigh rc
    | Bottom => completion >= thresholdHigh rc - 0.1
    | Concentric => thresholdLow rc < completion <= thresholdHigh rc
    end ->
    row rc completion now currentMs rc.


End SpecTable.

(** ** Sample inputs *)

Definition freshCounter : RepCounter.t := RepCounter.createDefault EccentricFirst.


(** The sequence of the false-start scenario, 100 ms apart. *)
Definition falseStartSamples : list (number * number) :=
  [(0.4, 0); (0.2, 100); (0.4, 200); (0.6, 300); (0.2, 400)].

(** One full rep whose second sample arrives at relative time 0. *)
Definition midAtZeroSamples : list (number * number) :=
  [(0.4, 0); (0.6, 0); (0.2, 10); (0.2, 20)].

(** A frame of 33 landmarks given by index. *)
Definition poseFrame (f : nat -> PoseLandmark) : list PoseLandmark :=
  map f (seq 0 33).

Definition point (px py : number) : PoseLandmark := mkLandmark px py 0 1.

(** A body held level, seen from the side, [d] below the line y = 0.5:
    shoulders, hips, knees and ankles in a row, arms straight down. *)
Definition levelBody (d : number) (i : nat) : PoseLandmark :=
  match i with
  | 0%nat => point 0.2 (0.5 + d)
  | 11%nat | 12%nat => point 0.3 (0.5 + d)
  | 13%nat | 14%nat => point 0.3 (0.65 + d)
  | 15%nat | 16%nat => point 0.3 (0.8 + d)
  | 23%nat | 24%nat => point 0.6 (0.5 + d)
  | 25%nat | 26%nat => point 0.75 (0.5 + d)
  | 27%nat | 28%nat => point 0.9 (0.5 + d)
  | _ => point 0.5 (0.5 + d)
  end.

Definition levelFrame (d : number) : list PoseLandmark := poseFrame (levelBody d).

(** A straight body leaning at 45 degrees, hands below the shoulders. *)
Definition leaningBody (i : nat) : PoseLandmark :=
  match i with
  | 0%nat => point 0.15 0.15
  | 11%nat | 12%nat => point 0.2 0.2
  | 13%nat | 14%nat => point 0.2 0.35
  | 15%nat | 16%nat => point 0.2 0.5
  | 23%nat | 24%nat => point 0.4 0.4
  | 25%nat | 26%nat => point 0.6 0.6
  | 27%nat | 28%nat => point 0.8 0.8
  | _ => point 0.5 0.5
  end.

Definition leaningFrame : list PoseLandmark := poseFrame leaningBody.

(** The level body resting on its forearms: elbows below the shoulders,
    wrists ahead of the elbows at the same height. *)
Definition plankBody (d : number) (i : nat) : PoseLandmark :=
  match i with
  | 15%nat | 16%nat => point 0.15 (0.65 + d)
  | _ => levelBody d i
  end.

Definition plankFrame (d : number) : list PoseLandmark := poseFrame (plankBody d).

(** The first thirteen landmarks of a level body: too few to classify,
    enough to read the shoulders. *)
Definition partialFrame : list PoseLandmark := map (levelBody 0) (seq 0 13).

(** ** Sessions of the engine *)

(** The shoulder height [analyzeFrame] pushes for a frame that has both
    shoulders. *)
Definition shoulderYOf (landmarks : list PoseLandmark) : number :=
  (y (lm landmarks 11) + y (lm landmarks 12)) / 2.

(** The movement signal after a frame: [max - min] over the rolling buffer. *)
Definition spreadAfter (hist : list number) (landmarks : list PoseLandmark) : number :=
  GeometricRuleEngine.varianceOf
    (GeometricRuleEngine.pushShoulder hist (shoulderYOf landmarks)).




(** Frames that all carry a pose. *)
Definition Shot : Type := (list PoseLandmark * option number * number)%type.
Definition pose (s : Shot) : list PoseLandmark := fst (fst s).


(** ** The weights of the total score *)






(** ** Short names *)

Module RC := RepCounter.
Module GE := GeometricRuleEngine.
Module EC := ExerciseClassifier.
Module PA := PlankAnalyzer.
Module RT := RussianTwistAnalyzer.

(** ** States of the engine *)

(** The engine with its rolling buffer, or its lock, replaced. *)
Definition withHistory (eng : GE.t) (hist : list number) : GE.t :=
  GE.mk (GE.analyzers eng) (GE.currentExercise eng) (GE.isLocked eng)
    (GE.lockedExercise eng) (GE.consecutiveFrames eng) (GE.potentialExercise eng) hist.



Definition autoDetectEngine : GE.t := GE.setExercise (GE.create 0) AutoDetect.

Definition plankEngine : GE.t := GE.setExercise (GE.create 0) Plank.

(** An engine set to Russian Twist, built when the wall clock read [clock]. *)
Definition twistEngine (clock : number) : GE.t :=
  GE.setExercise (GE.create clock) RussianTwist.

(** ** Sample sessions *)



(** The Auto-Detect engine after [partialFrame]: still scanning, one
    shoulder height in its buffer. *)
Definition scannedEngine : GE.t :=
  GE.mk (GE.analyzers (GE.create 0)) AutoDetect false None 0 None [0.5].



(** A seated body with both hands [off] to the left of the hips. *)
Definition twistBody (off : number) (i : nat) : PoseLandmark :=
  match i with
  | 11%nat => point 0.4 0.3
  | 12%nat => point 0.6 0.3
  | 15%nat | 16%nat => point (0.5 + off) 0.5
  | _ => point 0.5 0.6
  end.

Definition twistFrame (off : number) : list PoseLandmark := poseFrame (twistBody off).

(** Three swings of a pre-recorded video, one second apart. *)
Definition twistShots : list GE.Frame :=
  [(Some (twistFrame 0.2), Some 1000, 0);
   (Some (twistFrame (-0.2)), Some 2000, 0);
   (Some (twistFrame 0.2), Some 3000, 0)].

(** A frame of a recording with its time on the video's own timeline, and a
    recording played back under the wall-clock readings [clocks]. *)
Definition Take : Type := (option (list PoseLandmark) * number)%type.

Fixpoint played (video : list Take) (clocks : list number) : list GE.Frame :=
  match video with
  | [] => []
  | (landmarks, ts) :: rest =>
      (landmarks, Some ts, hd 0 clocks) :: played rest (tl clocks)
  end.

(** The exercises whose analyzers count with a [RepCounter]. *)
Definition countsReps (e : ExerciseType) : bool :=
  match e with
  | AutoDetect | Plank | RussianTwist => false
  | _ => true
  end.

(** ** Scores *)


(* ================================================================== *)
(** * Vocabulary of the sessions *)

(** ** Sessions of a counter *)

(** The public methods that change a counter. *)
Inductive CounterCall :=
| CallUpdate (completion : number) (timestamp : option number) (clock : number)
| CallReset
| CallSetRecordingStartTime (time : number).

Definition call (rc : RC.t) (c : CounterCall) : RC.t :=
  match c with
  | CallUpdate completion timestamp clock => RC.update rc completion timestamp clock
  | CallReset => RC.reset rc
  | CallSetRecordingStartTime time => RC.setRecordingStartTime rc time
  end.

Definition session (rc : RC.t) (calls : list CounterCall) : RC.t :=
  fold_left call calls rc.

(** The calls of a session whose relative times do not run backwards: each
    [update] reads a time, relative to the recording start then in force,
    that is not before the relative time [last] of the update before it.
    [setRecordingStartTime] changes the base of the times read after it;
    [reset] empties the record, and the times start afresh. *)
Fixpoint steady (rs : number) (last : option number) (calls : list CounterCall) : Prop :=
  match calls with
  | [] => True
  | CallUpdate _ timestamp clock :: rest =>
      let currentMs := nullish timestamp clock - rs in
      match last with Some T => T <= currentMs | None => True end
      /\ steady rs (Some currentMs) rest
  | CallReset :: rest => steady rs None rest
  | CallSetRecordingStartTime time :: rest => steady time last rest
  end.

(** A recording started after the first sample of a rep: the start of the
    rep is relative to the old base, its mid and end to the new one. *)
Definition rebasedCalls : list CounterCall :=
  [CallUpdate 0.4 (Some 1000) 0; CallSetRecordingStartTime 900;
   CallUpdate 0.6 (Some 1010) 0; CallUpdate 0.2 (Some 1020) 0;
   CallUpdate 0.2 (Some 1030) 0].

(** A recording started before the first sample, moved back between two
    reps, and started again after a reset. *)
Definition recordedCalls : list CounterCall :=
  [CallSetRecordingStartTime 100;
   CallUpdate 0.4 (Some 110) 0; CallUpdate 0.6 (Some 120) 0;
   CallUpdate 0.2 (Some 130) 0; CallUpdate 0.2 (Some 140) 0;
   CallSetRecordingStartTime 50;
   CallUpdate 0.4 (Some 150) 0; CallUpdate 0.6 (Some 160) 0;
   CallReset; CallSetRecordingStartTime 1000;
   CallUpdate 0.4 (Some 1010) 0; CallUpdate 0.6 (Some 1020) 0;
   CallUpdate 0.2 (Some 1030) 0; CallUpdate 0.2 (Some 1040) 0].

(** Where a counter stands in its cycle: waiting for a rep to start, on the
    way to the turning point, or past it. *)
Inductive Stage := Waiting | Outbound | Returning.

Definition stage (m : CountMode) (p : RepPhase) : Stage :=
  match m, p with
  | _, Rest => Waiting
  | EccentricFirst, Top => Waiting
  | EccentricFirst, Eccentric => Outbound
  | EccentricFirst, (Bottom | Concentric) => Returning
  | ConcentricFirst, Bottom => Waiting
  | ConcentricFirst, Concentric => Outbound
  | ConcentricFirst, (Top | Eccentric) => Returning
  end.

(** The markers a counter carries at each stage, and the record it keeps:
    one RepTimestamp per counted rep. *)
Definition tidy (rc : RC.t) : Prop :=
  List.length (RC.repTimestamps rc) = RC.count rc
  /\ match stage (RC.mode rc) (RC.currentPhase rc) with
     | Waiting => RC.currentRepStartTime rc = None /\ RC.currentRepMidTime rc = None
     | Outbound => RC.currentRepStartTime rc <> None /\ RC.currentRepMidTime rc = None
     | Returning => RC.currentRepStartTime rc <> None /\ RC.currentRepMidTime rc <> None
     end.

(** The time of an [update] call, and recorded reps in chronological order:
    each rep runs from its start over its mid to its end, and a rep ends
    before the next one starts. *)
Definition callTime (c : number * option number * number) : number :=
  nullish (snd (fst c)) (snd c).

Definition inOrder (r : RepTimestamp) : Prop := start r <= mid r <= end_ r.

Definition chronological (reps : list RepTimestamp) : Prop :=
  Forall inOrder reps
  /\ StronglySorted (fun r1 r2 => end_ r1 <= start r2) reps.

(** The times a counter holds, all at or before [T] and in order: the
    markers of the rep in flight follow every recorded rep. *)
Definition timely (T : number) (rc : RC.t) : Prop :=
  chronological (RC.repTimestamps rc)
  /\ Forall (fun r => end_ r <= T) (RC.repTimestamps rc)
  /\ (forall s, RC.currentRepStartTime rc = Some s ->
        s <= T /\ Forall (fun r => end_ r <= s) (RC.repTimestamps rc))
  /\ (forall m, RC.currentRepMidTime rc = Some m ->
        m <= T /\ exists s, RC.currentRepStartTime rc = Some s /\ s <= m).

(** Two counters that differ at most in [lastPhaseTimestamp], a field that
    [update] writes and never reads. *)
Definition sameCounting (a b : RC.t) : Prop :=
  RC.count a = RC.count b
  /\ RC.currentPhase a = RC.currentPhase b
  /\ RC.thresholdHigh a = RC.thresholdHigh b
  /\ RC.thresholdLow a = RC.thresholdLow b
  /\ RC.mode a = RC.mode b
  /\ RC.repTimestamps a = RC.repTimestamps b
  /\ RC.currentRepStartTime a = RC.currentRepStartTime b
  /\ RC.currentRepMidTime a = RC.currentRepMidTime b
  /\ RC.recordingStartTime a = RC.recordingStartTime b.

(** ** Plane geometry *)







(** ** Sessions of the engine *)

(** The public methods of the engine, called in any order on one instance.
    A session ends at the first call that raises. *)
Inductive EngineCall :=
| CallAnalyzeFrame (landmarks : option (list PoseLandmark))
    (timestamp : option number) (clock : number)
| CallSetExercise (exercise : ExerciseType)
| CallSetRecordingStart (timestamp : number).

Definition engineCall (eng : GE.t) (c : EngineCall) : Completion GE.t :=
  match c with
  | CallAnalyzeFrame landmarks timestamp clock =>
      let* '(_, eng') := GE.analyzeFrame eng landmarks timestamp clock in
      Normal eng'
  | CallSetExercise exercise => Normal (GE.setExercise eng exercise)
  | CallSetRecordingStart timestamp => Normal (GE.setRecordingStartTime eng timestamp)
  end.

Fixpoint play (eng : GE.t) (calls : list EngineCall) : Completion GE.t :=
  match calls with
  | [] => Normal eng
  | c :: rest => let* eng' := engineCall eng c in play eng' rest
  end.

(** The fourteen counters of the analyzers table. *)
Definition counters (a : GE.Analyzers) : list RC.t :=
  [SquatAnalyzer.repCounter (GE.squat a);
   repCounter (GE.legExtension a); repCounter (GE.legRaises a);
   repCounter (GE.pushUp a); repCounter (GE.benchPress a);
   repCounter (GE.inclineBenchPress a); repCounter (GE.chestFlyMachine a);
   repCounter (GE.tricepDips a); repCounter (GE.pullUp a);
   repCounter (GE.latPulldown a); repCounter (GE.tBarRow a);
   repCounter (GE.barbellBicepsCurl a); repCounter (GE.lateralRaises a);
   SquatAnalyzer.repCounter (GE.autoDetect a)].

(** The lock as the engine keeps it: held exactly when an exercise is on
    record, only in Auto-Detect mode, and never on the Auto-Detect key. *)
Definition lockSound (eng : GE.t) : Prop :=
  match GE.lockedExercise eng with
  | Some e =>
      GE.isLocked eng = true /\ GE.currentExercise eng = AutoDetect
      /\ e <> AutoDetect
  | None => GE.isLocked eng = false
  end.

(** The exercise an engine reports on. *)
Definition served (eng : GE.t) : ExerciseType :=
  match GE.lockedExercise eng with
  | Some e => e
  | None => GE.currentExercise eng
  end.

(** What one [analyze] call does to the counter of its analyzer: nothing on
    a short frame, one [update] otherwise, and the feedback shows the
    count. *)
Definition counted (rc rc' : RC.t) (fb : Feedback) (landmarks : list PoseLandmark)
  (timestamp : option number) (clock : number) : Prop :=
  if tooShort landmarks then rc' = rc /\ reps fb = 0
  else (exists completion, rc' = RC.update rc completion timestamp clock)
       /\ reps fb = INR (RC.count rc').

(** What every session keeps: a sound lock, a movement buffer of at most
    30 samples, and tidy counters. *)
Definition sound (eng : GE.t) : Prop :=
  lockSound eng
  /\ (List.length (GE.shoulderHistory eng) <= 30)%nat
  /\ Forall tidy (counters (GE.analyzers eng)).

(** A lock is kept from one state to the next: the exercise on record
    stays, except that a locked Plank may turn into Push Up. *)
Definition lockKept (eng eng' : GE.t) : Prop :=
  forall e, GE.lockedExercise eng = Some e ->
    GE.lockedExercise eng' = Some e
    \/ (e = Plank /\ GE.lockedExercise eng' = Some PushUp).



(** ** Grades *)

(** A feedback on the scale of the rep analyzers: a score from 0 to 100,
    and good form only above 80. *)
Definition graded (fb : Feedback) : Prop :=
  0 <= score fb <= 100 /\ (isGoodForm fb = true -> 80 < score fb).

(** The feedback [analyzeFrame] answers with while it has no analyzer to
    ask: no score, no reps, no good form. *)
Definition placeholder (fb : Feedback) : Prop :=
  score fb = 0 /\ reps fb = 0 /\ isGoodForm fb = false.

(** ** Sessions of the Russian Twist analyzer *)

Inductive TwistCall :=
| TwistAnalyze (landmarks : list PoseLandmark) (timestamp : option number)
    (clock : number)
| TwistSetRecordingStartTime (timestamp : number).

Definition twistCall (st : RT.t) (c : TwistCall) : RT.t :=
  match c with
  | TwistAnalyze landmarks timestamp clock =>
      snd (RT.analyze st landmarks timestamp clock)
  | TwistSetRecordingStartTime timestamp => RT.setRecordingStartTime st timestamp
  end.

Definition twistSession (st : RT.t) (calls : list TwistCall) : RT.t :=
  fold_left twistCall calls st.

Definition isTwistAnalyze (c : TwistCall) : bool :=
  match c with TwistAnalyze _ _ _ => true | TwistSetRecordingStartTime _ => false end.

(** Reps that last more than half a second each, and reps that follow one
    another without a gap. *)
Definition spaced (reps : list RepTimestamp) : Prop :=
  Forall (fun r => 500 < end_ r - start r) reps.

Fixpoint contiguous (reps : list RepTimestamp) : Prop :=
  match reps with
  | r1 :: (r2 :: _) as rest => end_ r1 = start r2 /\ contiguous rest
  | _ => True
  end.

(** The end of the last rep of a list, or [d] when there is none. *)
Definition lastEnd (reps : list RepTimestamp) (d : number) : number :=
  fold_left (fun _ r => end_ r) reps d.

(** Two Russian Twist analyzers that differ at most in [recordingStartTime]. *)
Definition sameTwist (a b : RT.t) : Prop :=
  RT.lastXOffset a = RT.lastXOffset b
  /\ RT.direction a = RT.direction b
  /\ RT.repCount a = RT.repCount b
  /\ RT.crossedCenter a = RT.crossedCenter b
  /\ RT.lastPeakTime a = RT.lastPeakTime b
  /\ RT.currentMidTime a = RT.currentMidTime b
  /\ RT.repTimestamps a = RT.repTimestamps b.

(** ** Sessions of the Plank analyzer *)

Fixpoint plankRun (st : PA.t) (shots : list Shot) : Completion (list Feedback * PA.t) :=
  match shots with
  | [] => Normal ([], st)
  | (landmarks, timestamp, clock) :: rest =>
      let* '(fb, st') := PA.analyze st landmarks timestamp clock in
      let* '(fbs, st'') := plankRun st' rest in
      Normal (fb :: fbs, st'')
  end.

(** The wall-clock readings of a run. *)
Definition clockReadings (shots : list Shot) : list number := map (fun s : Shot => snd s) shots.

(** What a twist session keeps: spaced and contiguous reps, the last of
    them ending at the last peak, a positive time, and no more of them than
    counted. *)
Definition twistKept (st : RT.t) : Prop :=
  spaced (RT.repTimestamps st) /\ contiguous (RT.repTimestamps st)
  /\ (RT.repTimestamps st = []
      \/ (lastEnd (RT.repTimestamps st) 0 = RT.lastPeakTime st /\ 0 < RT.lastPeakTime st))
  /\ (List.length (RT.repTimestamps st) <= RT.repCount st)%nat.

(** A frame for which the pose detector found nobody. *)
Definition hasPose (f : GE.Frame) : bool :=
  match fst (fst f) with
  | None | Some [] => false
  | Some (_ :: _) => true
  end.

(** The engine a run ends with, if no frame raised. *)
Definition finalEngine (r : Completion (list Feedback * GE.t)) : option GE.t :=
  match r with
  | Normal (_, eng) => Some eng
  | Throw _ => None
  end.

(** ** A recording started later *)

(** An [update] call made [d] later, by timestamp and by the clock. *)
Definition delayed (d : number) (c : number * option number * number)
  : number * option number * number :=
  (fst (fst c), option_map (fun t => t + d) (snd (fst c)), snd c + d).

(** Two counters with the same count, phase, configuration, markers and
    recorded reps. *)
Definition sameRecord (a b : RC.t) : Prop :=
  RC.count a = RC.count b
  /\ RC.currentPhase a = RC.currentPhase b
  /\ RC.thresholdHigh a = RC.thresholdHigh b
  /\ RC.thresholdLow a = RC.thresholdLow b
  /\ RC.mode a = RC.mode b
  /\ RC.repTimestamps a = RC.repTimestamps b
  /\ RC.currentRepStartTime a = RC.currentRepStartTime b
  /\ RC.currentRepMidTime a = RC.currentRepMidTime b.

(** ** The counter behind an exercise *)



(* ================================================================== *)

(** * Lemmas and theorems *)

(** ** Comparisons *)

Lemma lt_true a b : a < b -> (a <? b) = true.
Proof. intros; unfold JS.lt; destruct (Rlt_dec a b); [reflexivity|lra]. Qed.
Lemma lt_false a b : ~ a < b -> (a <? b) = false.
Proof. intros; unfold JS.lt; destruct (Rlt_dec a b); [lra|reflexivity]. Qed.
Lemma le_true a b : a <= b -> (a <=? b) = true.
Proof. intros; unfold JS.le; destruct (Rle_dec a b); [reflexivity|lra]. Qed.
Lemma le_false a b : ~ a <= b -> (a <=? b) = false.
Proof. intros; unfold JS.le; destruct (Rle_dec a b); [lra|reflexivity]. Qed.
Lemma eq_true a b : a = b -> (a =? b) = true.
Proof. intros; unfold JS.eq; destruct (Req_dec_T a b); [reflexivity|lra]. Qed.
Lemma eq_false a b : a <> b -> (a =? b) = false.
Proof. intros; unfold JS.eq; destruct (Req_dec_T a b); [contradiction|reflexivity]. Qed.

Lemma lt_spec a b : reflect (a < b) (a <? b).
Proof. unfold JS.lt; destruct (Rlt_dec a b); constructor; assumption. Qed.
Lemma le_spec a b : reflect (a <= b) (a <=? b).
Proof. unfold JS.le; destruct (Rle_dec a b); constructor; assumption. Qed.
Lemma gt_spec a b : reflect (a > b) (a >? b).
Proof. unfold JS.gt. apply lt_spec. Qed.
Lemma eq_spec a b : reflect (a = b) (a =? b).
Proof. unfold JS.eq; destruct (Req_dec_T a b); constructor; assumption. Qed.

(** Decide the comparisons of the goal whose outcome linear arithmetic settles. *)
Ltac js_decide :=
  unfold JS.gt, JS.ge;
  repeat match goal with
  | |- context [?a <? ?b] =>
      first [ rewrite (lt_true a b) by lra | rewrite (lt_false a b) by lra ]
  | |- context [?a <=? ?b] =>
      first [ rewrite (le_true a b) by lra | rewrite (le_false a b) by lra ]
  | |- context [?a =? ?b] =>
      first [ rewrite (eq_true a b) by lra | rewrite (eq_false a b) by lra ]
  end.

(** Split on every comparison of the goal. *)
Ltac js_cases :=
  unfold JS.gt, JS.ge;
  repeat match goal with
  | |- context [?a <? ?b] => destruct (lt_spec a b)
  | |- context [?a <=? ?b] => destruct (le_spec a b)
  | |- context [?a =? ?b] => destruct (eq_spec a b)
  end.

(* ================================================================== *)

(** ** The repetition counter: one update, one transition *)

Lemma update_mode rc c ts clock : RC.mode (RC.update rc c ts clock) = RC.mode rc.
Proof.
  unfold RC.update, RC.completeRep, RC.markStart.
  destruct rc as [n p l h lo m tss s mi r]; simpl.
  destruct m, p, s; simpl; js_cases; reflexivity.
Qed.

Lemma update_step rc c ts clock :
  let rc' := RC.update rc c ts clock in
  (RC.currentPhase rc' = RC.currentPhase rc /\ RC.count rc' = RC.count rc)
  \/ (transition (RC.mode rc) (RC.currentPhase rc) (RC.currentPhase rc')
      /\ (RC.count rc' = RC.count rc
          \/ (RC.count rc' = S (RC.count rc)
              /\ RC.currentPhase rc = countingPhase (RC.mode rc)))).
Proof.
  unfold RC.update, RC.completeRep, RC.markStart.
  destruct rc as [n p l h lo m tss s mi r]; simpl.
  destruct m, p, s; simpl; js_cases; simpl;
    first [ left; split; reflexivity
          | right; split; [ constructor | first [ left; reflexivity | right; split; reflexivity ] ] ].
Qed.

Lemma transition_distance m p q :
  transition m p q -> (callsToCount m p <= S (callsToCount m q))%nat.
Proof. intros H; destruct H; simpl; lia. Qed.

Lemma run_count_unchanged calls : forall rc,
  (List.length calls < callsToCount (RC.mode rc) (RC.currentPhase rc))%nat ->
  RC.count (RC.run rc calls) = RC.count rc.
Proof.
  induction calls as [| [[c ts] clock] rest IH]; intros rc Hlen; simpl; [reflexivity|].
  simpl in Hlen.
  pose proof (update_step rc c ts clock) as Hs; simpl in Hs.
  pose proof (update_mode rc c ts clock) as Hm.
  destruct Hs as [[Hp Hc] | [Ht Hc]].
  - rewrite IH; [exact Hc|]. rewrite Hm, Hp. lia.
  - apply transition_distance in Ht.
    destruct Hc as [Hc | [Hc Hp]].
    + rewrite IH; [exact Hc|]. rewrite Hm. lia.
    + exfalso. rewrite Hp in Hlen.
      destruct (RC.mode rc); simpl in Hlen; lia.
Qed.

(** C10: a single [update] moves the phase along at most one edge of the
    cycle and raises [count] by at most one; hence a counter in Rest that
    receives fewer than four calls keeps its count, whatever completion
    values the calls carry. *)
Theorem C10 :
  (forall rc c ts clock,
     let rc' := RC.update rc c ts clock in
     (RC.currentPhase rc' = RC.currentPhase rc
      \/ transition (RC.mode rc) (RC.currentPhase rc) (RC.currentPhase rc'))
     /\ (RC.count rc' = RC.count rc \/ RC.count rc' = S (RC.count rc)))
  /\ (forall rc calls,
        RC.currentPhase rc = Rest ->
        (List.length calls < 4)%nat ->
        RC.count (RC.run rc calls) = RC.count rc).
Proof.
  split.
  - intros rc c ts clock; cbv zeta.
    destruct (update_step rc c ts clock) as [[Hp Hc] | [Ht [Hc | [Hc _]]]]; auto.
  - intros rc calls Hrest Hlen. apply run_count_unchanged.
    rewrite Hrest. destruct (RC.mode rc); simpl; lia.
Qed.

(* ================================================================== *)

Lemma feed_cons rc c ts rest :
  RC.feed rc ((c, ts) :: rest) = RC.feed (RC.update rc c (Some ts) 0) rest.
Proof. reflexivity. Qed.
Lemma feed_nil rc : RC.feed rc [] = rc.
Proof. reflexivity. Qed.

Ltac rc_norm :=
  lazy beta iota zeta delta
    [RC.update RC.markStart RC.completeRep RC.setPhase RC.setStart RC.setMid
     RC.setLastPhaseTimestamp RC.incrCount RC.pushTimestamp
     RC.count RC.currentPhase RC.lastPhaseTimestamp RC.thresholdHigh
     RC.thresholdLow RC.mode RC.repTimestamps RC.currentRepStartTime
     RC.currentRepMidTime RC.recordingStartTime nullish or_else app
     freshCounter RC.createDefault RC.create].

(** One sample: unfold the head call, settle its comparisons. *)
Ltac rc_step := rewrite feed_cons; rc_norm; js_decide; rc_norm.
Ltac rc_eval := repeat rc_step; rewrite ?feed_nil; rc_norm.

(** ** The false start

    C4 as stated: after the samples [0.4, 0.2, 0.4, 0.6, 0.2] the count of a
    fresh counter is not 1. *)
Lemma C4_counterexample :
  RC.count (RC.feed freshCounter falseStartSamples) <> 1%nat.
Proof. unfold falseStartSamples. rc_eval. discriminate. Qed.

(** C4, amended: after the five samples the count is still 0, the counter
    is in Concentric with the rep opened at the third sample, and the false
    start of the first two samples has left no RepTimestamp; one more
    sample at or below [thresholdLow] completes the rep, with count 1, the
    markers cleared and exactly one RepTimestamp, which starts at the third
    sample. *)
Theorem C4_amended (t1 t2 t3 t4 t5 : number) :
  let rc5 :=
    RC.feed freshCounter [(0.4, t1); (0.2, t2); (0.4, t3); (0.6, t4); (0.2, t5)] in
  RC.count rc5 = 0%nat
  /\ RC.currentPhase rc5 = Concentric
  /\ RC.repTimestamps rc5 = []
  /\ RC.currentRepStartTime rc5 = Some t3
  /\ forall c6 t6 : number,
       c6 <= 0.35 ->
       let rc6 := RC.update rc5 c6 (Some t6) 0 in
       RC.count rc6 = 1%nat
       /\ RC.currentPhase rc6 = Top
       /\ RC.currentRepStartTime rc6 = None
       /\ RC.currentRepMidTime rc6 = None
       /\ exists m, RC.repTimestamps rc6 = [mkRepTimestamp t3 m t6].
Proof.
  cbv zeta. rc_eval. rewrite !Rminus_0_r.
  do 4 (split; [reflexivity|]).
  intros c6 t6 H6. rc_norm. js_decide. rc_norm. rewrite ?Rminus_0_r.
  do 4 (split; [reflexivity|]).
  eexists; reflexivity.
Qed.

(** C4, amended, on the sequence sampled every 100 ms and closed by a sixth
    sample of 0.2. *)
Lemma C4_amended_witness :
  RC.count
    (RC.update (RC.feed freshCounter falseStartSamples) 0.2 (Some 500) 0) = 1%nat.
Proof.
  apply (C4_amended 0 100 200 300 400). lra.
Defined.

(** ** A mid marker of 0

    C2, where the code leaves the table: the rep reaches Bottom at relative
    time 0, so its mid marker is set, to 0; the completed rep nevertheless
    records the completion time 20 as its mid, because the fallback tests
    the marker with [||], for which a marked 0 counts as unmarked. *)
Lemma C2_mid_marked_at_zero :
  RC.currentRepMidTime (RC.feed freshCounter [(0.4, 0); (0.6, 0); (0.2, 10)]) = Some 0
  /\ RC.repTimestamps (RC.feed freshCounter midAtZeroSamples) = [mkRepTimestamp 0 20 20].
Proof.
  split.
  - rc_eval. rewrite !Rminus_0_r. reflexivity.
  - unfold midAtZeroSamples. rc_eval. rewrite !Rminus_0_r.
    unfold or_num, falsy. js_decide. reflexivity.
Qed.

(** C10 at three calls on a fresh counter, the second of which crosses both
    thresholds at once. *)
Lemma C10_witness :
  RC.count (RC.run freshCounter [(0.4, None, 0); (0.9, None, 10); (0.2, None, 20)])
  = RC.count freshCounter.
Proof.
  apply (proj2 C10); [reflexivity | simpl; lia].
Defined.

(** The bound of four calls is attained: a fourth call can count. *)
Lemma four_calls_count_one :
  RC.count (RC.feed freshCounter [(0.4, 1); (0.6, 2); (0.2, 3); (0.2, 4)]) = 1%nat.
Proof. rc_eval. reflexivity. Qed.

(** The sequence [0.0, 0.4, 0.6, 0.6, 0.3, 0.1], sampled every 100 ms: one
    rep, through Eccentric, Bottom and Concentric to Top, and one
    RepTimestamp. *)
Lemma one_rep_sequence :
  let rc :=
    RC.feed freshCounter
      [(0, 0); (0.4, 100); (0.6, 200); (0.6, 300); (0.3, 400); (0.1, 500)] in
  RC.count rc = 1%nat
  /\ RC.currentPhase rc = Top
  /\ RC.repTimestamps rc = [mkRepTimestamp 100 200 500].
Proof.
  cbv zeta. rc_eval. rewrite !Rminus_0_r.
  unfold or_num, falsy. js_decide.
  repeat split.
Qed.

(* ================================================================== *)

(** ** The table and the code *)



(** The rows of the table exclude one another: it names one next state. *)
Lemma table_functional rc c now ms r1 r2 :
  RC.thresholdLow rc < RC.thresholdHigh rc ->
  SpecTable.row rc c now ms r1 -> SpecTable.row rc c now ms r2 -> r1 = r2.
Proof.
  intros Hth H1 H2.
  destruct H1; destruct H2; try reflexivity;
    repeat match goal with
    | H : _ \/ _ |- _ => destruct H
    | H : RC.currentPhase rc = _, H' : RC.currentPhase rc = _ |- _ =>
        rewrite H in H'; try discriminate H'; clear H'
    | H : RC.currentPhase rc = _, H' : match RC.currentPhase rc with _ => _ end |- _ =>
        rewrite H in H'
    end; try lra; try congruence.
Qed.

(** [ConcentricFirst] is [EccentricFirst] mirrored: Eccentric and Concentric
    trade places, and so do Bottom and Top; thresholds, counts and markers
    are untouched. *)
Lemma update_mirror rc c ts clock :
  RC.update (mirrorCounter rc) c ts clock = mirrorCounter (RC.update rc c ts clock).
Proof.
  unfold RC.update, RC.completeRep, RC.markStart, mirrorCounter.
  destruct rc as [n p l h lo m tss s mi r]; simpl.
  destruct m, p, s; simpl; js_cases; reflexivity.
Qed.

(* ================================================================== *)

(** ** The counter never loses a rep *)

Lemma update_count_monotone rc c ts clock :
  (RC.count rc <= RC.count (RC.update rc c ts clock))%nat.
Proof.
  destruct (update_step rc c ts clock) as [[_ Hc] | [_ [Hc | [Hc _]]]];
    rewrite Hc; lia.
Qed.

(** Over any sequence of calls the count never decreases, and it rises by
    no more than the number of calls. *)
Lemma run_count_monotone calls : forall rc,
  (RC.count rc <= RC.count (RC.run rc calls) <= RC.count rc + List.length calls)%nat.
Proof.
  induction calls as [| [[c ts] clock] rest IH]; intros rc; simpl; [lia|].
  specialize (IH (RC.update rc c ts clock)).
  pose proof (update_count_monotone rc c ts clock).
  destruct (update_step rc c ts clock) as [[_ Hc] | [_ [Hc | [Hc _]]]];
    rewrite Hc in *; lia.
Qed.

(* ================================================================== *)

(** ** The angle primitive *)

Lemma atan_pos z : 0 < z -> 0 < atan z.
Proof. intros H. rewrite <- atan_0. apply atan_increasing. exact H. Qed.

Lemma atan_neg z : z < 0 -> atan z < 0.
Proof. intros H. rewrite <- atan_0. apply atan_increasing. exact H. Qed.

Lemma atan_nonpos z : z <= 0 -> atan z <= 0.
Proof.
  intros [H | H]; [left; apply atan_neg; exact H | rewrite H, atan_0; lra].
Qed.

Lemma div_neg_neg a b : a < 0 -> b < 0 -> 0 < a / b.
Proof.
  intros Ha Hb. replace (a / b) with ((- a) / (- b)) by (field; lra).
  apply Rdiv_lt_0_compat; lra.
Qed.

Lemma div_nonneg_neg a b : 0 <= a -> b < 0 -> a / b <= 0.
Proof.
  intros Ha Hb. replace (a / b) with (- (a / (- b))) by (field; lra).
  assert (0 <= a / (- b)) by (apply Rle_mult_inv_pos; lra). lra.
Qed.

Lemma atan2_bounds v u : - PI < atan2 v u <= PI.
Proof.
  pose proof PI_RGT_0 as Hpi.
  unfold atan2. js_cases.
  - pose proof (atan_bound (v / u)). lra.
  - pose proof (atan_bound (v / u)).
    pose proof (atan_nonpos (v / u) (div_nonneg_neg v u ltac:(lra) ltac:(lra))). lra.
  - pose proof (atan_bound (v / u)).
    pose proof (atan_pos (v / u) (div_neg_neg v u ltac:(lra) ltac:(lra))). lra.
  - lra.
  - lra.
  - lra.
Qed.


(** Opposite directions are half a turn apart. *)
Lemma atan2_opposite v u k :
  0 < k -> (u <> 0 \/ v <> 0) ->
  Rabs (atan2 v u - atan2 (- k * v) (- k * u)) = PI.
Proof.
  intros Hk Hne. pose proof PI_RGT_0 as Hpi.
  assert (Hq : u <> 0 -> (- k * v) / (- k * u) = v / u) by (intros; field; lra).
  unfold atan2.
  destruct (Rtotal_order u 0) as [Hu | [Hu | Hu]].
  - assert (0 < - k * u) by nra.
    rewrite (lt_false 0 u), (lt_true u 0), (lt_true 0 (- k * u)) by lra.
    rewrite Hq by lra.
    destruct (le_spec 0 v).
    + replace (atan (v / u) + PI - atan (v / u)) with PI by ring.
      apply Rabs_pos_eq. lra.
    + replace (atan (v / u) - PI - atan (v / u)) with (- PI) by ring.
      rewrite Rabs_Ropp. apply Rabs_pos_eq. lra.
  - subst u. destruct Hne as [Hne | Hne]; [lra|].
    replace (- k * 0) with 0 by ring.
    rewrite !(lt_false 0 0) by lra.
    destruct (Rtotal_order v 0) as [Hv | [Hv | Hv]]; [| lra |].
    + assert (0 < - k * v) by nra.
      rewrite (lt_false 0 v), (lt_true v 0), (lt_true 0 (- k * v)) by lra.
      replace (- (PI / 2) - PI / 2) with (- PI) by field.
      rewrite Rabs_Ropp. apply Rabs_pos_eq. lra.
    + assert (- k * v < 0) by nra.
      rewrite (lt_true 0 v), (lt_false 0 (- k * v)), (lt_true (- k * v) 0) by lra.
      replace (PI / 2 - - (PI / 2)) with PI by field.
      apply Rabs_pos_eq. lra.
  - assert (- k * u < 0) by nra.
    rewrite (lt_true 0 u), (lt_false 0 (- k * u)), (lt_true (- k * u) 0) by lra.
    rewrite Hq by lra.
    destruct (le_spec 0 (- k * v)).
    + replace (atan (v / u) - (atan (v / u) + PI)) with (- PI) by ring.
      rewrite Rabs_Ropp. apply Rabs_pos_eq. lra.
    + replace (atan (v / u) - (atan (v / u) - PI)) with PI by ring.
      apply Rabs_pos_eq. lra.
Qed.

Lemma degrees_abs r : Rabs (r * 180 / PI) = Rabs r * 180 / PI.
Proof.
  pose proof PI_RGT_0.
  unfold Rdiv. rewrite !Rabs_mult.
  rewrite (Rabs_pos_eq 180) by lra.
  rewrite (Rabs_pos_eq (/ PI)) by (left; apply Rinv_0_lt_compat; lra).
  reflexivity.
Qed.

Lemma calculateAngle_sym a b c : calculateAngle a b c = calculateAngle c b a.
Proof.
  unfold calculateAngle; cbv zeta.
  rewrite !degrees_abs.
  rewrite (Rabs_minus_sym (atan2 (y c - y b) (x c - x b))).
  reflexivity.
Qed.

Lemma calculateAngle_range a b c : 0 <= calculateAngle a b c <= 180.
Proof.
  pose proof PI_RGT_0 as Hpi.
  unfold calculateAngle; cbv zeta. rewrite degrees_abs.
  pose proof (atan2_bounds (y c - y b) (x c - x b)) as H1.
  pose proof (atan2_bounds (y a - y b) (x a - x b)) as H2.
  assert (Hr : 0 <= Rabs (atan2 (y c - y b) (x c - x b)
                          - atan2 (y a - y b) (x a - x b)) < 2 * PI).
  { split; [apply Rabs_pos|]. unfold Rabs. destruct (Rcase_abs _); lra. }
  set (r := atan2 (y c - y b) (x c - x b) - atan2 (y a - y b) (x a - x b)) in *.
  clearbody r.
  assert (Hd : 0 <= Rabs r * 180 / PI < 360).
  { split.
    - apply Rle_mult_inv_pos; lra.
    - apply Rmult_lt_reg_r with PI; [lra|].
      unfold Rdiv. rewrite Rmult_assoc, Rinv_l by lra. lra. }
  js_cases; lra.
Qed.

Lemma calculateAngle_straight a b c t :
  0 < t < 1 ->
  x a <> x c \/ y a <> y c ->
  x b = x a + t * (x c - x a) ->
  y b = y a + t * (y c - y a) ->
  calculateAngle a b c = 180.
Proof.
  intros Ht Hne Hx Hy. pose proof PI_RGT_0 as Hpi.
  unfold calculateAngle; cbv zeta. rewrite degrees_abs.
  set (u := x c - x b). set (v := y c - y b).
  assert (Hk : 0 < t / (1 - t)) by (apply Rdiv_lt_0_compat; lra).
  assert (Hax : x a - x b = - (t / (1 - t)) * u).
  { unfold u. rewrite Hx. field. lra. }
  assert (Hay : y a - y b = - (t / (1 - t)) * v).
  { unfold v. rewrite Hy. field. lra. }
  rewrite Hax, Hay.
  rewrite atan2_opposite; [| exact Hk |].
  - replace (PI * 180 / PI) with 180 by (field; lra).
    js_decide. reflexivity.
  - unfold u, v. rewrite Hx, Hy.
    destruct Hne as [Hne | Hne]; [left | right]; intros Hz;
      apply Hne; nra.
Qed.



(* ================================================================== *)



(* ================================================================== *)

(** ** Array access *)

Lemma tooShort_false l : tooShort l = false <-> (33 <= List.length l)%nat.
Proof. unfold tooShort. rewrite Nat.ltb_ge. reflexivity. Qed.

Lemma tooShort_true l : tooShort l = true <-> (List.length l < 33)%nat.
Proof. unfold tooShort. rewrite Nat.ltb_lt. reflexivity. Qed.

Lemma nth_error_lm l i :
  (i < List.length l)%nat -> nth_error l i = Some (lm l i).
Proof. intros H. unfold lm. apply nth_error_nth'. exact H. Qed.

Lemma prop_lm l i f :
  (i < List.length l)%nat -> prop l i f = Normal (f (lm l i)).
Proof. intros H. unfold prop. rewrite nth_error_lm by exact H. reflexivity. Qed.

Lemma item_lm l i :
  (i < List.length l)%nat -> item l i = Normal (lm l i).
Proof. intros H. unfold item. rewrite nth_error_lm by exact H. reflexivity. Qed.

Lemma prop_missing l i f :
  (List.length l <= i)%nat -> prop l i f = Throw TypeError.
Proof.
  intros H. unfold prop.
  destruct (nth_error l i) eqn:E; [|reflexivity].
  assert (nth_error l i <> None) by (rewrite E; discriminate).
  apply nth_error_Some in H0. lia.
Qed.

(** ** The engine's guard is for the empty array only *)

Lemma analyzeFrame_short_throws eng l ts clock :
  l <> [] -> (List.length l <= 12)%nat ->
  GE.analyzeFrame eng (Some l) ts clock = Throw TypeError.
Proof.
  intros Hne Hlen. unfold GE.analyzeFrame.
  destruct l as [| p rest]; [contradiction|].
  destruct (Nat.le_gt_cases (List.length (p :: rest)) 11) as [H11 | H11].
  - rewrite (prop_missing _ 11) by exact H11. reflexivity.
  - rewrite (prop_lm _ 11) by exact H11.
    rewrite (prop_missing _ 12) by exact Hlen. reflexivity.
Qed.

Lemma plank_short_throws st l ts clock :
  (List.length l <= 27)%nat ->
  PlankAnalyzer.analyze st l ts clock = Throw TypeError.
Proof.
  intros Hlen. unfold PlankAnalyzer.analyze; cbv zeta.
  destruct (Nat.le_gt_cases (List.length l) 23) as [H23 | H23].
  { rewrite (prop_missing _ 23) by exact H23. reflexivity. }
  rewrite (prop_lm _ 23) by exact H23. cbn [bind].
  destruct (Nat.le_gt_cases (List.length l) 24) as [H24 | H24].
  { rewrite (prop_missing _ 24) by exact H24. reflexivity. }
  rewrite (prop_lm _ 24) by exact H24. cbn [bind].
  destruct (_ >? _).
  - rewrite (item_lm _ 11), (item_lm _ 23) by lia. cbn [bind].
    destruct (Nat.le_gt_cases (List.length l) 25) as [H25 | H25].
    { unfold item at 1. 
      destruct (nth_error l 25) eqn:E; [|reflexivity].
      assert (nth_error l 25 <> None) by (rewrite E; discriminate).
      apply nth_error_Some in H. lia. }
    rewrite (item_lm _ 25) by lia. cbn [bind].
    unfold item at 1.
    destruct (nth_error l 27) eqn:E; [|reflexivity].
    assert (nth_error l 27 <> None) by (rewrite E; discriminate).
    apply nth_error_Some in H. lia.
  - rewrite (item_lm _ 12), (item_lm _ 24) by lia. cbn [bind].
    destruct (Nat.le_gt_cases (List.length l) 26) as [H26 | H26].
    { unfold item at 1. 
      destruct (nth_error l 26) eqn:E; [|reflexivity].
      assert (nth_error l 26 <> None) by (rewrite E; discriminate).
      apply nth_error_Some in H. lia. }
    rewrite (item_lm _ 26) by lia. cbn [bind].
    unfold item at 1.
    destruct (nth_error l 28) eqn:E; [|reflexivity].
    assert (nth_error l 28 <> None) by (rewrite E; discriminate).
    apply nth_error_Some in H. lia.
Qed.

(* ================================================================== *)

(** ** Short arrays *)

(** The engine's own guard: a missing or empty array gives the zero
    feedback and leaves the engine as it was. *)
Lemma analyzeFrame_no_pose eng ts clock :
  GE.analyzeFrame eng None ts clock = Normal (GE.noPoseFeedback, eng)
  /\ GE.analyzeFrame eng (Some []) ts clock = Normal (GE.noPoseFeedback, eng).
Proof. split; reflexivity. Qed.

(** The analyzers that check the length, which is every one but Plank's:
    on fewer than 33 landmarks they answer with the empty feedback and keep
    their state. *)
Lemma guarded_analyzers_short e a l ts clock :
  e <> Plank -> (List.length l < 33)%nat ->
  exists fb,
    GE.analyzeWith e a l ts clock = Normal (fb, a)
    /\ score fb = 0 /\ reps fb = 0 /\ repPhase fb = "Rest" /\ isGoodForm fb = false
    /\ breakdown fb = zeroBreakdown.
Proof.
  intros He Hlen. apply tooShort_true in Hlen.
  destruct a.
  destruct e; try (contradiction He; reflexivity);
    cbn [GE.analyzeWith GE.squat GE.legExtension GE.legRaises GE.pushUp GE.benchPress
         GE.inclineBenchPress GE.chestFlyMachine GE.tricepDips GE.pullUp
         GE.latPulldown GE.tBarRow GE.barbellBicepsCurl GE.lateralRaises GE.plank
         GE.russianTwist GE.autoDetect];
    unfold SquatAnalyzer.analyze, LegExtensionAnalyzer.analyze, LegRaisesAnalyzer.analyze,
      PushUpAnalyzer.analyze, BenchPressAnalyzer.analyze, InclineBenchAnalyzer.analyze,
      ChestFlyAnalyzer.analyze, TricepDipsAnalyzer.analyze, PullUpAnalyzer.analyze,
      LatPulldownAnalyzer.analyze, TBarRowAnalyzer.analyze, BicepCurlAnalyzer.analyze,
      LateralRaiseAnalyzer.analyze, RussianTwistAnalyzer.analyze;
    rewrite Hlen; eexists; (split; [reflexivity|]); repeat split.
Qed.

Lemma guarded_analyzers_short_witness :
  exists fb,
    GE.analyzeWith Squat (GE.analyzers (GE.create 0)) [] None 0
    = Normal (fb, GE.analyzers (GE.create 0))
    /\ score fb = 0 /\ reps fb = 0 /\ repPhase fb = "Rest" /\ isGoodForm fb = false
    /\ breakdown fb = zeroBreakdown.
Proof.
  apply (guarded_analyzers_short Squat (GE.analyzers (GE.create 0)) [] None 0).
  - discriminate.
  - simpl. lia.
Defined.

(** Plank never answers with the empty feedback: with 29 landmarks or more
    it scores the frame. *)
Lemma plank_scores_short st l ts clock :
  (29 <= List.length l)%nat ->
  exists fb st',
    PlankAnalyzer.analyze st l ts clock = Normal (fb, st')
    /\ score fb >= 0.25 /\ repPhase fb <> "Rest".
Proof.
  intros Hlen. unfold PlankAnalyzer.analyze; cbv zeta.
  rewrite !prop_lm by lia. cbn [bind].
  destruct (_ >? _); rewrite !item_lm by lia; cbn [bind];
    repeat match goal with
    | |- context [if ?c then _ else _] => destruct c
    end;
    do 2 eexists; (split; [reflexivity|]); cbn [score repPhase];
    (split; [ match goal with
              | |- context [Rmax 0 ?e] => pose proof (Rmax_l 0 e)
              end; lra
            | discriminate ]).
Qed.

Lemma analyzeFrame_plank_short eng l ts clock :
  GE.currentExercise eng = Plank ->
  (13 <= List.length l <= 27)%nat ->
  GE.analyzeFrame eng (Some l) ts clock = Throw TypeError.
Proof.
  intros Hcur Hlen. unfold GE.analyzeFrame.
  destruct l as [| p rest]; [simpl in Hlen; lia|].
  rewrite !prop_lm by lia. cbn [bind]. cbv zeta.
  rewrite Hcur. cbn [ExerciseType_eqb].
  unfold GE.delegate. cbn [GE.analyzeWith GE.analyzers].
  rewrite plank_short_throws by lia. reflexivity.
Qed.

(** C1, the arrays on which it fails: with one landmark [analyzeFrame]
    raises a TypeError, since the shoulders are read before any length is
    checked; Plank's [analyze] raises on it too; and the engine set to Plank
    raises on an array of thirteen landmarks, which passes the shoulder read
    and reaches the analyzer. *)
Theorem C1_short_array_throws (eng : GE.t) (st : PlankAnalyzer.t) (p : PoseLandmark)
    (ts : option number) (clock : number) :
  GE.analyzeFrame eng (Some [p]) ts clock = Throw TypeError
  /\ PlankAnalyzer.analyze st [p] ts clock = Throw TypeError
  /\ GE.analyzeFrame (GE.setExercise eng Plank) (Some (repeat p 13)) ts clock
     = Throw TypeError.
Proof.
  split; [|split].
  - apply analyzeFrame_short_throws; [discriminate | simpl; lia].
  - apply plank_short_throws. simpl; lia.
  - apply analyzeFrame_plank_short; [reflexivity | simpl; lia].
Qed.

(* ================================================================== *)

(** ** The sample frames *)

Lemma poseFrame_length f : List.length (poseFrame f) = 33%nat.
Proof. reflexivity. Qed.

Lemma lm_poseFrame f i : (i < 33)%nat -> lm (poseFrame f) i = f i.
Proof.
  intros H. unfold lm, poseFrame.
  rewrite (nth_indep _ undefinedLandmark (f 0%nat)) by (rewrite length_map, length_seq; exact H).
  rewrite (map_nth f), seq_nth by exact H. reflexivity.
Qed.

Lemma poseFrame_not_short f : tooShort (poseFrame f) = false.
Proof. reflexivity. Qed.

(** Read the landmarks of a sample frame. *)
Ltac frame_lm :=
  rewrite ?lm_poseFrame by lia;
  cbn [levelBody leaningBody point x y z visibility].

Ltac rabs_decide :=
  repeat match goal with
  | |- context [Rabs ?e] =>
      first [ rewrite (Rabs_pos_eq e) by lra | rewrite (Rabs_left1 e) by lra ]
  end.

Section LevelFrame.

Variable d : number.
Let f := levelFrame d.

Lemma level_shoulderY : EC.shoulderY f = 0.5 + d.
Proof. unfold EC.shoulderY, f, levelFrame. frame_lm. lra. Qed.
Lemma level_hipY : EC.hipY f = 0.5 + d.
Proof. unfold EC.hipY, f, levelFrame. frame_lm. lra. Qed.
Lemma level_kneeY : EC.kneeY f = 0.5 + d.
Proof. unfold EC.kneeY, f, levelFrame. frame_lm. lra. Qed.
Lemma level_ankleY : EC.ankleY f = 0.5 + d.
Proof. unfold EC.ankleY, f, levelFrame. frame_lm. lra. Qed.
Lemma level_wristY : EC.wristY f = 0.8 + d.
Proof. unfold EC.wristY, f, levelFrame. frame_lm. lra. Qed.
Lemma level_shoulderX : EC.shoulderX f = 0.3.
Proof. unfold EC.shoulderX, f, levelFrame. frame_lm. lra. Qed.
Lemma level_hipX : EC.hipX f = 0.6.
Proof. unfold EC.hipX, f, levelFrame. frame_lm. lra. Qed.
Lemma level_ankleX : EC.ankleX f = 0.9.
Proof. unfold EC.ankleX, f, levelFrame. frame_lm. lra. Qed.

Lemma level_shoulderYOf : shoulderYOf f = 0.5 + d.
Proof. unfold shoulderYOf, f, levelFrame. frame_lm. lra. Qed.

Lemma level_hipAngle : EC.hipAngle f = 180.
Proof.
  unfold EC.hipAngle, EC.getAvgAngle, f, levelFrame. frame_lm.
  rewrite !(calculateAngle_straight _ _ _ (2/3)); cbn [point x y]; lra.
Qed.

Lemma level_kneeAngle : EC.kneeAngle f = 180.
Proof.
  unfold EC.kneeAngle, EC.getAvgAngle, f, levelFrame. frame_lm.
  rewrite !(calculateAngle_straight _ _ _ (1/2)); cbn [point x y]; lra.
Qed.

Lemma level_inclination : EC.bodyInclinationDeg f = 90.
Proof.
  unfold EC.bodyInclinationDeg, EC.bodyDx, EC.bodyDy.
  rewrite level_shoulderX, level_ankleX, level_shoulderY, level_ankleY.
  replace (0.5 + d - (0.5 + d)) with 0 by ring.
  rewrite Rabs_R0. rabs_decide.
  unfold atan2. js_decide.
  pose proof PI_RGT_0. field. lra.
Qed.

Lemma level_upright : EC.upright f = false.
Proof. unfold EC.upright. rewrite level_shoulderY, level_hipY. js_decide. reflexivity. Qed.

Lemma level_verticalDiff : EC.verticalDiff f = 0.
Proof.
  unfold EC.verticalDiff, EC.torsoHeight. rewrite level_shoulderY, level_hipY.
  replace (0.5 + d - (0.5 + d)) with 0 by ring. apply Rabs_R0.
Qed.

Lemma level_horizontalDiff : EC.horizontalDiff f = 0.3.
Proof.
  unfold EC.horizontalDiff. rewrite level_shoulderX, level_hipX. rabs_decide. lra.
Qed.

Lemma level_classified : EC.classifyExercise f = Some PushUp.
Proof.
  unfold EC.classifyExercise.
  replace (tooShort f) with false by reflexivity.
  (* the global T-Bar Row signature: the body is level, not inclined *)
  unfold EC.isInclinedHypotenuse. rewrite level_inclination. js_decide.
  rewrite andb_false_r. cbn [andb].
  (* upright rules *)
  rewrite level_upright. cbn [andb negb].
  (* Russian Twist needs bent knees *)
  unfold EC.kneesBentForTwist at 1. rewrite level_kneeAngle. js_decide.
  rewrite !andb_false_r. cbn [andb].
  unfold EC.isStanding. rewrite level_upright. cbn [andb].
  unfold EC.isLying. rewrite level_horizontalDiff, level_verticalDiff. js_decide.
  (* the lying branch *)
  unfold EC.lyingRules.
  unfold EC.isVSitPosition, EC.shouldersHigherThanHips.
  rewrite level_shoulderY, level_hipY. js_decide. cbn [andb].
  unfold EC.legsAreVertical. rewrite level_kneeY, level_hipY. js_decide.
  unfold EC.legsHorizontal. rewrite level_kneeY, level_hipY.
  replace (0.5 + d - (0.5 + d)) with 0 by ring. rewrite Rabs_R0. js_decide.
  cbn [negb andb].
  unfold EC.legsStraight. rewrite level_kneeAngle. js_decide.
  unfold EC.bodyIsFlat. rewrite level_shoulderY, level_ankleY.
  replace (0.5 + d - (0.5 + d)) with 0 by ring. rewrite Rabs_R0. js_decide.
  cbn [andb].
  rewrite level_wristY. unfold f, levelFrame. frame_lm.
  replace (0.8 + d - (0.65 + d + (0.65 + d)) / 2) with 0.15 by lra.
  rabs_decide. js_decide. reflexivity.
Qed.

End LevelFrame.



Section PlankFrame.

Variable d : number.
Let f := plankFrame d.










End PlankFrame.



(* ================================================================== *)

(** ** The classifier *)



(** Short arrays are not classified. *)
Lemma classify_short l : tooShort l = true -> EC.classifyExercise l = None.
Proof. intros H. unfold EC.classifyExercise. rewrite H. reflexivity. Qed.

Lemma classifyExercise_short l :
  (List.length l < 33)%nat -> EC.classifyExercise l = None.
Proof.
  intros H. unfold EC.classifyExercise.
  rewrite (proj2 (tooShort_true l) H). reflexivity.
Qed.

Lemma classifyExercise_short_witness : EC.classifyExercise [point 0 0] = None.
Proof.
  apply (classifyExercise_short [point 0 0]). simpl. lia.
Defined.

Lemma classified_not_short l e : EC.classifyExercise l = Some e -> (33 <= List.length l)%nat.
Proof.
  intros H. apply tooShort_false.
  destruct (tooShort l) eqn:E; [|reflexivity].
  rewrite classify_short in H by exact E. discriminate.
Qed.

(** ** The engine, frame by frame *)


Lemma eqb_eq_ex a b : ExerciseType_eqb a b = true <-> a = b.
Proof. destruct a, b; simpl; split; intros H; try reflexivity; discriminate. Qed.

Lemma eqb_neq_ex a b : ExerciseType_eqb a b = false <-> a <> b.
Proof.
  destruct a, b; simpl; split; intros H; try reflexivity; try discriminate;
    try (exfalso; apply H; reflexivity).
Qed.

Lemma shoulders_read l :
  (13 <= List.length l)%nat ->
  prop l 11 y = Normal (y (lm l 11)) /\ prop l 12 y = Normal (y (lm l 12)).
Proof. intros H. split; apply prop_lm; lia. Qed.


Lemma analyzeFrame_manual eng l ts clock :
  GE.currentExercise eng <> AutoDetect ->
  (13 <= List.length l)%nat ->
  GE.analyzeFrame eng (Some l) ts clock
  = GE.delegate (withHistory eng (GE.pushShoulder (GE.shoulderHistory eng) (shoulderYOf l)))
      (GE.currentExercise eng) l ts clock.
Proof.
  intros Hcur Hlen.
  destruct (shoulders_read l Hlen) as [H11 H12].
  unfold GE.analyzeFrame.
  destruct l as [| p rest]; [simpl in Hlen; lia|].
  rewrite H11, H12. cbn [bind].
  cbn [GE.currentExercise GE.isLocked GE.lockedExercise GE.analyzers
       GE.consecutiveFrames GE.potentialExercise GE.shoulderHistory].
  apply eqb_neq_ex in Hcur. rewrite Hcur.
  reflexivity.
Qed.

(* ================================================================== *)

(** The analyzers of the table never raise on a frame of 33 landmarks, and
    only Plank can raise at all. *)
Lemma plank_total st l ts clock :
  (29 <= List.length l)%nat ->
  exists r, PlankAnalyzer.analyze st l ts clock = Normal r.
Proof.
  intros Hlen. unfold PlankAnalyzer.analyze; cbv zeta.
  rewrite !prop_lm by lia. cbn [bind].
  destruct (_ >? _); rewrite !item_lm by lia; cbn [bind];
    repeat match goal with
    | |- context [if ?c then _ else _] => destruct c
    end; eexists; reflexivity.
Qed.

Lemma analyzeWith_total e a l ts clock :
  e <> Plank \/ (29 <= List.length l)%nat ->
  exists r, GE.analyzeWith e a l ts clock = Normal r.
Proof.
  intros H. destruct e; cbn [GE.analyzeWith];
    try (match goal with
         | |- context [let '(_, _) := ?p in _] => destruct p
         end; eexists; reflexivity).
  destruct H as [H | H]; [contradiction H; reflexivity|].
  destruct (plank_total (GE.plank a) l ts clock H) as [[fb s] Hr].
  rewrite Hr. cbn [bind]. eexists; reflexivity.
Qed.

Lemma delegate_normal eng e l ts clock r :
  GE.analyzeWith e (GE.analyzers eng) l ts clock = Normal r ->
  GE.delegate eng e l ts clock
  = Normal (GE.postProcess eng e (fst r), GE.withAnalyzers eng (snd r)).
Proof.
  intros H. unfold GE.delegate. rewrite H. destruct r; reflexivity.
Qed.

Lemma delegate_total eng e l ts clock :
  e <> Plank \/ (29 <= List.length l)%nat ->
  exists fb eng',
    GE.delegate eng e l ts clock = Normal (fb, eng')
    /\ GE.isLocked eng' = GE.isLocked eng
    /\ GE.lockedExercise eng' = GE.lockedExercise eng
    /\ GE.currentExercise eng' = GE.currentExercise eng
    /\ GE.shoulderHistory eng' = GE.shoulderHistory eng.
Proof.
  intros H. destruct (analyzeWith_total e (GE.analyzers eng) l ts clock H) as [r Hr].
  rewrite (delegate_normal _ _ _ _ _ _ Hr).
  do 2 eexists. split; [reflexivity|]. repeat split.
Qed.

(** One frame of the detection phase. *)
Lemma analyzeFrame_detecting eng l ts clock e :
  GE.currentExercise eng = AutoDetect ->
  GE.isLocked eng = false ->
  EC.classifyExercise l = Some e ->
  let hist := GE.pushShoulder (GE.shoulderHistory eng) (shoulderYOf l) in
  (e = Plank \/ e = PushUp -> GE.varianceOf hist <= 0.05) ->
  let k :=
    match GE.potentialExercise eng with
    | Some p => if ExerciseType_eqb e p then S (GE.consecutiveFrames eng) else 1%nat
    | None => 1%nat
    end in
  GE.analyzeFrame eng (Some l) ts clock
  = if Nat.ltb (GE.lockThreshold e) k
    then
      GE.delegate
        (GE.mk
           (if ExerciseType_eqb e Plank
            then GE.withPlankElapsed (GE.analyzers eng) (INR (GE.lockThreshold e) / 6)
            else GE.analyzers eng)
           AutoDetect true (Some e) k (Some e) hist)
        e l ts clock
    else
      Normal
        (GE.detectingFeedback (Some e) e,
         GE.mk (GE.analyzers eng) AutoDetect false (GE.lockedExercise eng) k (Some e) hist).
Proof.
  intros Hcur Hlock Hcls hist Hcalm k.
  pose proof (classified_not_short _ _ Hcls) as Hlen.
  destruct (shoulders_read l ltac:(lia)) as [H11 H12].
  unfold GE.analyzeFrame.
  destruct l as [| p rest]; [simpl in Hlen; lia|].
  rewrite H11, H12. cbn [bind].
  cbn [GE.currentExercise GE.isLocked GE.lockedExercise GE.analyzers
       GE.consecutiveFrames GE.potentialExercise GE.shoulderHistory].
  rewrite Hcur, Hlock, Hcls. cbn [ExerciseType_eqb].
  fold (shoulderYOf (p :: rest)). fold hist.
  assert (Hmov : (ExerciseType_eqb e Plank || ExerciseType_eqb e PushUp)
                 && (GE.varianceOf hist >? 0.05) = false).
  { destruct (ExerciseType_eqb e Plank || ExerciseType_eqb e PushUp) eqn:E;
      [|reflexivity].
    cbn [andb]. unfold JS.gt. apply lt_false.
    assert (e = Plank \/ e = PushUp).
    { apply orb_true_iff in E. destruct E as [E | E]; apply eqb_eq_ex in E; auto. }
    specialize (Hcalm H). lra. }
  rewrite Hmov. cbn [andb].
  assert (Hk : (if match GE.potentialExercise eng with
                   | Some p0 => ExerciseType_eqb e p0
                   | None => false
                   end
                then S (GE.consecutiveFrames eng) else 1%nat) = k).
  { unfold k. destruct (GE.potentialExercise eng); reflexivity. }
  rewrite Hk.
  assert (Hp : (if match GE.potentialExercise eng with
                   | Some p0 => ExerciseType_eqb e p0
                   | None => false
                   end
                then GE.potentialExercise eng else Some e) = Some e).
  { destruct (GE.potentialExercise eng) as [p0|]; [|reflexivity].
    destruct (ExerciseType_eqb e p0) eqn:E; [|reflexivity].
    apply eqb_eq_ex in E. subst. reflexivity. }
  rewrite Hp.
  reflexivity.
Qed.


(* ================================================================== *)

Lemma run_cons eng l ts clock rest :
  GE.run eng ((l, ts, clock) :: rest)
  = let* '(fb, eng') := GE.analyzeFrame eng l ts clock in
    let* '(fbs, eng'') := GE.run eng' rest in
    Normal (fb :: fbs, eng'').
Proof. reflexivity. Qed.


Section Detection.

Variable e : ExerciseType.




End Detection.



(* ================================================================== *)

(** Settle [max - min] over a concrete buffer. *)
Ltac spread_decide :=
  unfold spreadAfter, GE.varianceOf, GE.pushShoulder;
  rewrite ?level_shoulderYOf;
  cbn [autoDetectEngine GE.setExercise GE.create GE.shoulderHistory];
  cbn [app List.length Nat.ltb Nat.leb List.tl max_of min_of fold_left];
  repeat match goal with
  | |- context [Rmax ?a ?b] =>
      first [ rewrite (Rmax_left a b) by lra | rewrite (Rmax_right a b) by lra ]
  | |- context [Rmin ?a ?b] =>
      first [ rewrite (Rmin_left a b) by lra | rewrite (Rmin_right a b) by lra ]
  end; try lra.




(** The engine reaches [scannedEngine] on a frame it cannot classify. *)
Lemma scanned_reached ts clock :
  GE.analyzeFrame autoDetectEngine (Some partialFrame) ts clock
  = Normal (GE.scanningFeedback, scannedEngine).
Proof.
  unfold GE.analyzeFrame, partialFrame.
  cbn [map seq levelBody prop item nth_error bind point y].
  rewrite classify_short by reflexivity.
  unfold scannedEngine, autoDetectEngine, GE.setExercise, GE.pushShoulder.
  cbn [GE.analyzers GE.currentExercise GE.isLocked GE.lockedExercise
       GE.consecutiveFrames GE.potentialExercise GE.shoulderHistory GE.create
       ExerciseType_eqb app List.length Nat.ltb Nat.leb].
  do 4 f_equal. lra.
Qed.


(* ================================================================== *)

(** ** Plank to Push Up *)



(* ================================================================== *)

(** ** The wall clock *)

(** Plank on a level frame: the form is good, and what is reported depends
    on the time the wall clock says has passed since the last frame. *)
Lemma plank_level st d ts clock :
  let last := if PA.lastFrameTime st =? 0 then clock else PA.lastFrameTime st in
  let deltaTime := (clock - last) / 1000 in
  let buffer := PA.bufferTime st + deltaTime in
  exists fb,
    PA.analyze st (levelFrame d) ts clock
    = Normal
        (fb,
         if buffer >? 0.5
         then PA.mk (PA.accumulatedSeconds st + deltaTime) clock true buffer
                (PA.recordingStartTime st)
         else PA.mk (PA.accumulatedSeconds st) clock (PA.isHolding st) buffer
                (PA.recordingStartTime st))
    /\ message fb = (if buffer >? 0.5 then "Good Plank! Hold it!" else "Stabilizing...")
    /\ isGoodForm fb = true.
Proof.
  cbv zeta. unfold PA.analyze; cbv zeta.
  unfold levelFrame.
  rewrite !prop_lm by (rewrite poseFrame_length; lia). cbn [bind].
  frame_lm. unfold or_num, falsy. js_decide. unfold JS.gt. js_decide.
  rewrite !item_lm by (rewrite poseFrame_length; lia). cbn [bind].
  frame_lm.
  rewrite (calculateAngle_straight _ _ _ (2/3)) by (cbn [point x y]; lra).
  rewrite (calculateAngle_straight _ _ _ (1/2)) by (cbn [point x y]; lra).
  js_decide.
  match goal with
  | |- context [0.5 <? ?b] => destruct (lt_spec 0.5 b)
  end; eexists; (split; [reflexivity|]); split; reflexivity.
Qed.

Lemma analyzeFrame_plank_level eng d ts clock :
  GE.currentExercise eng = Plank ->
  let st := GE.plank (GE.analyzers eng) in
  let last := if PA.lastFrameTime st =? 0 then clock else PA.lastFrameTime st in
  let deltaTime := (clock - last) / 1000 in
  let buffer := PA.bufferTime st + deltaTime in
  exists fb eng',
    GE.analyzeFrame eng (Some (levelFrame d)) ts clock = Normal (fb, eng')
    /\ message fb = (if buffer >? 0.5 then "Good Plank! Hold it!" else "Stabilizing...")
    /\ GE.currentExercise eng' = Plank
    /\ GE.plank (GE.analyzers eng')
       = (if buffer >? 0.5
          then PA.mk (PA.accumulatedSeconds st + deltaTime) clock true buffer
                 (PA.recordingStartTime st)
          else PA.mk (PA.accumulatedSeconds st) clock (PA.isHolding st) buffer
                 (PA.recordingStartTime st)).
Proof.
  intros Hcur. cbv zeta.
  rewrite analyzeFrame_manual;
    [ | rewrite Hcur; discriminate | unfold levelFrame; rewrite poseFrame_length; lia ].
  destruct (plank_level (GE.plank (GE.analyzers eng)) d ts clock) as (fb & Ha & Hm & _).
  cbv zeta in Ha, Hm.
  do 2 eexists. split.
  - rewrite Hcur. unfold GE.delegate.
    cbn [withHistory GE.analyzers GE.analyzeWith].
    rewrite Ha. cbn [bind]. reflexivity.
  - unfold GE.postProcess, GE.withAnalyzers.
    cbn [message GE.currentExercise GE.analyzers GE.plank withHistory].
    rewrite Hcur. cbn [ExerciseType_eqb].
    repeat split; assumption.
Qed.

(** The same two frames with the same supplied timestamps, under two wall
    clocks: a tenth of a second apart, and a second apart. *)
Lemma plank_reads_the_wall_clock :
  exists fbsA engA fbsB engB,
    GE.run plankEngine
      [(Some (levelFrame 0), Some 0, 5000); (Some (levelFrame 0), Some 1000, 5100)]
    = Normal (fbsA, engA)
    /\ GE.run plankEngine
         [(Some (levelFrame 0), Some 0, 5000); (Some (levelFrame 0), Some 1000, 6000)]
       = Normal (fbsB, engB)
    /\ map message fbsA = ["Stabilizing..."; "Stabilizing..."]
    /\ map message fbsB = ["Stabilizing..."; "Good Plank! Hold it!"].
Proof.
  destruct (analyzeFrame_plank_level plankEngine 0 (Some 0) 5000 eq_refl)
    as (fb1 & eng1 & Hr1 & Hm1 & Hc1 & Hp1).
  cbv zeta in Hm1, Hp1.
  cbn [plankEngine GE.setExercise GE.create GE.analyzers GE.plank PA.create
       PA.lastFrameTime PA.bufferTime PA.accumulatedSeconds PA.isHolding
       PA.recordingStartTime] in Hm1, Hp1.
  rewrite (eq_true 0 0) in Hm1, Hp1 by reflexivity.
  unfold JS.gt in Hm1, Hp1.
  rewrite (lt_false 0.5 (0 + (5000 - 5000) / 1000)) in Hm1, Hp1 by lra.
  destruct (analyzeFrame_plank_level eng1 0 (Some 1000) 5100 Hc1)
    as (fbA & engA & HrA & HmA & _).
  destruct (analyzeFrame_plank_level eng1 0 (Some 1000) 6000 Hc1)
    as (fbB & engB & HrB & HmB & _).
  cbv zeta in HmA, HmB. rewrite Hp1 in HmA, HmB.
  cbn [PA.lastFrameTime PA.bufferTime] in HmA, HmB.
  rewrite (eq_false 5000 0) in HmA, HmB by lra.
  unfold JS.gt in HmA, HmB.
  rewrite lt_false in HmA by lra.
  rewrite lt_true in HmB by lra.
  exists [fb1; fbA], engA, [fb1; fbB], engB.
  rewrite !run_cons, Hr1. cbn [bind]. rewrite !run_cons, HrA, HrB.
  cbn [bind GE.run map].
  rewrite Hm1, HmA, HmB. repeat split.
Qed.

(* ================================================================== *)

(** *** Russian Twist *)

Lemma or_num_truthy a b : a <> 0 -> or_num a b = a.
Proof. intros H. unfold or_num, falsy. rewrite eq_false by exact H. reflexivity. Qed.

(** One swing of the hands past the threshold, by its effect on the
    analyzer. *)
Lemma twist_swing st off ts clock :
  ts <> 0 -> 0.1 < Rabs off ->
  let dir := if 0 <? off then left else right in
  let turned := negb (TwistDirection_eqb dir (RT.direction st)) in
  let counted := turned && RT.crossedCenter st && (500 <? ts - RT.lastPeakTime st) in
  let crossing :=
    ((0 <? RT.lastXOffset st) && (off <? 0)) || ((RT.lastXOffset st <? 0) && (0 <? off)) in
  exists fb st',
    RT.analyze st (twistFrame off) (Some ts) clock = (fb, st')
    /\ reps fb = INR (RT.repCount st')
    /\ RT.repCount st' = (if counted then S (RT.repCount st) else RT.repCount st)
    /\ RT.direction st' = (if turned then dir else RT.direction st)
    /\ RT.crossedCenter st'
       = (if crossing then true else if counted then false else RT.crossedCenter st)
    /\ RT.lastPeakTime st' = (if counted then ts else RT.lastPeakTime st)
    /\ RT.lastXOffset st' = off.
Proof.
  intros Hts Hoff. cbv zeta.
  unfold RT.analyze. unfold twistFrame at 1. rewrite poseFrame_not_short. cbv zeta.
  unfold twistFrame. rewrite !lm_poseFrame by lia.
  cbn [twistBody point x y z visibility or_else].
  rewrite !(or_num_truthy ts clock) by exact Hts.
  replace ((0.5 + off + (0.5 + off)) / 2 - (0.5 + 0.5) / 2) with off by lra.
  replace (Rabs (0.4 - 0.6) * 0.5) with 0.1
    by (rewrite (Rabs_left1 (0.4 - 0.6)) by lra; lra).
  unfold JS.gt. rewrite (lt_true 0.1 (Rabs off)) by exact Hoff.
  destruct (negb (TwistDirection_eqb (if 0 <? off then left else right) (RT.direction st)));
    cbn [andb]; [destruct (RT.crossedCenter st) eqn:Hc; cbn [andb];
                 [destruct (500 <? ts - RT.lastPeakTime st)|] |];
    cbn [RT.lastXOffset RT.direction RT.repCount RT.crossedCenter RT.lastPeakTime
         RT.currentMidTime RT.repTimestamps RT.recordingStartTime];
    do 2 eexists; (split; [reflexivity|]);
    cbn [reps RT.lastXOffset RT.direction RT.repCount RT.crossedCenter RT.lastPeakTime];
    rewrite ?Hc;
    repeat split; try reflexivity;
    match goal with
    | |- context [if ?c then true else _] => destruct c; reflexivity
    end.
Qed.

Lemma analyzeFrame_twist eng off ts clock :
  GE.currentExercise eng = RussianTwist ->
  exists fb' eng',
    GE.analyzeFrame eng (Some (twistFrame off)) ts clock = Normal (fb', eng')
    /\ GE.currentExercise eng' = RussianTwist
    /\ reps fb'
       = reps (fst (RT.analyze (GE.russianTwist (GE.analyzers eng)) (twistFrame off) ts clock))
    /\ GE.russianTwist (GE.analyzers eng')
       = snd (RT.analyze (GE.russianTwist (GE.analyzers eng)) (twistFrame off) ts clock).
Proof.
  intros Hcur.
  rewrite analyzeFrame_manual;
    [ | rewrite Hcur; discriminate | unfold twistFrame; rewrite poseFrame_length; lia ].
  rewrite Hcur. unfold GE.delegate.
  cbn [withHistory GE.analyzers GE.analyzeWith].
  destruct (RT.analyze _ _ _ _) as [fb st']. cbn [bind fst snd].
  do 2 eexists. split; [reflexivity|].
  cbn [GE.withAnalyzers GE.currentExercise GE.analyzers GE.russianTwist withHistory
       GE.postProcess reps].
  repeat split. exact Hcur.
Qed.

Ltac js_decide_in H :=
  unfold JS.gt, JS.ge in H;
  repeat match type of H with
  | context [?a <? ?b] =>
      first [ rewrite (lt_true a b) in H by lra | rewrite (lt_false a b) in H by lra ]
  | context [?a <=? ?b] =>
      first [ rewrite (le_true a b) in H by lra | rewrite (le_false a b) in H by lra ]
  end.

(** Use what is known of a state's fields in [H]. *)
Ltac known_in H :=
  repeat match goal with
  | E : _ ?st = _ |- _ =>
      tryif constr_eq E H then fail else (progress (rewrite E in H))
  end.

Lemma twist_run c :
  exists fbs eng,
    GE.run (twistEngine c) twistShots = Normal (fbs, eng)
    /\ map reps fbs = [0; 0; if 500 <? 3000 - c then 1 else 0].
Proof.
  assert (Habs : 0.1 < Rabs 0.2) by (rewrite Rabs_pos_eq; lra).
  assert (Habs' : 0.1 < Rabs (-0.2)) by (rewrite Rabs_left1; lra).
  unfold twistShots.
  (* first swing *)
  destruct (analyzeFrame_twist (twistEngine c) 0.2 (Some 1000) 0 eq_refl)
    as (fb1 & eng1 & Hr1 & Hc1 & Hreps1 & Hst1).
  destruct (twist_swing (GE.russianTwist (GE.analyzers (twistEngine c))) 0.2 1000 0
              ltac:(lra) Habs)
    as (fa1 & st1 & Ha1 & Hn1 & Hcount1 & Hdir1 & Hcross1 & Hpeak1 & Hx1).
  rewrite Ha1 in Hreps1, Hst1. cbn [fst snd] in Hreps1, Hst1.
  cbn [twistEngine GE.setExercise GE.create GE.analyzers GE.russianTwist RT.create
       RT.direction RT.crossedCenter RT.lastPeakTime RT.lastXOffset RT.repCount]
    in Hcount1, Hdir1, Hcross1, Hpeak1.
  js_decide_in Hcount1; js_decide_in Hdir1; js_decide_in Hcross1; js_decide_in Hpeak1.
  cbn [TwistDirection_eqb negb andb orb] in Hcount1, Hdir1, Hcross1, Hpeak1.
  (* second swing *)
  destruct (analyzeFrame_twist eng1 (-0.2) (Some 2000) 0 Hc1)
    as (fb2 & eng2 & Hr2 & Hc2 & Hreps2 & Hst2).
  destruct (twist_swing (GE.russianTwist (GE.analyzers eng1)) (-0.2) 2000 0
              ltac:(lra) Habs')
    as (fa2 & st2 & Ha2 & Hn2 & Hcount2 & Hdir2 & Hcross2 & Hpeak2 & Hx2).
  rewrite Ha2 in Hreps2, Hst2. cbn [fst snd] in Hreps2, Hst2.
  rewrite Hst1 in Hcount2, Hdir2, Hcross2, Hpeak2.
  known_in Hcount2; known_in Hdir2; known_in Hcross2; known_in Hpeak2.
  js_decide_in Hcount2; js_decide_in Hdir2; js_decide_in Hcross2; js_decide_in Hpeak2.
  cbn [TwistDirection_eqb negb andb orb] in Hcount2, Hdir2, Hcross2, Hpeak2.
  (* third swing *)
  destruct (analyzeFrame_twist eng2 0.2 (Some 3000) 0 Hc2)
    as (fb3 & eng3 & Hr3 & Hc3 & Hreps3 & Hst3).
  destruct (twist_swing (GE.russianTwist (GE.analyzers eng2)) 0.2 3000 0
              ltac:(lra) Habs)
    as (fa3 & st3 & Ha3 & Hn3 & Hcount3 & _).
  rewrite Ha3 in Hreps3, Hst3. cbn [fst snd] in Hreps3, Hst3.
  rewrite Hst2 in Hcount3.
  known_in Hcount3.
  rewrite (lt_true 0 0.2) in Hcount3 by lra.
  cbn [TwistDirection_eqb negb andb orb] in Hcount3.
  exists [fb1; fb2; fb3], eng3.
  rewrite run_cons, Hr1. cbn [bind]. rewrite run_cons, Hr2. cbn [bind].
  rewrite run_cons, Hr3. cbn [bind GE.run]. split; [reflexivity|].
  cbn [map]. rewrite Hreps1, Hreps2, Hreps3, Hn1, Hn2, Hn3, Hcount1, Hcount2, Hcount3.
  destruct (500 <? 3000 - c); reflexivity.
Qed.

(** The same video, analysed by an engine built when the wall clock read 0
    and by one built when it read 10000. *)
Lemma twist_counts_from_construction_time :
  exists fbsA engA fbsB engB,
    GE.run (twistEngine 0) twistShots = Normal (fbsA, engA)
    /\ GE.run (twistEngine 10000) twistShots = Normal (fbsB, engB)
    /\ map reps fbsA = [0; 0; 1]
    /\ map reps fbsB = [0; 0; 0].
Proof.
  destruct (twist_run 0) as (fbsA & engA & HrA & HA).
  destruct (twist_run 10000) as (fbsB & engB & HrB & HB).
  rewrite lt_true in HA by lra. rewrite lt_false in HB by lra.
  exists fbsA, engA, fbsB, engB. repeat split; assumption.
Qed.

(* ================================================================== *)

(** C6, where the code leaves it: the same frames with the same supplied
    timestamps give different feedback sequences.  Plank measures the hold
    with the wall clock of each call, so a second frame analysed a second
    after the first reports a good plank and one analysed a tenth of a
    second after reports none; Russian Twist measures its first swing from
    the wall clock read by the constructor, so an engine built at clock 0
    counts the rep of the recording and one built at clock 10000 does
    not. *)
Theorem C6_wall_clock_decides :
  (exists fbsA engA fbsB engB,
     GE.run plankEngine
       [(Some (levelFrame 0), Some 0, 5000); (Some (levelFrame 0), Some 1000, 5100)]
     = Normal (fbsA, engA)
     /\ GE.run plankEngine
          [(Some (levelFrame 0), Some 0, 5000); (Some (levelFrame 0), Some 1000, 6000)]
        = Normal (fbsB, engB)
     /\ map message fbsA <> map message fbsB)
  /\ (exists fbsA engA fbsB engB,
        GE.run (twistEngine 0) twistShots = Normal (fbsA, engA)
        /\ GE.run (twistEngine 10000) twistShots = Normal (fbsB, engB)
        /\ map reps fbsA <> map reps fbsB).
Proof.
  split.
  - destruct plank_reads_the_wall_clock as (fbsA & engA & fbsB & engB & HA & HB & HmA & HmB).
    exists fbsA, engA, fbsB, engB. split; [exact HA|]. split; [exact HB|].
    rewrite HmA, HmB. discriminate.
  - destruct twist_counts_from_construction_time
      as (fbsA & engA & fbsB & engB & HA & HB & HrA & HrB).
    exists fbsA, engA, fbsB, engB. split; [exact HA|]. split; [exact HB|].
    rewrite HrA, HrB. intros E. injection E as E. lra.
Qed.

(* ================================================================== *)

(** ** Supplied timestamps *)

Lemma update_clock rc c ts clock clock' :
  RC.update rc c (Some ts) clock = RC.update rc c (Some ts) clock'.
Proof. reflexivity. Qed.

Lemma analyzeWith_clock e a l ts clock clock' :
  e <> Plank -> e <> RussianTwist ->
  GE.analyzeWith e a l (Some ts) clock = GE.analyzeWith e a l (Some ts) clock'.
Proof.
  intros Hp Hr.
  destruct e; try (contradiction Hp; reflexivity); try (contradiction Hr; reflexivity);
    reflexivity.
Qed.

(** With a timestamp other than 0 supplied, Russian Twist's [analyze] does
    not look at the wall clock of the call. *)
Lemma twist_clock st l ts clock clock' :
  ts <> 0 ->
  RussianTwistAnalyzer.analyze st l (Some ts) clock
  = RussianTwistAnalyzer.analyze st l (Some ts) clock'.
Proof.
  intros Hts. unfold RussianTwistAnalyzer.analyze; cbv zeta.
  cbn [or_else]. unfold or_num, falsy. rewrite eq_false by exact Hts. reflexivity.
Qed.

Lemma twist_clock_witness :
  RussianTwistAnalyzer.analyze (RussianTwistAnalyzer.create 0) (twistFrame 0.2) (Some 1000) 5
  = RussianTwistAnalyzer.analyze (RussianTwistAnalyzer.create 0) (twistFrame 0.2) (Some 1000) 9.
Proof.
  apply (twist_clock (RussianTwistAnalyzer.create 0) (twistFrame 0.2) 1000 5 9). lra.
Defined.

Lemma analyzeFrame_clock eng l ts clock clock' :
  countsReps (GE.currentExercise eng) = true ->
  GE.analyzeFrame eng l (Some ts) clock = GE.analyzeFrame eng l (Some ts) clock'.
Proof.
  intros He.
  destruct l as [[| p rest] |]; try reflexivity.
  unfold GE.analyzeFrame.
  destruct (prop (p :: rest) 11 y); [|reflexivity].
  destruct (prop (p :: rest) 12 y); [|reflexivity].
  cbn [bind]. cbv zeta.
  destruct (ExerciseType_eqb (GE.currentExercise eng) AutoDetect) eqn:Ha.
  { apply eqb_eq_ex in Ha. rewrite Ha in He. discriminate. }
  unfold GE.delegate. cbn [GE.analyzers].
  rewrite (analyzeWith_clock _ _ _ ts clock clock');
    [reflexivity | |]; intros E; rewrite E in He; discriminate.
Qed.

Lemma analyzeFrame_keeps_exercise eng l ts clock fb eng' :
  GE.currentExercise eng <> AutoDetect ->
  GE.analyzeFrame eng l ts clock = Normal (fb, eng') ->
  GE.currentExercise eng' = GE.currentExercise eng.
Proof.
  intros Hm H.
  destruct l as [[| p rest] |]; try (injection H as _ <-; reflexivity).
  unfold GE.analyzeFrame in H.
  destruct (prop (p :: rest) 11 y); [|discriminate].
  destruct (prop (p :: rest) 12 y); [|discriminate].
  cbn [bind] in H. cbv zeta in H.
  apply eqb_neq_ex in Hm. rewrite Hm in H.
  unfold GE.delegate in H.
  destruct (GE.analyzeWith _ _ _ _ _) as [[fb0 an] |]; [|discriminate].
  cbn [bind] in H. injection H as _ <-. reflexivity.
Qed.

(** An engine set by hand to an exercise that counts with a [RepCounter]
    gives the same run on a recording whatever the wall clock reads at each
    call: feedback, final state, and an exception if there is one. *)
Lemma run_clock video : forall eng clocks clocks',
  countsReps (GE.currentExercise eng) = true ->
  GE.run eng (played video clocks) = GE.run eng (played video clocks').
Proof.
  induction video as [| [l ts] rest IH]; intros eng clocks clocks' He; [reflexivity|].
  cbn [played]. rewrite !run_cons.
  rewrite (analyzeFrame_clock eng l ts (hd 0 clocks) (hd 0 clocks')) by exact He.
  destruct (GE.analyzeFrame eng l (Some ts) (hd 0 clocks')) as [[fb eng'] |] eqn:E;
    [|reflexivity].
  cbn [bind].
  rewrite (IH eng' (tl clocks) (tl clocks')); [reflexivity|].
  rewrite (analyzeFrame_keeps_exercise _ _ _ _ _ _ ltac:(intros X; rewrite X in He; discriminate) E).
  exact He.
Qed.

Lemma run_clock_witness :
  GE.run (GE.create 0) (played [(Some (levelFrame 0), 0); (Some (levelFrame 0.1), 166)] [5; 9])
  = GE.run (GE.create 0) (played [(Some (levelFrame 0), 0); (Some (levelFrame 0.1), 166)] [7]).
Proof.
  apply (run_clock [(Some (levelFrame 0), 0); (Some (levelFrame 0.1), 166)]
           (GE.create 0) [5; 9] [7]).
  reflexivity.
Defined.

(* ================================================================== *)

(** ** Scores *)


(** Open an [analyze] call on a full frame down to the record it returns. *)
Ltac open_analyze Hlen :=
  cbv zeta; rewrite (proj2 (tooShort_false _) Hlen);
  repeat match goal with
  | |- context [let '(_, _) := ?p in _] => destruct p
  end.





















(* ================================================================== *)

(** ** Sessions of a counter *)

Lemma tidy_create m high low : tidy (RC.create m high low).
Proof. unfold tidy. destruct m; simpl; auto. Qed.

Lemma tidy_update rc c ts clock : tidy rc -> tidy (RC.update rc c ts clock).
Proof.
  unfold tidy, RC.update, RC.completeRep, RC.markStart.
  destruct rc as [n p l h lo m tss s mi r]; simpl.
  intros [Hlen Hm].
  destruct m, p; simpl in Hm; destruct Hm as [Hs Hmi];
    destruct s as [s|]; try (contradiction Hs; reflexivity); try discriminate Hs;
    destruct mi as [mi|]; try (contradiction Hmi; reflexivity); try discriminate Hmi;
    js_cases; simpl; rewrite ?length_app; simpl;
    (split; [lia | split; first [reflexivity | discriminate]]).
Qed.

Lemma tidy_call rc c : tidy rc -> tidy (call rc c).
Proof.
  destruct c as [co ts cl | | t]; simpl.
  - apply tidy_update.
  - intros _. unfold tidy, RC.reset. simpl. destruct (RC.mode rc); simpl; repeat split.
  - unfold tidy, RC.setRecordingStartTime. simpl. intros H; exact H.
Qed.

Lemma tidy_session calls : forall rc, tidy rc -> tidy (session rc calls).
Proof.
  unfold session.
  induction calls as [| c rest IH]; intros rc H; simpl; [exact H|].
  apply IH, tidy_call, H.
Qed.

(** Whatever is called on a new counter, in whatever order, it has recorded
    one RepTimestamp per counted rep. *)
Theorem count_matches_timestamps m high low calls :
  let rc := session (RC.create m high low) calls in
  List.length (RC.getRepTimestamps rc) = RC.getCount rc.
Proof.
  cbv zeta. exact (proj1 (tidy_session calls _ (tidy_create m high low))).
Qed.

(* ================================================================== *)

(** ** Recorded times *)

Lemma chronological_nil : chronological [].
Proof. split; constructor. Qed.

Lemma StronglySorted_snoc {A} (R : A -> A -> Prop) l a :
  StronglySorted R l -> Forall (fun b => R b a) l -> StronglySorted R (l ++ [a]).
Proof.
  induction 1 as [| b l Hs IH Hb]; intros Ha; simpl.
  - repeat constructor.
  - inversion Ha as [| b' l' Hba Hla]; subst.
    constructor; [apply IH; exact Hla|].
    apply Forall_app. split; [exact Hb | constructor; [exact Hba | constructor]].
Qed.

Lemma chronological_snoc reps r :
  chronological reps -> inOrder r ->
  Forall (fun r0 => end_ r0 <= start r) reps ->
  chronological (reps ++ [r]).
Proof.
  intros [Ho Hs] Hr Hb. split.
  - apply Forall_app. split; [exact Ho | constructor; [exact Hr | constructor]].
  - apply StronglySorted_snoc; assumption.
Qed.

Lemma Forall_end_weaken T T' (reps : list RepTimestamp) :
  T <= T' -> Forall (fun r => end_ r <= T) reps -> Forall (fun r => end_ r <= T') reps.
Proof.
  intros HT H. eapply Forall_impl; [| exact H]. simpl. intros r Hr. lra.
Qed.

Lemma timely_weaken T T' rc : T <= T' -> timely T rc -> timely T' rc.
Proof.
  intros HT (Hc & He & Hs & Hm). split; [exact Hc|].
  split; [eapply Forall_end_weaken; eassumption|].
  split.
  - intros s E. destruct (Hs s E) as [H1 H2]. split; [lra | exact H2].
  - intros m E. destruct (Hm m E) as [H1 H2]. split; [lra | exact H2].
Qed.

Lemma timely_setPhase T rc p : timely T rc -> timely T (RC.setPhase p rc).
Proof. intros H. exact H. Qed.

Lemma timely_markStart T ms rc p :
  timely T rc -> T <= ms -> timely ms (RC.markStart ms (RC.setPhase p rc)).
Proof.
  intros H HT. unfold RC.markStart.
  cbn [RC.setPhase RC.currentRepStartTime].
  destruct (RC.currentRepStartTime rc) as [s|] eqn:E.
  - apply (timely_weaken T); [exact HT|]. exact H.
  - destruct H as (Hc & He & Hs & Hm).
    assert (Hmid : RC.currentRepMidTime rc = None).
    { destruct (RC.currentRepMidTime rc) as [m|] eqn:Em; [|reflexivity].
      destruct (Hm m ltac:(first [exact Em | reflexivity])) as [_ (s & Es & _)]. congruence. }
    unfold timely. cbn [RC.setStart RC.setPhase RC.repTimestamps RC.currentRepStartTime
                        RC.currentRepMidTime].
    split; [exact Hc|].
    split; [eapply Forall_end_weaken; eassumption|].
    split.
    + intros s Es. injection Es as <-. split; [lra|].
      eapply Forall_end_weaken; eassumption.
    + rewrite Hmid. intros m Em. discriminate.
Qed.

Lemma timely_setMid T now ms rc p :
  timely T rc -> T <= ms -> RC.currentRepStartTime rc <> None ->
  timely ms (RC.setMid (Some ms) (RC.setLastPhaseTimestamp now (RC.setPhase p rc))).
Proof.
  intros (Hc & He & Hs & Hm) HT Hstart.
  unfold timely. cbn [RC.setMid RC.setLastPhaseTimestamp RC.setPhase RC.repTimestamps
                      RC.currentRepStartTime RC.currentRepMidTime].
  split; [exact Hc|].
  split; [eapply Forall_end_weaken; eassumption|].
  split.
  - intros s Es. destruct (Hs s ltac:(first [exact Es | reflexivity])) as [H1 H2]. split; [lra | exact H2].
  - intros m Em. injection Em as <-. split; [lra|].
    destruct (RC.currentRepStartTime rc) as [s|] eqn:Es; [|contradiction Hstart; reflexivity].
    exists s. split; [reflexivity|]. destruct (Hs s ltac:(first [exact Es | reflexivity])). lra.
Qed.

Lemma timely_clear T ms rc p :
  timely T rc -> T <= ms ->
  timely ms (RC.setMid None (RC.setStart None (RC.setPhase p rc))).
Proof.
  intros (Hc & He & Hs & Hm) HT.
  unfold timely. cbn [RC.setMid RC.setStart RC.setPhase RC.repTimestamps
                      RC.currentRepStartTime RC.currentRepMidTime].
  split; [exact Hc|].
  split; [eapply Forall_end_weaken; eassumption|].
  split; intros v Ev; discriminate.
Qed.

Lemma timely_completeRep T now ms rc p :
  timely T rc -> T <= ms -> timely ms (RC.completeRep p now ms rc).
Proof.
  intros H HT. unfold RC.completeRep.
  cbn [RC.setLastPhaseTimestamp RC.setPhase RC.incrCount RC.currentRepStartTime
       RC.currentRepMidTime].
  destruct (RC.currentRepStartTime rc) as [s|] eqn:Es.
  - destruct H as (Hc & He & Hs & Hm).
    destruct (Hs s ltac:(first [exact Es | reflexivity])) as [HsT Hbefore].
    unfold timely.
    cbn [RC.setMid RC.setStart RC.pushTimestamp RC.setLastPhaseTimestamp RC.setPhase
         RC.incrCount RC.repTimestamps RC.currentRepStartTime RC.currentRepMidTime].
    assert (Hmid : s <= or_else (RC.currentRepMidTime rc) ms <= ms).
    { destruct (RC.currentRepMidTime rc) as [m|] eqn:Em; cbn [or_else]; [|lra].
      destruct (Hm m ltac:(first [exact Em | reflexivity])) as [HmT (s' & Es' & Hsm)].
      assert (s' = s) by congruence. subst s'.
      unfold or_num. destruct (falsy m); lra. }
    split.
    { apply chronological_snoc; [exact Hc | exact Hmid | exact Hbefore]. }
    split.
    { apply Forall_app. split; [eapply Forall_end_weaken; eassumption|].
      constructor; [cbn [end_]; lra | constructor]. }
    split; intros v Ev; discriminate.
  - apply (timely_weaken T); [exact HT|]. exact H.
Qed.

Lemma update_recordingStartTime rc c ts clock :
  RC.recordingStartTime (RC.update rc c ts clock) = RC.recordingStartTime rc.
Proof.
  unfold RC.update, RC.completeRep, RC.markStart.
  destruct rc as [n p l h lo m tss s mi r]; simpl.
  destruct m, p, s; simpl; js_cases; reflexivity.
Qed.

Lemma timely_update T rc c ts clock :
  tidy rc -> timely T rc ->
  T <= nullish ts clock - RC.recordingStartTime rc ->
  timely (nullish ts clock - RC.recordingStartTime rc) (RC.update rc c ts clock).
Proof.
  intros [_ Htidy] H HT. unfold RC.update.
  destruct (RC.mode rc), (RC.currentPhase rc); cbn [stage] in Htidy;
    js_cases;
    first [ apply (timely_markStart T); assumption
          | apply (timely_setMid T); [assumption | assumption | exact (proj1 Htidy)]
          | apply (timely_clear T); assumption
          | apply (timely_completeRep T); assumption
          | apply timely_setPhase; apply (timely_weaken T); assumption
          | apply (timely_weaken T); assumption ].
Qed.

(** What a counter holds is timely whatever the recording start. *)
Lemma timely_setRecordingStartTime T rc time :
  timely T rc -> timely T (RC.setRecordingStartTime rc time).
Proof. intros H. exact H. Qed.

Lemma timely_reset T rc : timely T (RC.reset rc).
Proof.
  unfold timely, RC.reset.
  cbn [RC.repTimestamps RC.currentRepStartTime RC.currentRepMidTime].
  split; [apply chronological_nil|]. split; [constructor|].
  split; intros v Ev; discriminate.
Qed.

Lemma timely_session calls : forall rc last,
  tidy rc ->
  match last with Some T => timely T rc | None => forall T, timely T rc end ->
  steady (RC.recordingStartTime rc) last calls ->
  exists T', timely T' (session rc calls).
Proof.
  unfold session.
  induction calls as [| [c ts clock | | time] rest IH]; intros rc last Ht H Hsteady.
  - destruct last as [T|]; [exists T; exact H | exists 0; apply H].
  - cbn [fold_left call]. cbn [steady] in Hsteady. destruct Hsteady as [Hlast Hrest].
    apply (IH _ (Some (nullish ts clock - RC.recordingStartTime rc))).
    + apply tidy_update, Ht.
    + destruct last as [T|].
      * apply (timely_update T); assumption.
      * apply (timely_update (nullish ts clock - RC.recordingStartTime rc));
          [exact Ht | apply H | apply Rle_refl].
    + rewrite update_recordingStartTime. exact Hrest.
  - cbn [fold_left call]. cbn [steady] in Hsteady.
    apply (IH _ None).
    + apply (tidy_call rc CallReset), Ht.
    + intros T. apply timely_reset.
    + exact Hsteady.
  - cbn [fold_left call]. cbn [steady] in Hsteady.
    apply (IH _ last).
    + apply (tidy_call rc (CallSetRecordingStartTime time)), Ht.
    + destruct last as [T|]; [|intros T];
        apply timely_setRecordingStartTime; apply H.
    + exact Hsteady.
Qed.

(** A new counter on which [update], [reset] and [setRecordingStartTime] are
    called in any order records its reps in chronological order -- each rep
    has start <= mid <= end, and each rep ends before the next one starts --
    provided the times its updates read, each relative to the recording
    start in force at that call, do not run backwards between two resets. *)
Theorem timestamps_chronological m high low calls :
  steady 0 None calls ->
  chronological (RC.getRepTimestamps (session (RC.create m high low) calls)).
Proof.
  intros Hsteady.
  destruct (timely_session calls (RC.create m high low) None) as [T' (Hc & _)].
  - apply tidy_create.
  - intros T. unfold timely, RC.create.
    cbn [RC.repTimestamps RC.currentRepStartTime RC.currentRepMidTime].
    split; [apply chronological_nil|]. split; [constructor|].
    split; intros v Ev; discriminate.
  - exact Hsteady.
  - exact Hc.
Qed.

(** A counter whose recording start is moved back between two reps and set
    again after a reset. *)
Lemma timestamps_chronological_witness :
  steady 0 None recordedCalls
  /\ chronological
       (RC.getRepTimestamps (session (RC.create EccentricFirst 0.55 0.35) recordedCalls)).
Proof.
  assert (H : steady 0 None recordedCalls).
  { unfold recordedCalls. cbn [steady nullish]. repeat split; lra. }
  split; [exact H|].
  exact (timestamps_chronological EccentricFirst 0.55 0.35 recordedCalls H).
Defined.

Lemma session_cons rc c rest : session rc (c :: rest) = session (call rc c) rest.
Proof. reflexivity. Qed.

(** One call of a session on a concrete counter. *)
Ltac session_step :=
  rewrite session_cons; cbn [call];
  lazy beta iota zeta delta [RC.setRecordingStartTime RC.reset];
  rc_norm; js_decide; rc_norm.

(** The precondition is needed: when the recording start is moved back
    while a rep is in flight, so that a later update reads an earlier
    relative time, the rep is recorded with its start after its mid. *)
Lemma rebased_rep_out_of_order :
  ~ steady 0 None rebasedCalls
  /\ RC.getRepTimestamps (session freshCounter rebasedCalls)
     = [mkRepTimestamp 1000 110 130]
  /\ ~ chronological (RC.getRepTimestamps (session freshCounter rebasedCalls)).
Proof.
  assert (E : RC.getRepTimestamps (session freshCounter rebasedCalls)
              = [mkRepTimestamp 1000 110 130]).
  { unfold rebasedCalls. repeat session_step.
    unfold or_num, falsy. js_decide.
    rewrite Rminus_0_r.
    replace (1010 - 900) with 110 by lra. replace (1030 - 900) with 130 by lra.
    reflexivity. }
  split; [| split; [exact E|]].
  - unfold rebasedCalls. cbn [steady nullish]. intros (_ & H & _). lra.
  - rewrite E. intros [H _]. inversion H as [| r l Hr Hl]; subst.
    unfold inOrder in Hr. cbn [start mid end_] in Hr. lra.
Qed.

(** ** A full cycle *)



(** ** Reset *)

Lemma sameCounting_update a b c ts clock :
  sameCounting a b ->
  sameCounting (RC.update a c ts clock) (RC.update b c ts clock).
Proof.
  destruct a as [n p l h lo m tss s mi r], b as [n' p' l' h' lo' m' tss' s' mi' r'].
  unfold sameCounting. simpl.
  intros (-> & -> & -> & -> & -> & -> & -> & -> & ->).
  unfold RC.update, RC.completeRep, RC.markStart. simpl.
  destruct m', p', s'; simpl; js_cases; simpl; repeat split.
Qed.

Lemma sameCounting_run calls : forall a b,
  sameCounting a b -> sameCounting (RC.run a calls) (RC.run b calls).
Proof.
  induction calls as [| [[c ts] clock] rest IH]; intros a b H; simpl; [exact H|].
  apply IH, sameCounting_update, H.
Qed.

(** After [reset] a counter answers every later sequence of calls as a new
    counter with the same mode, thresholds and recording start would: same
    counts, phases, markers and recorded reps. *)
Theorem reset_like_new rc calls :
  sameCounting
    (RC.run (RC.reset rc) calls)
    (RC.run
       (RC.setRecordingStartTime
          (RC.create (RC.mode rc) (RC.thresholdHigh rc) (RC.thresholdLow rc))
          (RC.recordingStartTime rc))
       calls).
Proof.
  apply sameCounting_run. unfold sameCounting. simpl. repeat split.
Qed.

(* ================================================================== *)

(** ** A recording started later *)

Lemma Rplus_minus_cancel (t d rs : R) : t + d - (rs + d) = t - rs.
Proof. lra. Qed.

Lemma update_delayed d a b c ts clock :
  sameRecord a b ->
  RC.recordingStartTime a = RC.recordingStartTime b + d ->
  sameRecord (RC.update a c (option_map (fun t => t + d) ts) (clock + d))
             (RC.update b c ts clock)
  /\ RC.recordingStartTime (RC.update a c (option_map (fun t => t + d) ts) (clock + d))
     = RC.recordingStartTime (RC.update b c ts clock) + d.
Proof.
  destruct a as [n p lp h lo m reps s mi rs], b as [n' p' lp' h' lo' m' reps' s' mi' rs'].
  unfold sameRecord.
  cbn [RC.count RC.currentPhase RC.thresholdHigh RC.thresholdLow RC.mode
       RC.repTimestamps RC.currentRepStartTime RC.currentRepMidTime
       RC.recordingStartTime].
  intros (<- & <- & <- & <- & <- & <- & <- & <-) ->.
  unfold RC.update, RC.completeRep, RC.markStart.
  destruct ts as [t |]; unfold nullish; cbn [option_map];
    destruct m, p, s; simpl;
    rewrite ?(Rplus_minus_cancel t d rs'), ?(Rplus_minus_cancel clock d rs');
    js_cases; simpl; repeat apply conj; reflexivity.
Qed.

Lemma run_delayed d calls : forall a b,
  sameRecord a b ->
  RC.recordingStartTime a = RC.recordingStartTime b + d ->
  sameRecord (RC.run a (map (delayed d) calls)) (RC.run b calls).
Proof.
  induction calls as [| [[c ts] clock] rest IH]; intros a b Hs Hr; [exact Hs|].
  cbn [map delayed fst snd RC.run].
  destruct (update_delayed d a b c ts clock Hs Hr) as [Hs' Hr'].
  apply (IH _ _ Hs' Hr').
Qed.

(** The recorded rep timestamps are times since the recording start: a
    session whose recording start and whose calls all come [d] later counts
    the same reps and records the same timestamps. *)
Theorem timestamps_since_recording_start rc d calls :
  sameRecord
    (RC.run (RC.setRecordingStartTime rc (RC.recordingStartTime rc + d))
            (map (delayed d) calls))
    (RC.run rc calls).
Proof.
  apply run_delayed.
  - unfold sameRecord. repeat split.
  - reflexivity.
Qed.

(* ================================================================== *)

(** ** The angle primitive is the geometric angle *)












(** ** The quarter turn of the live camera *)





(* ================================================================== *)

(** ** The classifier does not look at where the body stands *)






(* ================================================================== *)

(** ** The counters of the analyzers *)

Ltac counted_shape :=
  unfold counted; cbv zeta;
  destruct (tooShort _); [split; reflexivity|];
  repeat match goal with
  | |- context [let '(_, _) := ?p in _] => destruct p
  end;
  cbn [fst snd reps repCounter withCounter SquatAnalyzer.repCounter];
  split; [eexists; reflexivity | reflexivity].

Lemma tbar_counted st l ts clock :
  let r := TBarRowAnalyzer.analyze st l ts clock in
  counted (repCounter st) (repCounter (snd r)) (fst r) l ts clock.
Proof. unfold TBarRowAnalyzer.analyze. counted_shape. Qed.
Lemma curl_counted st l ts clock :
  let r := BicepCurlAnalyzer.analyze st l ts clock in
  counted (repCounter st) (repCounter (snd r)) (fst r) l ts clock.
Proof. unfold BicepCurlAnalyzer.analyze. counted_shape. Qed.
Lemma pullup_counted st l ts clock :
  let r := PullUpAnalyzer.analyze st l ts clock in
  counted (repCounter st) (repCounter (snd r)) (fst r) l ts clock.
Proof. unfold PullUpAnalyzer.analyze. counted_shape. Qed.
Lemma pushup_counted st l ts clock :
  let r := PushUpAnalyzer.analyze st l ts clock in
  counted (repCounter st) (repCounter (snd r)) (fst r) l ts clock.
Proof. unfold PushUpAnalyzer.analyze. counted_shape. Qed.
Lemma legext_counted st l ts clock :
  let r := LegExtensionAnalyzer.analyze st l ts clock in
  counted (repCounter st) (repCounter (snd r)) (fst r) l ts clock.
Proof. unfold LegExtensionAnalyzer.analyze. counted_shape. Qed.
Lemma dips_counted st l ts clock :
  let r := TricepDipsAnalyzer.analyze st l ts clock in
  counted (repCounter st) (repCounter (snd r)) (fst r) l ts clock.
Proof. unfold TricepDipsAnalyzer.analyze. counted_shape. Qed.
Lemma fly_counted st l ts clock :
  let r := ChestFlyAnalyzer.analyze st l ts clock in
  counted (repCounter st) (repCounter (snd r)) (fst r) l ts clock.
Proof. unfold ChestFlyAnalyzer.analyze. counted_shape. Qed.
Lemma incline_counted st l ts clock :
  let r := InclineBenchAnalyzer.analyze st l ts clock in
  counted (repCounter st) (repCounter (snd r)) (fst r) l ts clock.
Proof. unfold InclineBenchAnalyzer.analyze. counted_shape. Qed.
Lemma bench_counted st l ts clock :
  let r := BenchPressAnalyzer.analyze st l ts clock in
  counted (repCounter st) (repCounter (snd r)) (fst r) l ts clock.
Proof. unfold BenchPressAnalyzer.analyze. counted_shape. Qed.
Lemma legraises_counted st l ts clock :
  let r := LegRaisesAnalyzer.analyze st l ts clock in
  counted (repCounter st) (repCounter (snd r)) (fst r) l ts clock.
Proof. unfold LegRaisesAnalyzer.analyze. counted_shape. Qed.
Lemma latraise_counted st l ts clock :
  let r := LateralRaiseAnalyzer.analyze st l ts clock in
  counted (repCounter st) (repCounter (snd r)) (fst r) l ts clock.
Proof. unfold LateralRaiseAnalyzer.analyze. counted_shape. Qed.
Lemma latpulldown_counted st l ts clock :
  let r := LatPulldownAnalyzer.analyze st l ts clock in
  counted (repCounter st) (repCounter (snd r)) (fst r) l ts clock.
Proof. unfold LatPulldownAnalyzer.analyze. counted_shape. Qed.
Lemma squat_counted st l ts clock :
  let r := SquatAnalyzer.analyze st l ts clock in
  counted (SquatAnalyzer.repCounter st) (SquatAnalyzer.repCounter (snd r)) (fst r)
    l ts clock.
Proof. unfold SquatAnalyzer.analyze. counted_shape. Qed.

Lemma counted_tidy rc rc' fb l ts clock :
  counted rc rc' fb l ts clock -> tidy rc -> tidy rc'.
Proof.
  unfold counted. destruct (tooShort l); intros [H _] Ht.
  - rewrite H. exact Ht.
  - destruct H as [pos ->]. apply tidy_update, Ht.
Qed.

Lemma counted_reps rc rc' fb l ts clock :
  counted rc rc' fb l ts clock -> tidy rc -> tooShort l = false ->
  reps fb = INR (List.length (RC.getRepTimestamps rc')).
Proof.
  intros H Ht Hs. pose proof (counted_tidy _ _ _ _ _ _ H Ht) as [Hlen _].
  unfold counted in H. rewrite Hs in H. destruct H as [_ H].
  unfold RC.getRepTimestamps. rewrite Hlen. exact H.
Qed.

(* ================================================================== *)

(** ** Sessions of the engine *)

Lemma classified_real l e : EC.classifyExercise l = Some e -> e <> AutoDetect.
Proof.
  unfold EC.classifyExercise, EC.standingRules, EC.lyingRules.
  repeat match goal with
  | |- context [if ?c then _ else _] => destruct c
  end; intros H; try discriminate H; injection H as <-; discriminate.
Qed.

Lemma pushShoulder_length hist v :
  (List.length hist <= 30)%nat ->
  (List.length (GE.pushShoulder hist v) <= 30)%nat.
Proof.
  intros H. unfold GE.pushShoulder. cbv zeta.
  destruct (Nat.ltb_spec 30 (List.length (hist ++ [v]))) as [Hlt | Hge]; [|exact Hge].
  rewrite length_app in Hlt. simpl in Hlt.
  destruct hist as [| h rest]; simpl in *; [lia|].
  rewrite length_app. simpl. lia.
Qed.

Ltac split_tidy Ht :=
  unfold counters in Ht;
  repeat match type of Ht with
  | Forall _ (_ :: _) =>
      let H := fresh "Ht" in
      let Ht' := fresh "Hrest" in
      pose proof (Forall_inv Ht) as H; pose proof (Forall_inv_tail Ht) as Ht';
      clear Ht; rename Ht' into Ht
  end.

Lemma analyzeWith_frame e a l ts clock fb a' :
  GE.analyzeWith e a l ts clock = Normal (fb, a') ->
  Forall tidy (counters a) ->
  Forall tidy (counters a')
  /\ (countsReps e = true -> tooShort l = false ->
      reps fb = INR (List.length (GE.getRepTimestampsOf e a'))).
Proof.
  intros H Ht. pose proof Ht as Hall. split_tidy Ht.
  destruct e; cbn [GE.analyzeWith] in H;
    try (match type of H with
         | context [let '(_, _) := ?p in _] => destruct p as [fb0 s] eqn:E
         end;
         injection H as <- <-;
         first [ match type of E with
                 | _ ?st _ _ _ = _ =>
                 first [ pose proof (tbar_counted st l ts clock) as Hc; cbv zeta in Hc;
                         rewrite E in Hc
                       | pose proof (curl_counted st l ts clock) as Hc; cbv zeta in Hc;
                         rewrite E in Hc
                       | pose proof (pullup_counted st l ts clock) as Hc; cbv zeta in Hc;
                         rewrite E in Hc
                       | pose proof (pushup_counted st l ts clock) as Hc; cbv zeta in Hc;
                         rewrite E in Hc
                       | pose proof (legext_counted st l ts clock) as Hc; cbv zeta in Hc;
                         rewrite E in Hc
                       | pose proof (dips_counted st l ts clock) as Hc; cbv zeta in Hc;
                         rewrite E in Hc
                       | pose proof (fly_counted st l ts clock) as Hc; cbv zeta in Hc;
                         rewrite E in Hc
                       | pose proof (incline_counted st l ts clock) as Hc; cbv zeta in Hc;
                         rewrite E in Hc
                       | pose proof (bench_counted st l ts clock) as Hc; cbv zeta in Hc;
                         rewrite E in Hc
                       | pose proof (legraises_counted st l ts clock) as Hc; cbv zeta in Hc;
                         rewrite E in Hc
                       | pose proof (latraise_counted st l ts clock) as Hc; cbv zeta in Hc;
                         rewrite E in Hc
                       | pose proof (latpulldown_counted st l ts clock) as Hc; cbv zeta in Hc;
                         rewrite E in Hc
                       | pose proof (squat_counted st l ts clock) as Hc; cbv zeta in Hc;
                         rewrite E in Hc ]
                 end;
                 cbn [fst snd] in Hc;
                 split;
                 [ unfold counters;
                   cbn [GE.squat GE.legExtension GE.legRaises GE.pushUp GE.benchPress
                        GE.inclineBenchPress GE.chestFlyMachine GE.tricepDips GE.pullUp
                        GE.latPulldown GE.tBarRow GE.barbellBicepsCurl GE.lateralRaises
                        GE.autoDetect];
                   repeat apply Forall_cons; try apply Forall_nil; try assumption;
                   (eapply counted_tidy; [exact Hc | assumption])
                 | intros Hcr Hs; cbn [countsReps] in Hcr; try discriminate Hcr;
                   cbn [GE.getRepTimestampsOf GE.squat GE.legExtension GE.legRaises
                        GE.pushUp GE.benchPress GE.inclineBenchPress GE.chestFlyMachine
                        GE.tricepDips GE.pullUp GE.latPulldown GE.tBarRow
                        GE.barbellBicepsCurl GE.lateralRaises GE.autoDetect];
                   (eapply counted_reps; [exact Hc | assumption | exact Hs]) ]
               | split; [exact Hall | intros Hcr; cbn [countsReps] in Hcr; discriminate Hcr] ]).
  destruct (PlankAnalyzer.analyze (GE.plank a) l ts clock) as [[fb0 s] | err];
    cbn [bind] in H; [|discriminate H].
  injection H as <- <-. split; [exact Hall | intros Hcr; cbn [countsReps] in Hcr; discriminate Hcr].
Qed.

(* ================================================================== *)

(** ** What a verdict of the classifier tells *)







(** What [classifyExercise] names is an exercise seen on a full frame: it
    never answers for fewer than 33 landmarks, and never with the
    Auto-Detect key. *)
Theorem verdict_is_an_exercise l e :
  EC.classifyExercise l = Some e ->
  (33 <= List.length l)%nat /\ e <> AutoDetect.
Proof.
  intros H. split; [apply (classified_not_short l e H) | apply (classified_real l e H)].
Qed.

Lemma verdict_is_an_exercise_witness :
  (33 <= List.length (levelFrame 0%R))%nat /\ PushUp <> AutoDetect.
Proof.
  apply (verdict_is_an_exercise (levelFrame 0) PushUp). apply level_classified.
Defined.

(** ** Angles *)

(** The joint angle is symmetric in its outer points and lies between 0
    and 180 degrees, whatever the points. *)
Theorem calculateAngle_symmetric_bounded a b c :
  calculateAngle a b c = calculateAngle c b a
  /\ 0 <= calculateAngle a b c <= 180.
Proof. split; [apply calculateAngle_sym | apply calculateAngle_range]. Qed.

(* ================================================================== *)

Lemma delegate_frame eng e l ts clock fb eng' :
  GE.delegate eng e l ts clock = Normal (fb, eng') ->
  exists fb0 a',
    GE.analyzeWith e (GE.analyzers eng) l ts clock = Normal (fb0, a')
    /\ fb = GE.postProcess eng e fb0 /\ eng' = GE.withAnalyzers eng a'.
Proof.
  unfold GE.delegate.
  destruct (GE.analyzeWith e (GE.analyzers eng) l ts clock) as [[fb0 a'] | err];
    cbn [bind]; intros H; [|discriminate H].
  injection H as <- <-. exists fb0, a'. repeat split.
Qed.

(** The facts one frame establishes. *)
Lemma delegate_sound eng e l ts clock fb eng' :
  GE.delegate eng e l ts clock = Normal (fb, eng') ->
  sound eng -> served eng = e ->
  sound eng'
  /\ GE.currentExercise eng' = GE.currentExercise eng
  /\ GE.lockedExercise eng' = GE.lockedExercise eng
  /\ (countsReps e = true -> tooShort l = false ->
      reps fb = INR (List.length (GE.getRepTimestamps eng'))).
Proof.
  intros H [Hlock [Hlen Ht]] Hserved.
  destruct (delegate_frame _ _ _ _ _ _ _ H) as [fb0 [a' [Ha [-> ->]]]].
  destruct (analyzeWith_frame _ _ _ _ _ _ _ Ha Ht) as [Ht' Hreps].
  unfold sound, lockSound, GE.withAnalyzers, GE.getRepTimestamps.
  cbn [GE.lockedExercise GE.isLocked GE.currentExercise GE.shoulderHistory
       GE.analyzers].
  repeat split; try assumption.
  intros Hc Hs. cbn [GE.postProcess reps]. rewrite (Hreps Hc Hs).
  unfold served, lockSound in *.
  destruct (GE.lockedExercise eng) as [k |].
  - destruct Hlock as [_ [Hcur _]]. rewrite Hcur. cbn [ExerciseType_eqb].
    rewrite Hserved. reflexivity.
  - rewrite Hserved.
    destruct (ExerciseType_eqb e AutoDetect); reflexivity.
Qed.

Ltac engine_fields :=
  cbn [GE.lockedExercise GE.isLocked GE.currentExercise GE.shoulderHistory
       GE.analyzers GE.consecutiveFrames GE.potentialExercise].

Ltac engine_fields_in H :=
  cbn [GE.lockedExercise GE.isLocked GE.currentExercise GE.shoulderHistory
       GE.analyzers GE.consecutiveFrames GE.potentialExercise] in H.

Lemma withPlankElapsed_counters a s : counters (GE.withPlankElapsed a s) = counters a.
Proof. reflexivity. Qed.

(** The three ways a frame can go: no pose; a pose in the detection phase,
    answered with a placeholder; a pose handed to the analyzer of the
    exercise the engine serves from then on. *)
Lemma analyzeFrame_shape eng landmarks ts clock fb eng' :
  GE.analyzeFrame eng landmarks ts clock = Normal (fb, eng') ->
  sound eng ->
  ((landmarks = None \/ landmarks = Some []) /\ eng' = eng /\ fb = GE.noPoseFeedback)
  \/ (GE.currentExercise eng = AutoDetect /\ GE.lockedExercise eng = None
      /\ GE.currentExercise eng' = AutoDetect /\ GE.lockedExercise eng' = None
      /\ sound eng' /\ placeholder fb
      /\ GE.analyzers eng' = GE.analyzers eng)
  \/ (exists l eng0,
        landmarks = Some l
        /\ GE.delegate eng0 (served eng0) l ts clock = Normal (fb, eng')
        /\ sound eng0
        /\ GE.currentExercise eng0 = GE.currentExercise eng
        /\ lockKept eng eng0
        /\ (GE.lockedExercise eng0 = None -> GE.currentExercise eng0 <> AutoDetect)
        /\ (GE.analyzers eng0 = GE.analyzers eng
            \/ exists seconds,
                 GE.analyzers eng0 = GE.withPlankElapsed (GE.analyzers eng) seconds)).
Proof.
  intros H Hs.
  unfold GE.analyzeFrame in H.
  destruct landmarks as [[| p rest] |].
  - injection H as <- <-. left. auto.
  - right. set (l := p :: rest) in *.
    destruct (prop l 11 y) as [y11 | err]; cbn [bind] in H; [|discriminate H].
    destruct (prop l 12 y) as [y12 | err]; cbn [bind] in H; [|discriminate H].
    cbv zeta in H. engine_fields_in H.
    destruct Hs as [Hlock [Hlen Ht]].
    pose proof (pushShoulder_length _ ((y11 + y12) / 2) Hlen) as Hlen'.
    set (hist := GE.pushShoulder (GE.shoulderHistory eng) ((y11 + y12) / 2)) in *.
    destruct (ExerciseType_eqb (GE.currentExercise eng) AutoDetect) eqn:Ea.
    + apply eqb_eq_ex in Ea.
      destruct (GE.lockedExercise eng) as [locked |] eqn:Elk.
      * unfold lockSound in Hlock. rewrite Elk in Hlock.
        destruct Hlock as [Hl [Hcur Hreal]]. rewrite Hl in H.
        set (target := if ExerciseType_eqb locked Plank && (GE.varianceOf hist >? 0.05)
                       then PushUp else locked) in *.
        right. match type of H with GE.delegate ?g _ _ _ _ = _ => exists l, g end.
        split; [reflexivity|].
        split; [exact H|]. unfold sound, lockSound, lockKept. engine_fields.
        repeat split; try assumption.
        -- unfold target.
           destruct (ExerciseType_eqb locked Plank && (GE.varianceOf hist >? 0.05));
             [discriminate | exact Hreal].
        -- intros e He. rewrite Elk in He. injection He as <-. unfold target.
           destruct (ExerciseType_eqb locked Plank) eqn:Ep; cbn [andb]; [|left; reflexivity].
           apply eqb_eq_ex in Ep.
           destruct (GE.varianceOf hist >? 0.05); [right | left]; auto.
        -- intros Hn. discriminate Hn.
        -- left. reflexivity.
      * unfold lockSound in Hlock. rewrite Elk in Hlock. rewrite Hlock in H.
        destruct (EC.classifyExercise l) as [detected |] eqn:Ec.
        -- pose proof (classified_real _ _ Ec) as Hreal.
           match type of H with
           | (if ?c then _ else _) = _ => destruct c
           end.
           ++ match type of H with
              | GE.delegate _ ?t _ _ _ = _ => set (target := t) in *
              end.
              right. match type of H with GE.delegate ?g _ _ _ _ = _ => exists l, g end.
        split; [reflexivity|].
              split; [exact H|]. unfold sound, lockSound, lockKept. engine_fields.
              repeat split; try assumption.
              ** unfold target.
                 match goal with
                 | |- (if ?c then _ else _) <> _ => destruct c
                 end; [discriminate | exact Hreal].
              ** match goal with
                 | |- context [if ?c then _ else _] => destruct c
                 end; [rewrite withPlankElapsed_counters|]; exact Ht.
              ** intros e He. rewrite Elk in He. discriminate He.
              ** intros Hn. discriminate Hn.
              ** match goal with
                 | |- context [if ?c then _ else _] => destruct c
                 end; [right; eexists; reflexivity | left; reflexivity].
           ++ injection H as <- <-. left.
              unfold sound, lockSound, placeholder. engine_fields. rewrite ?Elk.
              cbn [GE.detectingFeedback score reps isGoodForm].
              repeat split; assumption.
        -- injection H as <- <-. left.
           unfold sound, lockSound, placeholder. engine_fields. rewrite ?Elk.
           cbn [GE.scanningFeedback score reps isGoodForm].
           repeat split; assumption.
    + assert (Hnone : GE.lockedExercise eng = None).
      { unfold lockSound in Hlock. destruct (GE.lockedExercise eng); [|reflexivity].
        destruct Hlock as [_ [Hcur _]]. rewrite Hcur in Ea. discriminate Ea. }
      rewrite Hnone in H.
      right. match type of H with GE.delegate ?g _ _ _ _ = _ => exists l, g end.
        split; [reflexivity|].
      split.
      * unfold served. engine_fields. exact H.
      * unfold sound, lockSound, lockKept. engine_fields. rewrite ?Hnone.
        repeat split; try assumption.
        -- unfold lockSound in Hlock. rewrite Hnone in Hlock. exact Hlock.
        -- intros e He. discriminate He.
        -- intros _. apply eqb_neq_ex. exact Ea.
        -- left. reflexivity.
  - injection H as <- <-. left. auto.
Qed.

Lemma analyzeFrame_sound eng landmarks ts clock fb eng' :
  GE.analyzeFrame eng landmarks ts clock = Normal (fb, eng') ->
  sound eng ->
  sound eng'
  /\ GE.currentExercise eng' = GE.currentExercise eng
  /\ lockKept eng eng'
  /\ (forall l, landmarks = Some l -> tooShort l = false ->
      countsReps (served eng') = true ->
      reps fb = INR (List.length (GE.getRepTimestamps eng'))).
Proof.
  intros H Hs.
  destruct (analyzeFrame_shape _ _ _ _ _ _ H Hs)
    as [[Hno [-> ->]] | [(Hc & Hl & Hc' & Hl' & Hs' & Hp & Ha) | (l & eng0 & -> & Hd & Hs0 & Hc0 & Hk0 & Hm0 & _)]].
  - repeat split; try apply Hs.
    + intros e He. left. exact He.
    + intros l Hl Hshort. destruct Hno as [Hno | Hno]; rewrite Hno in Hl;
        [discriminate Hl | injection Hl as <-; discriminate Hshort].
  - repeat split; try apply Hs'.
    + congruence.
    + intros e He. rewrite Hl in He. discriminate He.
    + intros l _ _ Hcr. unfold served in Hcr. rewrite Hl', Hc' in Hcr. discriminate Hcr.
  - destruct (delegate_sound _ _ _ _ _ _ _ Hd Hs0 eq_refl) as [Hs' [Hc' [Hk' Hr']]].
    repeat split; try apply Hs'.
    + congruence.
    + intros e He. rewrite Hk'. apply (Hk0 e He).
    + intros l0 Hl0 Hshort Hcr. injection Hl0 as <-.
      apply Hr'; [|exact Hshort].
      unfold served in Hcr |- *. rewrite Hk' in Hcr.
      destruct (GE.lockedExercise eng0); [exact Hcr|]. rewrite Hc' in Hcr. exact Hcr.
Qed.

(* ================================================================== *)

Lemma analyzeFrame_total eng l ts clock :
  (29 <= List.length l)%nat ->
  exists fb eng', GE.analyzeFrame eng (Some l) ts clock = Normal (fb, eng').
Proof.
  intros Hlen.
  destruct (shoulders_read l ltac:(lia)) as [H11 H12].
  unfold GE.analyzeFrame.
  destruct l as [| p rest]; [simpl in Hlen; lia|].
  rewrite H11, H12. cbn [bind]. cbv zeta.
  assert (Hd : forall g e, exists fb eng',
             GE.delegate g e (p :: rest) ts clock = Normal (fb, eng')).
  { intros g e.
    destruct (delegate_total g e (p :: rest) ts clock (or_intror Hlen))
      as (fb & eng' & Hd & _).
    exists fb, eng'. exact Hd. }
  destruct (ExerciseType_eqb (GE.currentExercise eng) AutoDetect); [|apply Hd].
  engine_fields.
  destruct (GE.isLocked eng), (GE.lockedExercise eng); try apply Hd;
    (destruct (EC.classifyExercise (p :: rest)); [|do 2 eexists; reflexivity];
     match goal with
     | |- context [if Nat.ltb ?a ?b then _ else _] => destruct (Nat.ltb a b)
     end; [apply Hd | do 2 eexists; reflexivity]).
Qed.

Lemma sound_create clock : sound (GE.create clock).
Proof.
  unfold sound, lockSound. cbn. repeat split; [lia|].
  repeat apply Forall_cons; try apply Forall_nil; apply tidy_create.
Qed.

Lemma sound_setExercise eng e : sound eng -> sound (GE.setExercise eng e).
Proof.
  intros [_ [Hlen Ht]]. unfold sound, lockSound, GE.setExercise. engine_fields.
  repeat split; assumption.
Qed.

Lemma tidy_setRecordingStartTime rc t :
  tidy rc -> tidy (RC.setRecordingStartTime rc t).
Proof. intros H. exact H. Qed.

Lemma sound_setRecordingStartTime eng t :
  sound eng -> sound (GE.setRecordingStartTime eng t).
Proof.
  intros [Hlock [Hlen Ht]]. unfold sound, lockSound, GE.setRecordingStartTime.
  cbv zeta. engine_fields. repeat split; try assumption.
  split_tidy Ht. unfold counters.
  repeat apply Forall_cons; try apply Forall_nil;
    apply tidy_setRecordingStartTime; assumption.
Qed.

Lemma play_sound calls : forall eng eng',
  play eng calls = Normal eng' -> sound eng -> sound eng'.
Proof.
  induction calls as [| c rest IH]; intros eng eng' H Hs.
  - injection H as <-. exact Hs.
  - cbn [play] in H.
    destruct c as [l ts clock | e | t]; cbn [engineCall bind] in H.
    + destruct (GE.analyzeFrame eng l ts clock) as [[fb eng1] | err] eqn:Ef;
        cbn [bind] in H; [|discriminate H].
      apply (IH _ _ H).
      apply (analyzeFrame_sound _ _ _ _ _ _ Ef Hs).
    + apply (IH _ _ H), sound_setExercise, Hs.
    + apply (IH _ _ H), sound_setRecordingStartTime, Hs.
Qed.



(** After any session, a frame of 33 landmarks is analysed without an
    exception, and if the exercise reported on counts its reps with a
    RepCounter, the reps of the feedback are the number of rep timestamps the
    engine hands out. *)
Theorem reps_match_timestamps clock calls eng l ts now :
  play (GE.create clock) calls = Normal eng ->
  (33 <= List.length l)%nat ->
  exists fb eng',
    GE.analyzeFrame eng (Some l) ts now = Normal (fb, eng')
    /\ (countsReps (served eng') = true ->
        reps fb = INR (List.length (GE.getRepTimestamps eng'))).
Proof.
  intros H Hlen.
  pose proof (play_sound calls _ _ H (sound_create clock)) as Hs.
  destruct (analyzeFrame_total eng l ts now ltac:(lia)) as (fb & eng' & Hf).
  exists fb, eng'. split; [exact Hf|].
  destruct (analyzeFrame_sound _ _ _ _ _ _ Hf Hs) as [_ [_ [_ Hr]]].
  apply (Hr l eq_refl). apply tooShort_false. exact Hlen.
Qed.

Lemma reps_match_timestamps_witness :
  exists fb eng',
    GE.analyzeFrame (GE.setExercise (GE.create 0) PushUp) (Some (levelFrame 0))
      (Some 0) 0 = Normal (fb, eng')
    /\ (countsReps (served eng') = true ->
        reps fb = INR (List.length (GE.getRepTimestamps eng'))).
Proof.
  apply (reps_match_timestamps 0 [CallSetExercise PushUp]).
  - reflexivity.
  - unfold levelFrame. rewrite poseFrame_length. lia.
Defined.






(* ================================================================== *)

(** Frames without a pose leave no trace in the engine: a run ends in the
    same state, or raises just the same, with those frames left out. *)
Theorem run_skips_empty_frames frames : forall eng,
  finalEngine (GE.run eng frames) = finalEngine (GE.run eng (filter hasPose frames)).
Proof.
  induction frames as [| [[l ts] clock] rest IH]; intros eng; [reflexivity|].
  cbn [filter]. unfold hasPose at 1. cbn [fst snd].
  destruct l as [[| p l'] |].
  - rewrite run_cons. cbn [GE.analyzeFrame bind].
    rewrite <- IH. destruct (GE.run eng rest) as [[fbs e] | err]; reflexivity.
  - rewrite !run_cons.
    destruct (GE.analyzeFrame eng (Some (p :: l')) ts clock) as [[fb eng1] | err];
      cbn [bind]; [|reflexivity].
    specialize (IH eng1).
    destruct (GE.run eng1 rest) as [[fbs e] | err];
      destruct (GE.run eng1 (filter hasPose rest)) as [[fbs' e'] | err'];
      cbn [bind finalEngine] in *; congruence.
  - rewrite run_cons. cbn [GE.analyzeFrame bind].
    rewrite <- IH. destruct (GE.run eng rest) as [[fbs e] | err]; reflexivity.
Qed.

Lemma run_total frames : forall eng,
  Forall (fun f : GE.Frame =>
            match fst (fst f) with
            | Some l => (29 <= List.length l)%nat
            | None => True
            end) frames ->
  exists fbs eng', GE.run eng frames = Normal (fbs, eng').
Proof.
  induction frames as [| [[l ts] clock] rest IH]; intros eng Hlen.
  - do 2 eexists. reflexivity.
  - inversion Hlen as [| f fs Hf Hrest]; subst. cbn [fst] in Hf.
    rewrite run_cons.
    assert (Ha : exists fb eng1, GE.analyzeFrame eng l ts clock = Normal (fb, eng1)).
    { destruct l as [l |]; [apply analyzeFrame_total, Hf|].
      do 2 eexists. reflexivity. }
    destruct Ha as (fb & eng1 & Ha). rewrite Ha. cbn [bind].
    destruct (IH eng1 Hrest) as (fbs & eng2 & Hr). rewrite Hr. cbn [bind].
    do 2 eexists. reflexivity.
Qed.

(** ** One analyzer per exercise *)

Lemma analyzeWith_others e a l ts clock fb a' e0 :
  GE.analyzeWith e a l ts clock = Normal (fb, a') ->
  e0 <> e ->
  GE.getRepTimestampsOf e0 a' = GE.getRepTimestampsOf e0 a.
Proof.
  intros H Hne.
  destruct e; cbn [GE.analyzeWith] in H;
    try (match type of H with
         | context [let '(_, _) := ?p in _] => destruct p as [fb0 s]
         end;
         injection H as _ <-;
         destruct e0; try reflexivity; contradiction Hne; reflexivity).
  destruct (PlankAnalyzer.analyze (GE.plank a) l ts clock) as [[fb0 s] | err];
    cbn [bind] in H; [|discriminate H].
  injection H as _ <-. destruct e0; reflexivity.
Qed.

Lemma manual_frame_others eng landmarks ts clock fb eng' e0 :
  GE.analyzeFrame eng landmarks ts clock = Normal (fb, eng') ->
  GE.currentExercise eng <> AutoDetect ->
  e0 <> GE.currentExercise eng ->
  GE.currentExercise eng' = GE.currentExercise eng
  /\ GE.getRepTimestampsOf e0 (GE.analyzers eng')
     = GE.getRepTimestampsOf e0 (GE.analyzers eng).
Proof.
  intros H Hm Hne.
  destruct landmarks as [l |]; [|injection H as _ <-; split; reflexivity].
  destruct l as [| p rest]; [injection H as _ <-; split; reflexivity|].
  destruct (Nat.le_gt_cases 13 (List.length (p :: rest))) as [Hlen | Hlen].
  - rewrite (analyzeFrame_manual _ _ _ _ Hm Hlen) in H.
    destruct (delegate_frame _ _ _ _ _ _ _ H) as (fb0 & a' & Ha & _ & ->).
    cbn [withHistory GE.withAnalyzers GE.currentExercise GE.analyzers] in *.
    split; [reflexivity|].
    apply (analyzeWith_others _ _ _ _ _ _ _ _ Ha Hne).
  - exfalso. unfold GE.analyzeFrame in H.
    assert (Hthrow : prop (p :: rest) 11 y = Throw TypeError
                     \/ prop (p :: rest) 12 y = Throw TypeError).
    { destruct (Nat.le_gt_cases 12 (List.length (p :: rest))) as [H12 | H12].
      - right. apply prop_missing. lia.
      - left. apply prop_missing. lia. }
    destruct Hthrow as [Ht | Ht].
    + rewrite Ht in H. discriminate H.
    + destruct (prop (p :: rest) 11 y); [rewrite Ht in H|]; discriminate H.
Qed.

Lemma manual_run_others frames : forall eng fbs eng' e0,
  GE.run eng frames = Normal (fbs, eng') ->
  GE.currentExercise eng <> AutoDetect ->
  e0 <> GE.currentExercise eng ->
  GE.getRepTimestampsOf e0 (GE.analyzers eng')
  = GE.getRepTimestampsOf e0 (GE.analyzers eng).
Proof.
  induction frames as [| [[l ts] clock] rest IH]; intros eng fbs eng' e0 H Hm Hne.
  - injection H as _ <-. reflexivity.
  - rewrite run_cons in H.
    destruct (GE.analyzeFrame eng l ts clock) as [[fb eng1] | err] eqn:Ef;
      cbn [bind] in H; [|discriminate H].
    destruct (GE.run eng1 rest) as [[fbs1 eng2] | err] eqn:Er;
      cbn [bind] in H; [|discriminate H].
    injection H as _ <-.
    destruct (manual_frame_others _ _ _ _ _ _ e0 Ef Hm Hne) as [Hc Ho].
    rewrite <- Ho. apply (IH _ _ _ _ Er); rewrite Hc; assumption.
Qed.

(** With an exercise selected by hand, the frames reach the analyzer of
    that exercise alone, and [setExercise] resets no analyzer: whatever set
    is done in between, going back to another exercise finds the reps it
    had recorded before. *)
Theorem other_exercises_keep_their_reps eng frames fbs eng' e0 :
  GE.run eng frames = Normal (fbs, eng') ->
  GE.currentExercise eng <> AutoDetect ->
  e0 <> GE.currentExercise eng ->
  GE.getRepTimestamps (GE.setExercise eng' e0)
  = GE.getRepTimestamps (GE.setExercise eng e0).
Proof.
  intros H Hm Hne.
  unfold GE.getRepTimestamps, GE.setExercise. engine_fields.
  destruct (ExerciseType_eqb e0 AutoDetect);
    apply (manual_run_others _ _ _ _ _ H Hm Hne).
Qed.

Lemma other_exercises_keep_their_reps_witness :
  exists fbs eng',
    GE.run (GE.setExercise (GE.create 0) PushUp)
      [(Some (levelFrame 0), Some 0, 0); (Some (levelFrame 0.1), Some 333, 0)]
    = Normal (fbs, eng')
    /\ GE.getRepTimestamps (GE.setExercise eng' Squat) = [].
Proof.
  destruct (run_total
              [(Some (levelFrame 0), Some 0, 0); (Some (levelFrame 0.1), Some 333, 0)]
              (GE.setExercise (GE.create 0) PushUp)) as (fbs & eng' & Hr).
  - repeat constructor; cbn [fst]; unfold levelFrame; rewrite poseFrame_length; lia.
  - exists fbs, eng'. split; [exact Hr|].
    rewrite (other_exercises_keep_their_reps _ _ _ _ Squat Hr); [reflexivity | |];
      discriminate.
Defined.

(** In Auto-Detect mode, as long as a session has not come to a lock, no
    analyzer sees a frame: every feedback is a placeholder with no score
    and no reps, and the analyzers stay as they were. *)
Theorem detection_reaches_no_analyzer clock calls eng landmarks ts now fb eng' :
  play (GE.create clock) calls = Normal eng ->
  GE.analyzeFrame eng landmarks ts now = Normal (fb, eng') ->
  GE.currentExercise eng' = AutoDetect ->
  GE.lockedExercise eng' = None ->
  placeholder fb /\ GE.analyzers eng' = GE.analyzers eng.
Proof.
  intros Hplay H Hcur Hnone.
  pose proof (play_sound calls _ _ Hplay (sound_create clock)) as Hs.
  destruct (analyzeFrame_shape _ _ _ _ _ _ H Hs)
    as [[_ [-> ->]] | [(_ & _ & _ & _ & _ & Hp & Ha) | (l & eng0 & _ & Hd & Hs0 & _ & _ & Hm0 & _)]].
  - split; [|reflexivity]. unfold placeholder. cbn. auto.
  - split; assumption.
  - exfalso.
    destruct (delegate_sound _ _ _ _ _ _ _ Hd Hs0 eq_refl) as [_ [Hc' [Hk' _]]].
    rewrite Hk' in Hnone. rewrite Hc' in Hcur. exact (Hm0 Hnone Hcur).
Qed.

Lemma detection_reaches_no_analyzer_witness :
  exists fb eng',
    GE.analyzeFrame autoDetectEngine (Some (levelFrame 0)) (Some 0) 0 = Normal (fb, eng')
    /\ placeholder fb /\ GE.analyzers eng' = GE.analyzers autoDetectEngine.
Proof.
  eexists _, _. split.
  - rewrite (analyzeFrame_detecting autoDetectEngine (levelFrame 0) (Some 0) 0 PushUp
               eq_refl eq_refl (level_classified 0))
      by (intros _; spread_decide).
    cbn [autoDetectEngine GE.setExercise GE.potentialExercise GE.lockThreshold Nat.ltb
         Nat.leb bind GE.shoulderHistory GE.create GE.lockedExercise GE.analyzers].
    reflexivity.
  - match goal with
    | |- placeholder ?f /\ GE.analyzers ?e = _ =>
        apply (detection_reaches_no_analyzer 0 [CallSetExercise AutoDetect]
                 autoDetectEngine (Some (levelFrame 0)) (Some 0) 0 f e)
    end; try reflexivity.
    rewrite (analyzeFrame_detecting autoDetectEngine (levelFrame 0) (Some 0) 0 PushUp
               eq_refl eq_refl (level_classified 0))
      by (intros _; spread_decide).
    cbn [autoDetectEngine GE.setExercise GE.potentialExercise GE.lockThreshold Nat.ltb
         Nat.leb bind GE.shoulderHistory GE.create GE.lockedExercise GE.analyzers].
    reflexivity.
Defined.

(* ================================================================== *)

(** ** The counter behind an exercise *)







(** ** The analyzer under the Auto-Detect key *)





(* ================================================================== *)

(** ** Grades *)

Lemma gt_sound a b : (a >? b) = true -> b < a.
Proof. intros H. destruct (gt_spec a b); [lra | discriminate H]. Qed.

Lemma posture_range l v :
  0 <= BiomechanicalAnalyzer.calculatePosture l v <= 100.
Proof.
  unfold BiomechanicalAnalyzer.calculatePosture. cbv zeta.
  match goal with
  | |- context [Rabs ?d] => pose proof (Rabs_pos d) as Hd; generalize dependent (Rabs d)
  end.
  intros r Hr. unfold Rmax. destruct (Rle_dec 0 (100 - r * 2)); lra.
Qed.

(** Open an [analyze] call down to its score and settle every pillar. *)
Ltac grade :=
  unfold graded; cbv zeta;
  destruct (tooShort _); [cbn; split; [lra | discriminate]|];
  repeat match goal with
  | |- context [let '(_, _) := ?p in _] => destruct p
  end;
  cbn [fst score isGoodForm stability rom posture efficiency bracing total];
  split;
  [ repeat match goal with
    | |- context [match ?v with Front => _ | Side => _ | FortyFive => _ | Unknown => _ end] =>
        destruct v
    | |- context [match nth_error ?l ?i with Some _ => _ | None => _ end] =>
        destruct (nth_error l i)
    | |- context [if ?c then _ else _] => destruct c
    end; try lra
  | intros Hg; try (apply andb_prop in Hg; destruct Hg as [Hg _]);
    match type of Hg with
    | (?a >? ?b) = true => destruct (gt_spec a b); [lra | discriminate Hg]
    end ].

Lemma tbar_graded st l ts clock : graded (fst (TBarRowAnalyzer.analyze st l ts clock)).
Proof.
  unfold TBarRowAnalyzer.analyze, RowBiomechanics.analyzePillars,
    RowBiomechanics.calculateStability, RowBiomechanics.calculateROM,
    BiomechanicalAnalyzer.calculateEfficiency.
  grade.
Qed.

Lemma curl_graded st l ts clock : graded (fst (BicepCurlAnalyzer.analyze st l ts clock)).
Proof.
  unfold BicepCurlAnalyzer.analyze, CurlBiomechanics.analyzePillars,
    CurlBiomechanics.calculateStability, CurlBiomechanics.calculateROM,
    CurlBiomechanics.calculateEfficiency.
  grade.
Qed.

Lemma pullup_graded st l ts clock : graded (fst (PullUpAnalyzer.analyze st l ts clock)).
Proof.
  unfold PullUpAnalyzer.analyze, PullUpBiomechanics.analyzePillars,
    PullUpBiomechanics.calculateStability, PullUpBiomechanics.calculateROM,
    BiomechanicalAnalyzer.calculateEfficiency.
  grade.
Qed.

Lemma pushup_graded st l ts clock : graded (fst (PushUpAnalyzer.analyze st l ts clock)).
Proof.
  pose proof (posture_range l (BiomechanicalAnalyzer.detectView l)) as Hp.
  unfold PushUpAnalyzer.analyze, PushUpBiomechanics.analyzePillars,
    PushUpBiomechanics.calculateStability, PushUpBiomechanics.calculateROM,
    PushUpBiomechanics.calculateBracing, BiomechanicalAnalyzer.calculateEfficiency.
  grade.
Qed.

Lemma legext_graded st l ts clock : graded (fst (LegExtensionAnalyzer.analyze st l ts clock)).
Proof.
  unfold LegExtensionAnalyzer.analyze, LegExtBiomechanics.analyzePillars,
    LegExtBiomechanics.calculateStability, LegExtBiomechanics.calculateROM.
  grade.
Qed.

Lemma dips_graded st l ts clock : graded (fst (TricepDipsAnalyzer.analyze st l ts clock)).
Proof.
  unfold TricepDipsAnalyzer.analyze, DipsBiomechanics.analyzePillars,
    DipsBiomechanics.calculatePosture, DipsBiomechanics.calculateROM,
    DipsBiomechanics.calculateEfficiency, BiomechanicalAnalyzer.calculateStability.
  grade.
Qed.

Lemma fly_graded st l ts clock : graded (fst (ChestFlyAnalyzer.analyze st l ts clock)).
Proof.
  unfold ChestFlyAnalyzer.analyze, FlyBiomechanics.analyzePillars,
    FlyBiomechanics.calculateStability, FlyBiomechanics.calculateROM.
  grade.
Qed.

Lemma incline_graded st l ts clock : graded (fst (InclineBenchAnalyzer.analyze st l ts clock)).
Proof.
  unfold InclineBenchAnalyzer.analyze, InclineBiomechanics.analyzePillars,
    InclineBiomechanics.calculateROM, InclineBiomechanics.calculateEfficiency,
    BiomechanicalAnalyzer.calculateStability.
  grade.
Qed.

Lemma bench_graded st l ts clock : graded (fst (BenchPressAnalyzer.analyze st l ts clock)).
Proof.
  unfold BenchPressAnalyzer.analyze, BenchPressBiomechanics.analyzePillars,
    BenchPressBiomechanics.calculateStability, BenchPressBiomechanics.calculateROM,
    BenchPressBiomechanics.calculateEfficiency.
  grade.
Qed.

Lemma legraises_graded st l ts clock : graded (fst (LegRaisesAnalyzer.analyze st l ts clock)).
Proof.
  unfold LegRaisesAnalyzer.analyze, LegRaiseBiomechanics.analyzePillars,
    LegRaiseBiomechanics.calculateStability, LegRaiseBiomechanics.calculateROM,
    LegRaiseBiomechanics.calculateEfficiency.
  grade.
Qed.

Lemma latraise_graded st l ts clock : graded (fst (LateralRaiseAnalyzer.analyze st l ts clock)).
Proof.
  unfold LateralRaiseAnalyzer.analyze, LatRaiseBiomechanics.analyzePillars,
    LatRaiseBiomechanics.calculateStability, LatRaiseBiomechanics.calculateROM,
    LatRaiseBiomechanics.calculatePosture, LatRaiseBiomechanics.calculateEfficiency.
  grade.
Qed.

Lemma latpulldown_graded st l ts clock : graded (fst (LatPulldownAnalyzer.analyze st l ts clock)).
Proof.
  unfold LatPulldownAnalyzer.analyze, LatBiomechanics.analyzePillars,
    LatBiomechanics.calculateStability, LatBiomechanics.calculateROM,
    BiomechanicalAnalyzer.calculateEfficiency.
  grade.
Qed.

Lemma squat_graded st l ts clock : graded (fst (SquatAnalyzer.analyze st l ts clock)).
Proof.
  unfold SquatAnalyzer.analyze, SquatBiomechanics.analyzePillars,
    SquatBiomechanics.calculateStability, SquatBiomechanics.calculateROM,
    SquatBiomechanics.calculatePosture, SquatBiomechanics.calculateEfficiency,
    SquatBiomechanics.calculateBracing, SquatBiomechanics.checkValgus,
    SquatBiomechanics.checkDepth, SquatBiomechanics.checkMidfootBalance,
    SquatBiomechanics.checkSymmetry.
  grade.
Qed.

Lemma twist_graded st l ts clock : graded (fst (RT.analyze st l ts clock)).
Proof.
  unfold graded, RT.analyze. cbv zeta.
  destruct (tooShort l); cbn [fst score isGoodForm RT.emptyFeedback];
    (split; [lra | intros H; first [discriminate H | lra]]).
Qed.

Lemma plank_graded st l ts clock fb st' :
  PA.analyze st l ts clock = Normal (fb, st') -> 0.25 <= score fb <= 1.
Proof.
  unfold PA.analyze. cbv zeta.
  destruct (prop l 23 _) as [v23 | err]; cbn [bind]; [|discriminate].
  destruct (prop l 24 _) as [v24 | err]; cbn [bind]; [|discriminate].
  destruct (item l _) as [sh | err]; cbn [bind]; [|discriminate].
  destruct (item l _) as [hp | err]; cbn [bind]; [|discriminate].
  destruct (item l _) as [kn | err]; cbn [bind]; [|discriminate].
  destruct (item l _) as [an | err]; cbn [bind]; [|discriminate].
  match goal with
  | |- context [Rabs (180 - ?h)] =>
      pose proof (Rabs_pos (180 - h)) as Hd; generalize dependent (Rabs (180 - h))
  end.
  intros r Hr.
  assert (Hp : 0 <= Rmax 0 (1 - r / 40) <= 1).
  { unfold Rmax. destruct (Rle_dec 0 (1 - r / 40)); lra. }
  generalize dependent (Rmax 0 (1 - r / 40)). intros q Hq.
  repeat match goal with
  | |- context [if ?c then _ else _] => destruct c
  end; intros H; injection H as <- _; cbn [score]; lra.
Qed.

(* ================================================================== *)

Lemma analyzeWith_graded e a l ts clock fb a' :
  GE.analyzeWith e a l ts clock = Normal (fb, a') ->
  if ExerciseType_eqb e Plank then 0.25 <= score fb <= 1 else graded fb.
Proof.
  intros H.
  destruct e; cbn [GE.analyzeWith ExerciseType_eqb] in H |- *;
    try (match type of H with
         | context [let '(_, _) := ?p in _] => destruct p as [fb0 s] eqn:E
         end;
         injection H as <- _;
         match type of E with
         | _ ?st _ _ _ = _ =>
         first [ pose proof (tbar_graded st l ts clock) as Hg; rewrite E in Hg; exact Hg
                 | pose proof (curl_graded st l ts clock) as Hg; rewrite E in Hg; exact Hg
                 | pose proof (pullup_graded st l ts clock) as Hg; rewrite E in Hg; exact Hg
                 | pose proof (pushup_graded st l ts clock) as Hg; rewrite E in Hg; exact Hg
                 | pose proof (legext_graded st l ts clock) as Hg; rewrite E in Hg; exact Hg
                 | pose proof (dips_graded st l ts clock) as Hg; rewrite E in Hg; exact Hg
                 | pose proof (fly_graded st l ts clock) as Hg; rewrite E in Hg; exact Hg
                 | pose proof (incline_graded st l ts clock) as Hg; rewrite E in Hg; exact Hg
                 | pose proof (bench_graded st l ts clock) as Hg; rewrite E in Hg; exact Hg
                 | pose proof (legraises_graded st l ts clock) as Hg; rewrite E in Hg; exact Hg
                 | pose proof (latraise_graded st l ts clock) as Hg; rewrite E in Hg; exact Hg
                 | pose proof (latpulldown_graded st l ts clock) as Hg; rewrite E in Hg; exact Hg
                 | pose proof (squat_graded st l ts clock) as Hg; rewrite E in Hg; exact Hg
                 | pose proof (twist_graded st l ts clock) as Hg; rewrite E in Hg; exact Hg ]
         end).
  destruct (PlankAnalyzer.analyze (GE.plank a) l ts clock) as [[fb0 s] | err] eqn:E;
    cbn [bind] in H; [|discriminate H].
  injection H as <- _. apply (plank_graded _ _ _ _ _ _ E).
Qed.

Lemma delegate_graded eng e l ts clock fb eng' :
  GE.delegate eng e l ts clock = Normal (fb, eng') ->
  served eng = e ->
  (GE.lockedExercise eng = None -> GE.currentExercise eng <> AutoDetect) ->
  detectedExercise fb = Some e
  /\ if ExerciseType_eqb e Plank then 0.25 <= score fb <= 1 else graded fb.
Proof.
  intros H Hserved Hm.
  destruct (delegate_frame _ _ _ _ _ _ _ H) as [fb0 [a' [Ha [-> _]]]].
  pose proof (analyzeWith_graded _ _ _ _ _ _ _ Ha) as Hg.
  split.
  - unfold GE.postProcess, served in *. cbn [detectedExercise].
    destruct (GE.lockedExercise eng) as [k |]; [congruence|].
    specialize (Hm eq_refl). apply eqb_neq_ex in Hm. rewrite Hm. cbn [negb].
    congruence.
  - unfold graded, GE.postProcess in *. cbn [score isGoodForm]. exact Hg.
Qed.

(** Every feedback of a session carries a score from 0 to 100, and good form
    goes with a score above 80 except for Plank, whose analyzer scores on a
    scale that ends at 1. *)
Theorem feedback_graded clock calls eng landmarks ts now fb eng' :
  play (GE.create clock) calls = Normal eng ->
  GE.analyzeFrame eng landmarks ts now = Normal (fb, eng') ->
  0 <= score fb <= 100
  /\ (isGoodForm fb = true -> 80 < score fb \/ detectedExercise fb = Some Plank)
  /\ (detectedExercise fb = Some Plank -> score fb <= 1).
Proof.
  intros Hplay H.
  pose proof (play_sound calls _ _ Hplay (sound_create clock)) as Hs.
  destruct (analyzeFrame_shape _ _ _ _ _ _ H Hs)
    as [[_ [_ ->]] | [(_ & _ & _ & _ & _ & Hp & _) | (l & eng0 & _ & Hd & _ & _ & _ & Hm0 & _)]].
  - cbn [GE.noPoseFeedback score isGoodForm detectedExercise].
    repeat split; try lra; discriminate.
  - destruct Hp as [Hsc [_ Hgf]]. rewrite Hsc, Hgf.
    repeat split; try lra; discriminate.
  - destruct (delegate_graded _ _ _ _ _ _ _ Hd eq_refl Hm0) as [Hde Hg].
    rewrite Hde.
    destruct (ExerciseType_eqb (served eng0) Plank) eqn:Ep.
    + apply eqb_eq_ex in Ep. rewrite Ep.
      repeat split; try lra. right. reflexivity.
    + apply eqb_neq_ex in Ep. destruct Hg as [Hr Hgood].
      repeat split; try lra.
      * intros Hgf. left. apply Hgood, Hgf.
      * intros Hpl. injection Hpl as Hpl. contradiction.
Qed.

Lemma feedback_graded_witness :
  exists fb eng',
    GE.analyzeFrame (GE.create 0) (Some (levelFrame 0)) None 0 = Normal (fb, eng')
    /\ 0 <= score fb <= 100.
Proof.
  destruct (analyzeFrame_total (GE.create 0) (levelFrame 0) None 0) as (fb & eng' & Hf).
  - unfold levelFrame. rewrite poseFrame_length. lia.
  - exists fb, eng'. split; [exact Hf|].
    apply (feedback_graded 0 [] (GE.create 0) _ _ _ _ _ eq_refl Hf).
Defined.

(* ================================================================== *)

(** ** T-Bar Row *)

(** The T-Bar Row analyzer has nothing to say about form: its scorer
    hard-codes the posture and bracing pillars, so every frame of 33
    landmarks gets a score of 100 and good form, the message is the phase
    of the rep and the correction is empty. *)
Theorem tbar_never_corrects st l ts clock :
  (33 <= List.length l)%nat ->
  let fb := fst (TBarRowAnalyzer.analyze st l ts clock) in
  score fb = 100 /\ isGoodForm fb = true
  /\ message fb = repPhase fb /\ correction fb = Some "".
Proof.
  intros Hlen.
  unfold TBarRowAnalyzer.analyze, RowBiomechanics.analyzePillars,
    RowBiomechanics.calculateStability, RowBiomechanics.calculateROM,
    BiomechanicalAnalyzer.calculateEfficiency.
  open_analyze Hlen.
  cbn [fst score isGoodForm message repPhase correction
       stability rom posture efficiency bracing].
  destruct (BiomechanicalAnalyzer.detectView l);
    js_decide; cbn [pushIf firstOr join String.concat];
    (split; [lra|]); (split; [js_decide; reflexivity|]); split; reflexivity.
Qed.

Lemma tbar_never_corrects_witness :
  score (fst (TBarRowAnalyzer.analyze TBarRowAnalyzer.create (levelFrame 0) None 0)) = 100.
Proof.
  apply (tbar_never_corrects TBarRowAnalyzer.create (levelFrame 0) None 0).
  unfold levelFrame. rewrite poseFrame_length. lia.
Defined.

(* ================================================================== *)

(** ** Russian Twist *)

Lemma lastEnd_snoc reps r d : lastEnd (reps ++ [r]) d = end_ r.
Proof. unfold lastEnd. rewrite fold_left_app. reflexivity. Qed.

Lemma contiguous_snoc reps : forall r d,
  contiguous reps -> (reps = [] \/ lastEnd reps d = start r) ->
  contiguous (reps ++ [r]).
Proof.
  induction reps as [| a rest IH]; intros r d Hc Hl; [exact I|].
  destruct rest as [| b rest'].
  - destruct Hl as [Hl | Hl]; [discriminate Hl|]. cbn in *. auto.
  - destruct Hc as [Hab Hc]. change ((a :: b :: rest') ++ [r]) with (a :: (b :: rest') ++ [r]).
    cbn [contiguous app]. split; [exact Hab|].
    apply (IH r (end_ a) Hc). right.
    destruct Hl as [Hl | Hl]; [discriminate Hl|]. exact Hl.
Qed.

Lemma twist_step st l ts clock :
  twistKept st ->
  let st' := snd (RT.analyze st l ts clock) in
  twistKept st' /\ (RT.repCount st <= RT.repCount st' <= S (RT.repCount st))%nat.
Proof.
  intros (Hs & Hc & Hl & Hn). cbv zeta.
  unfold RT.analyze. cbv zeta.
  destruct (tooShort l); [cbn [snd]; split; [repeat split; assumption | lia]|].
  cbn [snd]. unfold twistKept.
  cbn [RT.repCount RT.repTimestamps RT.lastPeakTime].
  repeat match goal with
  | |- context [if ?c then _ else _] =>
      lazymatch c with
      | (_ && (_ >? 500))%bool => destruct c eqn:Hpeak
      | (RT.lastPeakTime _ >? 0) => destruct c eqn:Hpos
      | _ => destruct c
      end;
      cbn [RT.repCount RT.repTimestamps RT.lastPeakTime]
  end;
  try (split; [repeat split; assumption | lia]).
  - apply andb_prop in Hpeak. destruct Hpeak as [_ Hpeak].
    apply gt_sound in Hpeak. apply gt_sound in Hpos.
    split; [|lia]. repeat split.
    + apply Forall_app. split; [exact Hs|]. constructor; [|constructor].
      cbn [start end_]. lra.
    + apply (contiguous_snoc _ _ 0 Hc). cbn [start].
      destruct Hl as [Hl | [Hl _]]; [left | right]; exact Hl.
    + right. split; [apply lastEnd_snoc | lra].
    + rewrite length_app. cbn [List.length]. lia.
  - apply andb_prop in Hpeak. destruct Hpeak as [_ Hpeak].
    apply gt_sound in Hpeak.
    destruct (gt_spec (RT.lastPeakTime st) 0) as [Hgt | Hle]; [discriminate Hpos|].
    split; [|lia]. repeat split; try assumption; [|lia].
    destruct Hl as [Hl | [_ Hl]]; [left; exact Hl | lra].
Qed.

Lemma twistKept_create clock : twistKept (RT.create clock).
Proof.
  unfold twistKept, spaced. cbn. repeat split; auto.
Qed.

Lemma twistKept_session calls : forall st,
  twistKept st -> twistKept (twistSession st calls).
Proof.
  unfold twistSession.
  induction calls as [| c rest IH]; intros st H; [exact H|].
  cbn [fold_left]. apply IH.
  destruct c as [l ts clock | t]; cbn [twistCall].
  - apply (twist_step st l ts clock H).
  - exact H.
Qed.

(** Whatever is called on a new Russian Twist analyzer: each recorded rep
    lasts more than 500 ms, each starts at the instant the one before it
    ended, and there are at most as many of them as reps counted. *)
Theorem twist_reps_spaced clock calls :
  let st := twistSession (RT.create clock) calls in
  spaced (RT.getRepTimestamps st)
  /\ contiguous (RT.getRepTimestamps st)
  /\ (List.length (RT.getRepTimestamps st) <= RT.repCount st)%nat.
Proof.
  cbv zeta.
  destruct (twistKept_session calls _ (twistKept_create clock)) as (Hs & Hc & _ & Hn).
  repeat split; assumption.
Qed.

Lemma sameTwist_refl st : sameTwist st st.
Proof. unfold sameTwist. repeat split. Qed.

Lemma sameTwist_analyze a b l ts clock :
  sameTwist a b ->
  fst (RT.analyze a l ts clock) = fst (RT.analyze b l ts clock)
  /\ sameTwist (snd (RT.analyze a l ts clock)) (snd (RT.analyze b l ts clock)).
Proof.
  destruct a as [ox d n cc lp cm reps rs], b as [ox' d' n' cc' lp' cm' reps' rs'].
  unfold sameTwist. cbn [RT.lastXOffset RT.direction RT.repCount RT.crossedCenter
    RT.lastPeakTime RT.currentMidTime RT.repTimestamps].
  intros (<- & <- & <- & <- & <- & <- & <-).
  unfold RT.analyze. cbv zeta.
  cbn [RT.lastXOffset RT.direction RT.repCount RT.crossedCenter
       RT.lastPeakTime RT.currentMidTime RT.repTimestamps RT.recordingStartTime].
  repeat match goal with
  | |- context [if ?c then _ else _] =>
      destruct c;
      cbn [fst snd RT.lastXOffset RT.direction RT.repCount RT.crossedCenter
           RT.lastPeakTime RT.currentMidTime RT.repTimestamps RT.recordingStartTime]
  end;
  repeat split.
Qed.

Lemma sameTwist_session calls : forall a b,
  sameTwist a b ->
  sameTwist (twistSession a calls) (twistSession b (filter isTwistAnalyze calls)).
Proof.
  unfold twistSession.
  induction calls as [| c rest IH]; intros a b H; [exact H|].
  destruct c as [l ts clock | t]; cbn [filter isTwistAnalyze fold_left twistCall].
  - apply IH. apply (sameTwist_analyze a b l ts clock H).
  - apply IH. exact H.
Qed.

(** The Russian Twist analyzer never reads the recording start time: a
    session counts and records the same with its [setRecordingStartTime]
    calls left out. *)
Theorem twist_ignores_recording_start st calls :
  sameTwist (twistSession st calls) (twistSession st (filter isTwistAnalyze calls)).
Proof. apply sameTwist_session, sameTwist_refl. Qed.

(** ** Plank *)

Lemma plank_step st l ts clock fb st' :
  PA.analyze st l ts clock = Normal (fb, st') ->
  PA.lastFrameTime st = 0 \/ PA.lastFrameTime st <= clock ->
  PA.accumulatedSeconds st <= PA.accumulatedSeconds st'
  /\ PA.lastFrameTime st' = clock
  /\ (isGoodForm fb = false ->
      PA.accumulatedSeconds st' = PA.accumulatedSeconds st /\ PA.bufferTime st' = 0).
Proof.
  unfold PA.analyze. cbv zeta. intros H Hclock.
  destruct (prop l 23 _) as [v23 | err]; cbn [bind] in H; [|discriminate H].
  destruct (prop l 24 _) as [v24 | err]; cbn [bind] in H; [|discriminate H].
  destruct (item l _) as [sh | err]; cbn [bind] in H; [|discriminate H].
  destruct (item l _) as [hp | err]; cbn [bind] in H; [|discriminate H].
  destruct (item l _) as [kn | err]; cbn [bind] in H; [|discriminate H].
  destruct (item l _) as [an | err]; cbn [bind] in H; [|discriminate H].
  revert H.
  destruct (eq_spec (PA.lastFrameTime st) 0) as [E | E];
    repeat match goal with
    | |- context [if ?c then _ else _] => destruct c
    end;
    intros H; injection H as <- <-;
    cbn [PA.accumulatedSeconds PA.lastFrameTime PA.bufferTime isGoodForm];
    repeat split; try reflexivity; try discriminate;
    try (destruct Hclock; lra).
Qed.

Lemma plankRun_cons st l ts clock rest :
  plankRun st ((l, ts, clock) :: rest)
  = let* '(fb, st') := PA.analyze st l ts clock in
    let* '(fbs, st'') := plankRun st' rest in
    Normal (fb :: fbs, st'').
Proof. reflexivity. Qed.

Lemma plankRun_total shots : forall st,
  Forall (fun s : Shot => (29 <= List.length (pose s))%nat) shots ->
  exists fbs st', plankRun st shots = Normal (fbs, st').
Proof.
  induction shots as [| [[l ts] clock] rest IH]; intros st Hlen.
  - do 2 eexists. reflexivity.
  - inversion Hlen as [| s ss Hs Hrest]; subst. cbn [pose fst] in Hs.
    rewrite plankRun_cons.
    destruct (plank_total st l ts clock Hs) as [[fb st1] Ha]. rewrite Ha. cbn [bind].
    destruct (IH st1 Hrest) as (fbs & st2 & Hr). rewrite Hr. cbn [bind].
    do 2 eexists. reflexivity.
Qed.

(** The hold time of a Plank analyzer never shrinks over frames whose clock
    readings do not go back, whatever the form: a break of form stops the
    count without taking back what was counted. *)
Theorem plank_hold_never_shrinks shots : forall st fbs st',
  plankRun st shots = Normal (fbs, st') ->
  StronglySorted Rle (clockReadings shots) ->
  PA.lastFrameTime st = 0 \/ Forall (Rle (PA.lastFrameTime st)) (clockReadings shots) ->
  PA.accumulatedSeconds st <= PA.accumulatedSeconds st'.
Proof.
  induction shots as [| [[l ts] clock] rest IH]; intros st fbs st' H Hsorted Hlast.
  - injection H as _ <-. lra.
  - rewrite plankRun_cons in H.
    destruct (PA.analyze st l ts clock) as [[fb st1] | err] eqn:Ea;
      cbn [bind] in H; [|discriminate H].
    destruct (plankRun st1 rest) as [[fbs1 st2] | err] eqn:Er;
      cbn [bind] in H; [|discriminate H].
    injection H as _ <-.
    cbn [clockReadings map snd] in Hsorted, Hlast. fold (clockReadings rest) in Hsorted, Hlast.
    inversion Hsorted as [| c cs Hs Hf]; subst.
    destruct (plank_step _ _ _ _ _ _ Ea) as [Hacc [Hl1 _]].
    { destruct Hlast as [Hz | Hall]; [left; exact Hz | right].
      inversion Hall; assumption. }
    apply Rle_trans with (1 := Hacc).
    apply (IH _ _ _ Er Hs). right. rewrite Hl1. exact Hf.
Qed.

Lemma plank_hold_never_shrinks_witness :
  exists fbs st',
    plankRun PA.create
      [(levelFrame 0, None, 1000); (leaningFrame, None, 1800);
       (levelFrame 0, None, 2600)] = Normal (fbs, st')
    /\ 0 <= PA.accumulatedSeconds st'.
Proof.
  destruct (plankRun_total
              [(levelFrame 0, None, 1000); (leaningFrame, None, 1800);
               (levelFrame 0, None, 2600)] PA.create) as (fbs & st' & Hr).
  - repeat constructor; cbn [pose fst]; unfold levelFrame, leaningFrame;
      rewrite poseFrame_length; lia.
  - exists fbs, st'. split; [exact Hr|].
    apply (plank_hold_never_shrinks _ PA.create fbs st' Hr).
    + cbn [clockReadings map snd]. repeat constructor; lra.
    + left. reflexivity.
Defined.
